(** * lpad_run: the command-line front end of the FireWorks LaunchPad

    A shallow embedding of [fireworks/scripts/lpad_run.py].  The commands
    are functions in a state-and-exception monad over a [World] that holds
    the argparse namespace (mutated in place by the script), the LaunchPad
    database, the terminal (typed answers, printed output), the logger, the
    wall clock and the trace of mutating LaunchPad calls.

    The LaunchPad itself ([fireworks.core.launchpad]), the configuration
    constants of [fireworks.fw_config] and the Python library functions the
    script calls are not part of this file of the repository: they are the
    fields of the class [External]. *)

From Stdlib Require Import ZArith List String Ascii Bool Lia DecimalString.
From Stdlib Require Import Sorted Permutation.
Import ListNotations.
Open Scope string_scope.
Open Scope Z_scope.
Set Warnings "-register-all".

(** ** Python values *)

(** Keys of the dictionaries the script handles: Mongo documents and queries
    have string keys, the [links] table of [get_links] has integer keys. *)
Inductive pykey : Type :=
| KInt (n : Z)
| KStr (s : string).

(** The JSON-like values that are queried, assembled and printed. *)
Inductive pyval : Type :=
| PNone
| PBool (b : bool)
| PInt (n : Z)
| PStr (s : string)
| PList (xs : list pyval)
| PDict (kvs : list (pykey * pyval)).

(** What a LaunchPad id query returns: a list of ids, or their number when
    it is called with [count_only=True]. *)
Inductive ids_result : Type :=
| IdList (ids : list Z)
| IdCount (n : Z).

(** pymongo's [ASCENDING] and [DESCENDING]. *)
Inductive direction : Type :=
| ASCENDING
| DESCENDING.

(** An optional argument of a call: left to the callee's default, or given. *)
Inductive arg (A : Type) : Type :=
| Default
| Given (a : A).
Arguments Default {A}.
Arguments Given {A} a.

(** An attribute of the argparse namespace: a sub-command whose parser does
    not declare the option leaves the attribute undefined. *)
Inductive attr (A : Type) : Type :=
| Absent
| Present (a : A).
Arguments Absent {A}.
Arguments Present {A} a.

(** ** Exceptions and results *)

Inductive exc : Type :=
| ValueError (msg : string)
| IndexError
| KeyError (k : pykey)
| TypeError
| AttributeError (name : string)
| EOFError
| RecursionError
| ImportError (module : string)
| LaunchPadError (msg : string).

Inductive result (A : Type) : Type :=
| Ok (a : A)
| Raise (e : exc).
Arguments Ok {A} a.
Arguments Raise {A} e.

(** ** Strings *)

Definition dquote : string := String (ascii_of_nat 34) EmptyString.
Definition newline : string := String (ascii_of_nat 10) EmptyString.

(** [str(n)] / ['{}'.format(n)] / ["%d" % n] for an integer. *)
Definition str_of_Z (n : Z) : string := NilZero.string_of_int (Z.to_int n).

(** [sep.join(l)]. *)
Fixpoint join (sep : string) (l : list string) : string :=
  match l with
  | [] => ""
  | [x] => x
  | x :: rest => x ++ sep ++ join sep rest
  end.

(** ['{}'.format(l)] for a list of integers: [[1, 2, 3]]. *)
Definition str_of_Zlist (l : list Z) : string :=
  "[" ++ join ", " (map str_of_Z l) ++ "]".

(** ['{}'.format(x)] for an optional string: [None] prints as its name. *)
Definition str_of_optstr (o : option string) : string :=
  match o with
  | None => "None"
  | Some s => s
  end.

(** [c.upper()] on one character. *)
Definition ascii_upper (c : ascii) : ascii :=
  let n := nat_of_ascii c in
  if (Nat.leb 97 n && Nat.leb n 122)%bool then ascii_of_nat (n - 32) else c.

(** [s.split("--")]: the separator is matched left to right, without
    overlap; [acc] is the current piece, reversed. *)
Fixpoint split_dashes (s : string) (acc : list ascii) : list string :=
  match s with
  | EmptyString => [string_of_list_ascii (rev acc)]
  | String "-" (String "-" rest) =>
      string_of_list_ascii (rev acc) :: split_dashes rest []
  | String c rest => split_dashes rest (c :: acc)
  end.

(** [s.split("--")[-1]]: [split] never returns an empty list. *)
Definition last_piece (s : string) : string := last (split_dashes s []) "".

(** The one-character strings of [s], as iterating over a [str] yields them. *)
Fixpoint chars (s : string) : list string :=
  match s with
  | EmptyString => []
  | String c rest => String c EmptyString :: chars rest
  end.

(** [os.path.join(a, b)] for a relative [b]. *)
Definition path_join (a b : string) : string :=
  match rev (list_ascii_of_string a) with
  | [] => b
  | c :: _ => if Ascii.eqb c "/" then a ++ b else a ++ "/" ++ b
  end.

(** ** Truth values, lengths, items *)

Definition pykey_eqb (a b : pykey) : bool :=
  match a, b with
  | KInt x, KInt y => Z.eqb x y
  | KStr x, KStr y => String.eqb x y
  | _, _ => false
  end.

Definition len {A : Type} (l : list A) : Z := Z.of_nat (List.length l).

(** [bool(x)] for a value. *)
Definition truthy (v : pyval) : bool :=
  match v with
  | PNone => false
  | PBool b => b
  | PInt n => negb (Z.eqb n 0)
  | PStr s => negb (String.eqb s "")
  | PList xs => negb (Z.eqb (len xs) 0)
  | PDict kvs => negb (Z.eqb (len kvs) 0)
  end.

(** [bool(x)] for an option that argparse leaves [None] or sets to a string. *)
Definition truthy_str (o : option string) : bool :=
  match o with
  | None => false
  | Some s => negb (String.eqb s "")
  end.

(** [bool(x)] for an option that argparse leaves [None] or sets to a list. *)
Definition truthy_list {A : Type} (o : option (list A)) : bool :=
  match o with
  | None => false
  | Some l => negb (Z.eqb (len l) 0)
  end.

(** [sum([bool(x) for x in l])]. *)
Fixpoint sum_bools (l : list bool) : Z :=
  match l with
  | [] => 0
  | b :: rest => (if b then 1 else 0) + sum_bools rest
  end.

Definition pyval_of_key (k : pykey) : pyval :=
  match k with
  | KInt n => PInt n
  | KStr s => PStr s
  end.

Definition pyval_of_ids (r : ids_result) : pyval :=
  match r with
  | IdList ids => PList (map PInt ids)
  | IdCount n => PInt n
  end.

Definition pyval_of_optstr (o : option string) : pyval :=
  match o with
  | None => PNone
  | Some s => PStr s
  end.

Definition pyval_of_optids (o : option (list Z)) : pyval :=
  match o with
  | None => PNone
  | Some l => PList (map PInt l)
  end.

(** Dictionaries keep the order in which their keys were first inserted. *)
Fixpoint dict_get {V : Type} (d : list (pykey * V)) (k : pykey) : option V :=
  match d with
  | [] => None
  | (k', v) :: rest => if pykey_eqb k' k then Some v else dict_get rest k
  end.

(** [d[k] = v]. *)
Fixpoint dict_set {V : Type} (d : list (pykey * V)) (k : pykey) (v : V)
  : list (pykey * V) :=
  match d with
  | [] => [(k, v)]
  | (k', v') :: rest =>
      if pykey_eqb k' k then (k', v) :: rest else (k', v') :: dict_set rest k v
  end.

(** [k in d]. *)
Definition dict_mem {V : Type} (d : list (pykey * V)) (k : pykey) : bool :=
  match dict_get d k with
  | Some _ => true
  | None => false
  end.

(** The dictionary without its binding of [k]. *)
Fixpoint dict_remove {V : Type} (d : list (pykey * V)) (k : pykey)
  : list (pykey * V) :=
  match d with
  | [] => []
  | (k', v) :: rest =>
      if pykey_eqb k' k then rest else (k', v) :: dict_remove rest k
  end.

(** [del d[k]]. *)
Definition dict_del {V : Type} (d : list (pykey * V)) (k : pykey)
  : result (list (pykey * V)) :=
  if dict_mem d k then Ok (dict_remove d k) else Raise (KeyError k).

(** [len(v)]. *)
Definition py_len (v : pyval) : result Z :=
  match v with
  | PStr s => Ok (Z.of_nat (String.length s))
  | PList xs => Ok (len xs)
  | PDict kvs => Ok (len kvs)
  | _ => Raise TypeError
  end.

(** [l[i]] for an integer index, negative ones counting from the end. *)
Definition list_index {A : Type} (l : list A) (i : Z) : result A :=
  let j := if i <? 0 then len l + i else i in
  if (j <? 0) || (len l <=? j) then Raise IndexError
  else match nth_error l (Z.to_nat j) with
       | Some x => Ok x
       | None => Raise IndexError
       end.

(** [v[k]]. *)
Definition py_getitem (v : pyval) (k : pykey) : result pyval :=
  match v, k with
  | PList xs, KInt i => list_index xs i
  | PStr s, KInt i =>
      match list_index (chars s) i with
      | Ok c => Ok (PStr c)
      | Raise e => Raise e
      end
  | PDict kvs, _ =>
      match dict_get kvs k with
      | Some x => Ok x
      | None => Raise (KeyError k)
      end
  | _, _ => Raise TypeError
  end.

(** [v[k] = x] for a string key [k]: only a dictionary takes it. *)
Definition py_setitem (v : pyval) (k : string) (x : pyval) : result pyval :=
  match v with
  | PDict kvs => Ok (PDict (dict_set kvs (KStr k) x))
  | _ => Raise TypeError
  end.

(** [for x in v]: the elements of a list, the keys of a dictionary, the
    characters of a string. *)
Definition py_iter (v : pyval) : result (list pyval) :=
  match v with
  | PList xs => Ok xs
  | PDict kvs => Ok (map (fun kv => pyval_of_key (fst kv)) kvs)
  | PStr s => Ok (map PStr (chars s))
  | _ => Raise TypeError
  end.

(** [v += s] for a string [s]: concatenation on a string; a list is
    extended by the characters of [s]. *)
Definition py_iadd_str (v : pyval) (s : string) : result pyval :=
  match v with
  | PStr t => Ok (PStr (t ++ s))
  | PList xs => Ok (PList (xs ++ map PStr (chars s))%list)
  | _ => Raise TypeError
  end.

(** [len(ids)] and [for f in ids] on what an id query returned. *)
Definition ids_len (r : ids_result) : result Z :=
  match r with
  | IdList ids => Ok (len ids)
  | IdCount _ => Raise TypeError
  end.

Definition ids_iter (r : ids_result) : result (list Z) :=
  match r with
  | IdList ids => Ok ids
  | IdCount _ => Raise TypeError
  end.

(** ** The argparse namespace

    One record for the namespaces the sub-command parsers of [lpad] build.
    [password] is an [attr]: the parsers of [get_fws], [get_wfs],
    [purge_wfs], [track_fws] and [recover_offline] declare no [--password],
    and reading the attribute there raises [AttributeError]. *)

(** [get_output_func]: the function [lpad] stores in [args.output]. *)
Inductive output_func : Type :=
| json_dumps
| yaml_dump.

Definition get_output_func (format : string) : output_func :=
  if String.eqb format "json" then json_dumps else yaml_dump.

Record Args : Type := mkArgs {
  launchpad_file : option string;
  config_dir : string;
  logdir : option string;
  loglvl : string;
  silencer : bool;
  output : output_func;
  fw_id : option (list Z);
  name : option string;
  state : option string;
  query : option string;
  qid : option string;
  password : attr (option string);
  display_format : option string;
  max : Z;
  sort : option string;
  rsort : option string;
  table : bool;
  depth : Z;
  ignore_errors : bool;
  include : option (list string);
  exclude : option (list string);
  priority : Z
}.

Definition set_launchpad_file (a : Args) (v : option string) : Args :=
  mkArgs v (config_dir a) (logdir a) (loglvl a) (silencer a) (output a)
    (fw_id a) (name a) (state a) (query a) (qid a) (password a)
    (display_format a) (max a) (sort a) (rsort a) (table a) (depth a)
    (ignore_errors a) (include a) (exclude a) (priority a).

Definition set_loglvl (a : Args) (v : string) : Args :=
  mkArgs (launchpad_file a) (config_dir a) (logdir a) v (silencer a) (output a)
    (fw_id a) (name a) (state a) (query a) (qid a) (password a)
    (display_format a) (max a) (sort a) (rsort a) (table a) (depth a)
    (ignore_errors a) (include a) (exclude a) (priority a).

Definition set_query (a : Args) (v : option string) : Args :=
  mkArgs (launchpad_file a) (config_dir a) (logdir a) (loglvl a) (silencer a)
    (output a) (fw_id a) (name a) (state a) v (qid a) (password a)
    (display_format a) (max a) (sort a) (rsort a) (table a) (depth a)
    (ignore_errors a) (include a) (exclude a) (priority a).

Definition set_password (a : Args) (v : attr (option string)) : Args :=
  mkArgs (launchpad_file a) (config_dir a) (logdir a) (loglvl a) (silencer a)
    (output a) (fw_id a) (name a) (state a) (query a) (qid a) v
    (display_format a) (max a) (sort a) (rsort a) (table a) (depth a)
    (ignore_errors a) (include a) (exclude a) (priority a).

Definition set_display_format (a : Args) (v : option string) : Args :=
  mkArgs (launchpad_file a) (config_dir a) (logdir a) (loglvl a) (silencer a)
    (output a) (fw_id a) (name a) (state a) (query a) (qid a) (password a)
    v (max a) (sort a) (rsort a) (table a) (depth a)
    (ignore_errors a) (include a) (exclude a) (priority a).

Definition set_depth (a : Args) (v : Z) : Args :=
  mkArgs (launchpad_file a) (config_dir a) (logdir a) (loglvl a) (silencer a)
    (output a) (fw_id a) (name a) (state a) (query a) (qid a) (password a)
    (display_format a) (max a) (sort a) (rsort a) (table a) v
    (ignore_errors a) (include a) (exclude a) (priority a).

Definition max_default : Z := 0.

Definition DEFAULT_LPAD_YAML : string := "my_launchpad.yaml".

(** ** The LaunchPad calls that change the database *)

Inductive lp_call : Type :=
| lp_reset (password : option string)
| lp_defuse_wf (f : Z)
| lp_archive_wf (f : Z)
| lp_reignite_wf (f : Z)
| lp_defuse_fw (f : Z)
| lp_reignite_fw (f : Z)
| lp_rerun_fw (f : Z)
| lp_purge_workflow (i : Z)
| lp_set_priority (f : Z) (p : Z)
| lp_refresh_wf (wf : pyval) (f : Z)
| lp_recover_offline (launch_id : pyval) (ignore_errors : bool).

(** [bool(x)] for what a mutating call returned. *)
Definition truthy_id (o : option Z) : bool :=
  match o with
  | None => false
  | Some n => negb (Z.eqb n 0)
  end.

(** One tracker of a launch: its file name and its printed form [str(t)]. *)
Record tracker : Type := mkTracker {
  filename : string;
  tracker_str : string
}.

(** ** What the script takes from outside this file *)

Class External : Type := {
  (** the database behind a [LaunchPad] object *)
  Store : Type;
  (** [fireworks.fw_config.PW_CHECK_NUM] *)
  PW_CHECK_NUM : Z;
  (** [ast.literal_eval] *)
  literal_eval : string -> result pyval;
  (** [int(s)] on a string *)
  int_of_str : string -> result Z;
  (** [sys.getrecursionlimit()], as frames left to [get_children] *)
  recursion_limit : nat;
  (** [os.path.exists] *)
  path_exists : string -> bool;
  (** whether [from prettytable import PrettyTable] finds the module *)
  prettytable_installed : bool;
  (** whether [LaunchPad.from_file(f)] returns (it raises otherwise) *)
  LaunchPad_from_file : string -> bool;
  (** whether [LaunchPad(logdir=d, strm_lvl=l)] returns *)
  LaunchPad_new : option string -> string -> bool;
  (** [lp.get_wf_ids(query, sort, limit, count_only)] *)
  get_wf_ids : Store -> pyval -> arg (option (list (string * direction))) ->
               arg Z -> arg bool -> result ids_result;
  (** [lp.get_fw_ids(query, sort, limit, count_only)] *)
  get_fw_ids : Store -> pyval -> arg (option (list (string * direction))) ->
               arg Z -> arg bool -> result ids_result;
  (** [lp.get_fw_ids_from_reservation_id(qid)] *)
  get_fw_ids_from_reservation_id : Store -> string -> result ids_result;
  (** [lp.get_fw_by_id(id).to_dict()] *)
  get_fw_by_id_to_dict : Store -> Z -> result (list (pykey * pyval));
  (** [lp.get_wf_summary_dict(i, mode)] *)
  get_wf_summary_dict : Store -> Z -> option string ->
                        result (list (pykey * pyval));
  (** [lp.get_wf_by_fw_id(f)] *)
  get_wf_by_fw_id : Store -> Z -> result pyval;
  (** [lp.workflows.count()] *)
  workflows_count : Store -> result Z;
  (** [lp.offline_runs.find(filter, projection)], read when the loop starts *)
  offline_runs_find : Store -> pyval -> pyval -> result (list pyval);
  (** [lp.get_tracker_data(f)]: launch ids with their trackers *)
  get_tracker_data : Store -> Z -> result (list (Z * list tracker));
  (** [lp.fireworks.find_one({"fw_id": f}, {"name": 1})['name']] *)
  fireworks_find_name : Store -> Z -> result string;
  (** a mutating call: what it returns ([None] or an integer, the fw_id
      that [lp.recover_offline] reports) or raises, and the database after *)
  lp_exec : lp_call -> Store -> result (option Z) * Store
}.

(** ** The world a command runs in *)

Inductive loglevel : Type :=
| DEBUG
| INFO.

(** What the terminal shows. *)
Inductive printed : Type :=
| Prompt (s : string)
| Print_output (f : output_func) (v : pyval)
| Print_yaml (v : pyval)
| Print_table (headers : list pykey) (rows : list (list pyval))
| Print_text (s : string)
| Print_traceback.

Section Script.

Context {E : External}.

(** [w_dates n] is the date ['%Y-%m-%d'] that the [n]-th reading of the
    clock shows; [w_clock] counts the readings made so far.  [w_stdin] are
    the lines the user will type.  [w_calls] is the trace of the mutating
    LaunchPad calls issued, oldest first. *)
Record World : Type := mkWorld {
  w_args : Args;
  w_store : Store;
  w_stdin : list string;
  w_dates : nat -> string;
  w_clock : nat;
  w_out : list printed;
  w_log : list (loglevel * string);
  w_calls : list lp_call
}.

(** A command: from a world to what it returns or raises, and the world
    it leaves. *)
Definition M (A : Type) : Type := World -> result A * World.

Definition ret {A : Type} (a : A) : M A := fun w => (Ok a, w).

Definition raise {A : Type} (e : exc) : M A := fun w => (Raise e, w).

Definition bind {A B : Type} (c : M A) (k : A -> M B) : M B :=
  fun w =>
    match c w with
    | (Ok a, w') => k a w'
    | (Raise e, w') => (Raise e, w')
    end.

Notation "x <- c1 ;; c2" := (bind c1 (fun x => c2))
  (at level 61, c1 at next level, right associativity).
Notation "c1 ;; c2" := (bind c1 (fun _ => c2))
  (at level 61, right associativity).

Definition lift {A : Type} (r : result A) : M A := fun w => (r, w).

Definition get_args : M Args := fun w => (Ok (w_args w), w).

Definition put_args (a : Args) : M unit := fun w =>
  (Ok tt, mkWorld a (w_store w) (w_stdin w) (w_dates w) (w_clock w)
            (w_out w) (w_log w) (w_calls w)).

(** A LaunchPad method that only reads the database. *)
Definition read {A : Type} (f : Store -> result A) : M A :=
  fun w => (f (w_store w), w).

(** A LaunchPad method that changes the database. *)
Definition call (c : lp_call) : M (option Z) := fun w =>
  let (r, s) := lp_exec c (w_store w) in
  (r, mkWorld (w_args w) s (w_stdin w) (w_dates w) (w_clock w)
        (w_out w) (w_log w) (w_calls w ++ [c])).

(** [print(...)]. *)
Definition print (p : printed) : M unit := fun w =>
  (Ok tt, mkWorld (w_args w) (w_store w) (w_stdin w) (w_dates w) (w_clock w)
            (w_out w ++ [p]) (w_log w) (w_calls w)).

(** [input(prompt)]: shows the prompt, then reads a line. *)
Definition input (prompt : string) : M string := fun w =>
  match w_stdin w with
  | [] =>
      (Raise EOFError,
       mkWorld (w_args w) (w_store w) [] (w_dates w) (w_clock w)
         (w_out w ++ [Prompt prompt]) (w_log w) (w_calls w))
  | line :: rest =>
      (Ok line,
       mkWorld (w_args w) (w_store w) rest (w_dates w) (w_clock w)
         (w_out w ++ [Prompt prompt]) (w_log w) (w_calls w))
  end.

(** [datetime.datetime.now().strftime('%Y-%m-%d')]. *)
Definition today : M string := fun w =>
  (Ok (w_dates w (w_clock w)),
   mkWorld (w_args w) (w_store w) (w_stdin w) (w_dates w) (S (w_clock w))
     (w_out w) (w_log w) (w_calls w)).

(** [lp.m_logger.debug(msg)] and [lp.m_logger.info(msg)]. *)
Definition log (lvl : loglevel) (msg : string) : M unit := fun w =>
  (Ok tt, mkWorld (w_args w) (w_store w) (w_stdin w) (w_dates w) (w_clock w)
            (w_out w) (w_log w ++ [(lvl, msg)]) (w_calls w)).

(** [for x in l: body(x)]. *)
Fixpoint for_each {A : Type} (l : list A) (body : A -> M unit) : M unit :=
  match l with
  | [] => ret tt
  | x :: rest => body x ;; for_each rest body
  end.

(** A loop that carries an accumulator. *)
Fixpoint fold_m {A B : Type} (body : B -> A -> M B) (l : list A) (acc : B)
  : M B :=
  match l with
  | [] => ret acc
  | x :: rest => acc' <- body acc x ;; fold_m body rest acc'
  end.

(** A loop that appends one result per element. *)
Fixpoint map_m {A B : Type} (f : A -> M B) (l : list A) : M (list B) :=
  match l with
  | [] => ret []
  | x :: rest => y <- f x ;; ys <- map_m f rest ;; ret (y :: ys)
  end.

(** [args.password]. *)
Definition get_password : M (option string) :=
  args <- get_args ;;
  match password args with
  | Absent => raise (AttributeError "password")
  | Present p => ret p
  end.

(** [args.password = v]. *)
Definition set_args_password (v : option string) : M unit :=
  args <- get_args ;;
  put_args (set_password args (Present v)).

(** [s[0]]. *)
Definition first_char (s : string) : result ascii :=
  match s with
  | EmptyString => Raise IndexError
  | String c _ => Ok c
  end.

(** The string of an option known to hold one. *)
Definition the_str (o : option string) : string :=
  match o with
  | None => ""
  | Some s => s
  end.

(** [a == b] for an optional string and a string. *)
Definition optstr_eqb (o : option string) (s : string) : bool :=
  match o with
  | None => false
  | Some t => String.eqb t s
  end.

(** [ast.literal_eval(args.query)]. *)
Definition literal_eval_opt (o : option string) : result pyval :=
  match o with
  | None => Raise (ValueError "malformed node or string: None")
  | Some s => literal_eval s
  end.

(** *** pw_check *)

Definition pw_check (ids : ids_result) (skip_pw : bool) : M ids_result :=
  n <- lift (ids_len ids) ;;
  if (PW_CHECK_NUM <? n) && negb skip_pw then
    m_password <- today ;;
    pw <- get_password ;;
    (if negb (truthy_str pw) then
       answer <- input ("Are you sure? This will modify " ++ str_of_Z n
                        ++ " entries. (Y/N)") ;;
       c <- lift (first_char answer) ;;
       if Ascii.eqb (ascii_upper c) "Y" then
         d <- today ;; set_args_password (Some d)
       else raise (ValueError "Operation aborted by user.")
     else ret tt) ;;
    pw' <- get_password ;;
    if negb (optstr_eqb pw' m_password) then
      raise (ValueError
        ("Modifying more than " ++ str_of_Z PW_CHECK_NUM
         ++ " entries requires setting the --password parameter! (Today's date, e.g. 2012-02-25)"))
    else ret ids
  else ret ids.

(** *** parse_helper *)

Definition parse_helper (wf_mode skip_pw : bool) : M ids_result :=
  args <- get_args ;;
  if truthy_list (fw_id args)
     && (1 <=? sum_bools [truthy_str (name args); truthy_str (state args);
                          truthy_str (query args)])
  then raise (ValueError "Cannot specify both fw_id and name/state/query)")
  else if truthy_list (fw_id args) then
    pw_check (IdList (match fw_id args with Some l => l | None => [] end))
      skip_pw
  else
    q0 <- (if truthy_str (query args) then lift (literal_eval_opt (query args))
           else ret (PDict [])) ;;
    q1 <- (if truthy_str (name args)
           then lift (py_setitem q0 "name" (pyval_of_optstr (name args)))
           else ret q0) ;;
    q2 <- (if truthy_str (state args)
           then lift (py_setitem q1 "state" (pyval_of_optstr (state args)))
           else ret q1) ;;
    if wf_mode then
      ids <- read (fun s => get_wf_ids s q2 Default Default Default) ;;
      pw_check ids skip_pw
    else
      ids <- read (fun s => get_fw_ids s q2 Default Default Default) ;;
      pw_check ids skip_pw.

(** *** get_lp

    The object it returns is a handle on the database [w_store]. *)

Definition connect_error (file : option string) : string :=
  "FireWorks was not able to connect to MongoDB. Is the server running? The database file specified was "
  ++ str_of_optstr file ++ "."
  ++ (if negb (truthy_str file) then
        " Type " ++ dquote ++ "lpad init" ++ dquote
        ++ " if you would like to set up a file that specifies location and credentials of your Mongo database (otherwise use default localhost configuration)."
      else "").

Definition get_lp : M unit :=
  args <- get_args ;;
  (if negb (truthy_str (launchpad_file args))
      && path_exists (path_join (config_dir args) DEFAULT_LPAD_YAML)
   then put_args (set_launchpad_file args
                    (Some (path_join (config_dir args) DEFAULT_LPAD_YAML)))
   else ret tt) ;;
  args <- get_args ;;
  connected <-
    (if truthy_str (launchpad_file args) then
       ret (LaunchPad_from_file (the_str (launchpad_file args)))
     else
       put_args (set_loglvl args
                   (if silencer args then "CRITICAL" else loglvl args)) ;;
       args <- get_args ;;
       ret (LaunchPad_new (logdir args) (loglvl args))) ;;
  if connected : bool then ret tt
  else
    print Print_traceback ;;
    args <- get_args ;;
    raise (ValueError (connect_error (launchpad_file args))).

(** *** reset *)

Definition reset : M unit :=
  get_lp ;;
  pw <- get_password ;;
  (if negb (truthy_str pw) then
     n <- read workflows_count ;;
     answer <- input ("Are you sure? This will RESET " ++ str_of_Z n
                      ++ " workflows and all data. (Y/N)") ;;
     c <- lift (first_char answer) ;;
     if Ascii.eqb (ascii_upper c) "Y" then
       d <- today ;; set_args_password (Some d)
     else raise (ValueError "Operation aborted by user.")
   else ret tt) ;;
  pw' <- get_password ;;
  call (lp_reset pw') ;;
  ret tt.

(** *** get_fws and get_wfs *)

(** [sort = [(args.sort, ASCENDING)]], [[(args.rsort, DESCENDING)]] or
    [None]: the same lines in [get_fws] and in [get_wfs]. *)
Definition sort_of (args : Args) : option (list (string * direction)) :=
  if truthy_str (sort args) then Some [(the_str (sort args), ASCENDING)]
  else if truthy_str (rsort args) then Some [(the_str (rsort args), DESCENDING)]
  else None.

(** [if len(fws) == 1: fws = fws[0]]. *)
Definition unwrap_single (fws : pyval) : result pyval :=
  match py_len fws with
  | Ok n => if n =? 1 then py_getitem fws (KInt 0) else Ok fws
  | Raise e => Raise e
  end.

(** The document of one FireWork as [get_fws] shows it in the formats
    [more], [less] and [all]. *)
Definition trim_fw_dict (fmt : option string) (d : list (pykey * pyval))
  : result (list (pykey * pyval)) :=
  match
    (if optstr_eqb fmt "more" || optstr_eqb fmt "less" then
       dict_del (if dict_mem d (KStr "archived_launches")
                 then dict_remove d (KStr "archived_launches") else d)
                (KStr "spec")
     else Ok d)
  with
  | Ok d1 =>
      Ok (if optstr_eqb fmt "less" then
            if dict_mem d1 (KStr "launches")
            then dict_remove d1 (KStr "launches") else d1
          else d1)
  | Raise e => Raise e
  end.

(** The list [fws] that [get_fws] assembles from the ids it has obtained
    (lines 186 to 202). *)
Definition present_fws (ids : ids_result) : M pyval :=
  args <- get_args ;;
  if optstr_eqb (display_format args) "ids" then ret (pyval_of_ids ids)
  else if optstr_eqb (display_format args) "count" then
    ret (PList [pyval_of_ids ids])
  else
    l <- lift (ids_iter ids) ;;
    ds <- map_m (fun id =>
            d <- read (fun s => get_fw_by_id_to_dict s id) ;;
            d' <- lift (trim_fw_dict (display_format args) d) ;;
            ret (PDict d')) l ;;
    ret (PList ds).

(** [get_fws] up to the list [fws] it has assembled (lines 149 to 202). *)
Definition get_fws_results : M pyval :=
  get_lp ;;
  args <- get_args ;;
  (if 1 <? sum_bools [truthy_list (fw_id args); truthy_str (name args);
                      truthy_str (state args); truthy_str (query args)]
   then raise (ValueError
                 "Please specify exactly one of (fw_id, name, state, query)")
   else ret tt) ;;
  (if sum_bools [truthy_list (fw_id args); truthy_str (name args);
                 truthy_str (state args); truthy_str (query args)] =? 0
   then
     put_args (set_query args (Some "{}")) ;;
     args <- get_args ;;
     put_args (set_display_format args
                 (if truthy_str (display_format args)
                  then display_format args else Some "ids"))
   else ret tt) ;;
  args <- get_args ;;
  (if 1 <? sum_bools [truthy_list (fw_id args); truthy_str (name args);
                      truthy_str (qid args)]
   then raise (ValueError "Please specify exactly one of (fw_id, name, qid)")
   else
     put_args (set_display_format args
                 (if truthy_str (display_format args)
                  then display_format args else Some "more"))) ;;
  args <- get_args ;;
  query <-
    (if truthy_list (fw_id args) then
       ret (PDict [(KStr "fw_id",
                    PDict [(KStr "$in", pyval_of_optids (fw_id args))])])
     else if truthy_str (name args) then
       ret (PDict [(KStr "name", pyval_of_optstr (name args))])
     else if truthy_str (state args) then
       ret (PDict [(KStr "state", pyval_of_optstr (state args))])
     else if truthy_str (query args) then
       lift (literal_eval_opt (query args))
     else ret PNone) ;;
  ids <-
    (if truthy_str (qid args) then
       ids0 <- read (fun s =>
                 get_fw_ids_from_reservation_id s (the_str (qid args))) ;;
       if truthy query then
         query' <- lift (py_setitem query "fw_id"
                           (PDict [(KStr "$in", pyval_of_ids ids0)])) ;;
         read (fun s => get_fw_ids s query' (Given (sort_of args))
                          (Given (max args)) Default)
       else ret ids0
     else
       read (fun s => get_fw_ids s query (Given (sort_of args))
                        (Given (max args))
                        (Given (optstr_eqb (display_format args) "count")))) ;;
  present_fws ids.

Definition get_fws : M unit :=
  fws <- get_fws_results ;;
  fws' <- lift (unwrap_single fws) ;;
  args <- get_args ;;
  print (Print_output (output args) fws').

(** [list(v.keys())]. *)
Definition py_keys (v : pyval) : result (list pykey) :=
  match v with
  | PDict kvs => Ok (map fst kvs)
  | _ => Raise (AttributeError "keys")
  end.

(** [d.get(k)]. *)
Definition py_get (d : pyval) (k : pykey) : result pyval :=
  match d with
  | PDict kvs =>
      match dict_get kvs k with
      | Some v => Ok v
      | None => Ok PNone
      end
  | _ => Raise (AttributeError "get")
  end.

(** [[f(x) for x in l]] for an [f] that may raise. *)
Fixpoint map_r {A B : Type} (f : A -> result B) (l : list A)
  : result (list B) :=
  match l with
  | [] => Ok []
  | x :: rest =>
      match f x with
      | Ok y =>
          match map_r f rest with
          | Ok ys => Ok (y :: ys)
          | Raise e => Raise e
          end
      | Raise e => Raise e
      end
  end.

(** The [--table] branch of [get_wfs], up to the table it prints. *)
Definition wf_table (wfs : pyval) : result printed :=
  match py_getitem wfs (KInt 0) with
  | Ok first =>
      match py_keys first with
      | Ok headers =>
          if prettytable_installed then
            match py_iter wfs with
            | Ok ds =>
                match map_r (fun d => map_r (py_get d) headers) ds with
                | Ok rows => Ok (Print_table headers rows)
                | Raise e => Raise e
                end
            | Raise e => Raise e
            end
          else Raise (ImportError "prettytable")
      | Raise e => Raise e
      end
  | Raise e => Raise e
  end.

(** [d["name"] += "--%d" % i]. *)
Definition tag_name (d : list (pykey * pyval)) (i : Z)
  : result (list (pykey * pyval)) :=
  match py_getitem (PDict d) (KStr "name") with
  | Ok v =>
      match py_iadd_str v ("--" ++ str_of_Z i) with
      | Ok v' => Ok (dict_set d (KStr "name") v')
      | Raise e => Raise e
      end
  | Raise e => Raise e
  end.

(** The list [wfs] that [get_wfs] assembles from the ids it has obtained
    (lines 236 to 245). *)
Definition present_wfs (ids : ids_result) : M pyval :=
  args <- get_args ;;
  if optstr_eqb (display_format args) "ids" then ret (pyval_of_ids ids)
  else if optstr_eqb (display_format args) "count" then
    ret (PList [pyval_of_ids ids])
  else
    l <- lift (ids_iter ids) ;;
    ds <- map_m (fun i =>
            d <- read (fun s =>
                   get_wf_summary_dict s i (display_format args)) ;;
            d' <- lift (tag_name d i) ;;
            ret (PDict d')) l ;;
    ret (PList ds).

(** [get_wfs] up to the list [wfs] it has assembled (lines 210 to 245). *)
Definition get_wfs_results : M pyval :=
  get_lp ;;
  args <- get_args ;;
  (if 1 <? sum_bools [truthy_list (fw_id args); truthy_str (name args);
                      truthy_str (state args); truthy_str (query args)]
   then raise (ValueError
                 "Please specify exactly one of (fw_id, name, state, query)")
   else ret tt) ;;
  (if sum_bools [truthy_list (fw_id args); truthy_str (name args);
                 truthy_str (state args); truthy_str (query args)] =? 0
   then
     put_args (set_query args (Some "{}")) ;;
     args <- get_args ;;
     put_args (set_display_format args
                 (if truthy_str (display_format args)
                  then display_format args else Some "ids"))
   else
     put_args (set_display_format args
                 (if truthy_str (display_format args)
                  then display_format args else Some "more"))) ;;
  args <- get_args ;;
  query <-
    (if truthy_list (fw_id args) then
       ret (PDict [(KStr "nodes",
                    PDict [(KStr "$in", pyval_of_optids (fw_id args))])])
     else if truthy_str (name args) then
       ret (PDict [(KStr "name", pyval_of_optstr (name args))])
     else if truthy_str (state args) then
       ret (PDict [(KStr "state", pyval_of_optstr (state args))])
     else lift (literal_eval_opt (query args))) ;;
  ids <- read (fun s => get_wf_ids s query (Given (sort_of args))
                          (Given (max args))
                          (Given (optstr_eqb (display_format args) "count"))) ;;
  present_wfs ids.

Definition get_wfs : M unit :=
  wfs <- get_wfs_results ;;
  wfs' <- lift (unwrap_single wfs) ;;
  args <- get_args ;;
  if table args then
    t <- lift (wf_table wfs') ;;
    print t
  else print (Print_output (output args) wfs').

(** *** purge_wfs *)

Definition purge_wfs : M unit :=
  get_lp ;;
  args <- get_args ;;
  (if 1 <? sum_bools [truthy_list (fw_id args); truthy_str (name args);
                      truthy_str (state args)]
   then raise (ValueError "Please specify exactly one of (fw_id, name, state)")
   else ret tt) ;;
  query <-
    (if truthy_list (fw_id args) then
       ret (PDict [(KStr "nodes",
                    PDict [(KStr "$in", pyval_of_optids (fw_id args))])])
     else if truthy_str (name args) then
       ret (PDict [(KStr "name", pyval_of_optstr (name args))])
     else if truthy_str (state args) then
       ret (PDict [(KStr "state", pyval_of_optstr (state args))])
     else raise (ValueError
                   "Please specify exactly one of (fw_id, name, state)")) ;;
  ids <- read (fun s => get_wf_ids s query Default Default Default) ;;
  l <- lift (ids_iter ids) ;;
  for_each l (fun i => call (lp_purge_workflow i) ;; ret tt).

(** *** get_children and get_links *)

(** The loop of [get_children] over [links.items()], with [rec] for the
    recursive call and [data] for the dictionary built so far. *)
Fixpoint children_loop (rec : Z -> result pyval) (start : Z)
  (items : list (pykey * list Z)) (data : list (pykey * pyval))
  : result pyval :=
  match items with
  | [] => Ok (PDict data)
  | (l, c) :: rest =>
      if pykey_eqb l (KInt start) then
        if 0 <? len c then
          match map_r rec c with
          | Ok subs => children_loop rec start rest (dict_set data l (PList subs))
          | Raise e => Raise e
          end
        else children_loop rec start rest (dict_set data l (PList (map PInt c)))
      else children_loop rec start rest data
  end.

(** [fuel] is the number of nested calls the interpreter still allows:
    Python raises [RecursionError] where the model runs out of it.  The
    parameter [data] of the source is rebound before it is read. *)
Fixpoint get_children (fuel : nat) (links : list (pykey * list Z))
  (start : Z) (max_depth : Z) : result pyval :=
  match fuel with
  | O => Raise RecursionError
  | S fuel' =>
      children_loop (fun i => get_children fuel' links i max_depth)
        start links []
  end.

(** [get_fwid = lambda l: int(l.split("--")[-1])]. *)
Definition get_fwid (l : pyval) : result Z :=
  match l with
  | PStr s => int_of_str (last_piece s)
  | _ => Raise (AttributeError "split")
  end.

(** [{get_fwid(k): [get_fwid(i) for i in v] for k, v in items}]. *)
Fixpoint links_of_items (items : list (pykey * pyval))
  (acc : list (pykey * list Z)) : result (list (pykey * list Z)) :=
  match items with
  | [] => Ok acc
  | (k, v) :: rest =>
      match get_fwid (pyval_of_key k) with
      | Ok k' =>
          match py_iter v with
          | Ok vs =>
              match map_r get_fwid vs with
              | Ok c => links_of_items rest (dict_set acc (KInt k') c)
              | Raise e => Raise e
              end
          | Raise e => Raise e
          end
      | Raise e => Raise e
      end
  end.

(** [d["links"].items()]. *)
Definition py_items (v : pyval) : result (list (pykey * pyval)) :=
  match v with
  | PDict kvs => Ok kvs
  | _ => Raise (AttributeError "items")
  end.

Definition get_links : M unit :=
  get_lp ;;
  args <- get_args ;;
  ids <- read (fun s =>
           get_wf_ids s
             (PDict [(KStr "nodes",
                      PDict [(KStr "$in", pyval_of_optids (fw_id args))])])
             (Given None) (Given 0) (Given false)) ;;
  l <- lift (ids_iter ids) ;;
  for_each l (fun i =>
    d <- read (fun s => get_wf_summary_dict s i (Some "all")) ;;
    dl <- lift (py_getitem (PDict d) (KStr "links")) ;;
    items <- lift (py_items dl) ;;
    links <- lift (links_of_items items []) ;;
    c <- lift (get_children recursion_limit links i 3) ;;
    print (Print_yaml c)).

(** *** The commands that act on each selected entity *)

Definition defuse : M unit :=
  get_lp ;;
  fw_ids <- parse_helper true false ;;
  l <- lift (ids_iter fw_ids) ;;
  for_each l (fun f =>
    call (lp_defuse_wf f) ;;
    log DEBUG ("Processed fw_id: " ++ str_of_Z f)) ;;
  n <- lift (ids_len fw_ids) ;;
  log INFO ("Finished defusing " ++ str_of_Z n ++ " FWs").

Definition archive : M unit :=
  get_lp ;;
  fw_ids <- parse_helper true false ;;
  l <- lift (ids_iter fw_ids) ;;
  for_each l (fun f =>
    call (lp_archive_wf f) ;;
    log DEBUG ("Processed fw_id: " ++ str_of_Z f)) ;;
  n <- lift (ids_len fw_ids) ;;
  log INFO ("Finished archiving " ++ str_of_Z n ++ " WFs").

Definition reignite : M unit :=
  get_lp ;;
  fw_ids <- parse_helper true false ;;
  l <- lift (ids_iter fw_ids) ;;
  for_each l (fun f =>
    call (lp_reignite_wf f) ;;
    log DEBUG ("Processed Workflow with fw_id: " ++ str_of_Z f)) ;;
  n <- lift (ids_len fw_ids) ;;
  log INFO ("Finished reigniting " ++ str_of_Z n ++ " Workflows").

Definition defuse_fws : M unit :=
  get_lp ;;
  fw_ids <- parse_helper false false ;;
  l <- lift (ids_iter fw_ids) ;;
  for_each l (fun f =>
    call (lp_defuse_fw f) ;;
    log DEBUG ("Processed fw_id: " ++ str_of_Z f)) ;;
  n <- lift (ids_len fw_ids) ;;
  log INFO ("Finished defusing " ++ str_of_Z n ++ " FWs").

Definition reignite_fws : M unit :=
  get_lp ;;
  fw_ids <- parse_helper false false ;;
  l <- lift (ids_iter fw_ids) ;;
  for_each l (fun f =>
    call (lp_reignite_fw f) ;;
    log DEBUG ("Processed fw_id: " ++ str_of_Z f)) ;;
  n <- lift (ids_len fw_ids) ;;
  log INFO ("Finished reigniting " ++ str_of_Z n ++ " FWs").

Definition rerun_fws : M unit :=
  get_lp ;;
  fw_ids <- parse_helper false false ;;
  l <- lift (ids_iter fw_ids) ;;
  for_each l (fun f =>
    call (lp_rerun_fw f) ;;
    log DEBUG ("Processed fw_id: " ++ str_of_Z f)) ;;
  n <- lift (ids_len fw_ids) ;;
  log INFO ("Finished setting " ++ str_of_Z n ++ " FWs to rerun").

Definition refresh : M unit :=
  get_lp ;;
  fw_ids <- parse_helper true false ;;
  l <- lift (ids_iter fw_ids) ;;
  for_each l (fun f =>
    wf <- read (fun s => get_wf_by_fw_id s f) ;;
    call (lp_refresh_wf wf f) ;;
    log DEBUG ("Processed Workflow with fw_id: " ++ str_of_Z f)) ;;
  n <- lift (ids_len fw_ids) ;;
  log INFO ("Finished refreshing " ++ str_of_Z n ++ " Workflows").

Definition set_priority : M unit :=
  get_lp ;;
  fw_ids <- parse_helper false false ;;
  l <- lift (ids_iter fw_ids) ;;
  for_each l (fun f =>
    args <- get_args ;;
    call (lp_set_priority f (priority args)) ;;
    log DEBUG ("Processed fw_id " ++ str_of_Z f)) ;;
  n <- lift (ids_len fw_ids) ;;
  log INFO ("Finished setting priorities of " ++ str_of_Z n ++ " FWs").

(** *** recover_offline *)

Definition recover_offline : M unit :=
  get_lp ;;
  runs <- read (fun s =>
            offline_runs_find s
              (PDict [(KStr "completed", PBool false);
                      (KStr "deprecated", PBool false)])
              (PDict [(KStr "launch_id", PInt 1)])) ;;
  failed_fws <-
    fold_m (fun failed l =>
      launch_id <- lift (py_getitem l (KStr "launch_id")) ;;
      args <- get_args ;;
      fw <- call (lp_recover_offline launch_id (ignore_errors args)) ;;
      ret (if truthy_id fw
           then (failed ++ [match fw with Some n => n | None => 0 end])%list
           else failed)) runs [] ;;
  log INFO "FINISHED recovering offline runs." ;;
  if negb (len failed_fws =? 0) then
    log INFO ("FAILED to recover offline fw_ids: " ++ str_of_Zlist failed_fws)
  else ret tt.

(** *** track_fws *)

Definition str_mem (s : string) (l : list string) : bool :=
  existsb (String.eqb s) l.

(** The lines [track_fws] collects for one FireWork. *)
Definition tracker_lines (include exclude : option (list string))
  (data : list (Z * list tracker)) : list string :=
  flat_map (fun d =>
    flat_map (fun t =>
      if (negb (truthy_list include)
          || str_mem (filename t)
               (match include with Some l => l | None => [] end))
         && (negb (truthy_list exclude)
             || negb (str_mem (filename t)
                        (match exclude with Some l => l | None => [] end)))
      then ["## Launch id: " ++ str_of_Z (fst d); tracker_str t]
      else []) (snd d)) data.

Definition track_fws : M unit :=
  get_lp ;;
  fw_ids <- parse_helper false true ;;
  args <- get_args ;;
  l <- lift (ids_iter fw_ids) ;;
  fold_m (fun first_print f =>
    data <- read (fun s => get_tracker_data s f) ;;
    if negb (len (tracker_lines (include args) (exclude args) data) =? 0) then
      name <- read (fun s => fireworks_find_name s f) ;;
      print (Print_text
               (join newline
                  (List.app
                     (if first_print : bool then [] else [">------<"])
                     (("# FW id: " ++ str_of_Z f ++ ", FW name: " ++ name)
                      :: tracker_lines (include args) (exclude args) data)))) ;;
      ret false
    else ret first_print) l true ;;
  ret tt.

(** *** lpad: the dispatch on the sub-command

    [set_defaults(func=...)] of each sub-command parser, and [args.func(args)];
    the sub-commands embedded above. *)

Inductive command : Type :=
| cmd_reset
| cmd_get_fws
| cmd_get_wfs
| cmd_get_links
| cmd_rerun_fws
| cmd_defuse
| cmd_archive
| cmd_reignite
| cmd_defuse_fws
| cmd_reignite_fws
| cmd_refresh
| cmd_set_priority
| cmd_recover_offline
| cmd_track_fws
| cmd_purge_wfs.

Definition func (c : command) : M unit :=
  match c with
  | cmd_reset => reset
  | cmd_get_fws => get_fws
  | cmd_get_wfs => get_wfs
  | cmd_get_links => get_links
  | cmd_rerun_fws => rerun_fws
  | cmd_defuse => defuse
  | cmd_archive => archive
  | cmd_reignite => reignite
  | cmd_defuse_fws => defuse_fws
  | cmd_reignite_fws => reignite_fws
  | cmd_refresh => refresh
  | cmd_set_priority => set_priority
  | cmd_recover_offline => recover_offline
  | cmd_track_fws => track_fws
  | cmd_purge_wfs => purge_wfs
  end.

End Script.

Arguments World E : clear implicits.
Arguments M E A : clear implicits.

Notation "x <- c1 ;; c2" := (bind c1 (fun x => c2))
  (at level 61, c1 at next level, right associativity).
Notation "c1 ;; c2" := (bind c1 (fun _ => c2))
  (at level 61, right associativity).

(** ** init and add_scripts

    The namespaces of these two sub-commands hold options that no other
    sub-command reads ([config_file]; [scripts], [names] and [wf_name]):
    they are the parameters of the functions below. *)

(** [FireWork(ScriptTask({'script': s, 'use_shell': True}), name=n,
    fw_id=i)], as [add_scripts] builds it. *)
Record FireWork : Type := mkFireWork {
  task_script : string;
  task_use_shell : bool;
  fw_name : option string;
  fw_fw_id : Z
}.

(** What [init_yaml] and [add_scripts] take from outside this file. *)
Class Outside (E : External) : Type := {
  (** [open(path, "w")]: the file is created, or emptied *)
  open_for_writing : string -> M E unit;
  (** [LaunchPad.from_dict(doc).to_dict()] *)
  LaunchPad_from_dict_to_dict : list (pykey * pyval) -> result pyval;
  (** [yaml.dump(d, f)] on the file opened at [path] *)
  yaml_dump_to : string -> pyval -> M E unit;
  (** [lp.add_wf(Workflow(fws, links, name))] *)
  lp_add_wf : list FireWork -> list (pykey * Z) -> option string -> M E unit
}.

Section MoreScript.

Context {E : External} {O : Outside E}.

(** *** init_yaml *)

(** The tuple [fields] of [init_yaml]. *)
Definition fields : list (string * pyval) :=
  [("host", PStr "localhost"); ("port", PInt 27017);
   ("name", PStr "fireworks"); ("username", PNone); ("password", PNone)].

(** ['{}'.format(v)] for the defaults that [fields] holds: a string, an
    integer or [None]. *)
Definition format_default (v : pyval) : string :=
  match v with
  | PStr s => s
  | PInt n => str_of_Z n
  | _ => "None"
  end.

(** [val if val else v]. *)
Definition answer_or (val : string) (v : pyval) : pyval :=
  if negb (String.eqb val "") then PStr val else v.

(** [int(v)]. *)
Definition py_int (v : pyval) : result Z :=
  match v with
  | PInt n => Ok n
  | PBool b => Ok (if b then 1 else 0)
  | PStr s => int_of_str s
  | _ => Raise TypeError
  end.

Definition init_yaml (config_file : string) : M E unit :=
  print (Print_text "Please supply the following configuration values") ;;
  print (Print_text
           ("(press Enter if you want to accept the defaults)" ++ newline)) ;;
  doc <- fold_m (fun doc kv =>
           val <- input ("Enter " ++ fst kv ++ " (default: "
                         ++ format_default (snd kv) ++ ") : ") ;;
           ret (dict_set doc (KStr (fst kv)) (answer_or val (snd kv))))
         fields [] ;;
  port <- lift (py_getitem (PDict doc) (KStr "port")) ;;
  n <- lift (py_int port) ;;
  open_for_writing config_file ;;
  d <- lift (LaunchPad_from_dict_to_dict (dict_set doc (KStr "port") (PInt n))) ;;
  yaml_dump_to config_file d ;;
  print (Print_text
           (newline ++ "Configuration written to " ++ config_file ++ "!")).

(** *** add_scripts *)

(** The loop of [add_scripts] over [enumerate(args.scripts)], from the index
    [idx] on, with the [fws] and the [links] built so far. *)
Fixpoint script_fws (scripts : list string) (names : list (option string))
  (idx : Z) (fws : list FireWork) (links : list (pykey * Z))
  : result (list FireWork * list (pykey * Z)) :=
  match scripts with
  | [] => Ok (fws, links)
  | s :: rest =>
      match list_index names idx with
      | Ok n =>
          script_fws rest names (idx + 1)
            (fws ++ [mkFireWork s true n idx])%list
            (if negb (idx =? 0) then dict_set links (KInt (idx - 1)) idx
             else links)
      | Raise e => Raise e
      end
  end.

(** [args.names if args.names else [None] * len(args.scripts)]. *)
Definition names_or_none (scripts : list string) (names : option (list string))
  : list (option string) :=
  if truthy_list names
  then map Some (match names with Some l => l | None => [] end)
  else repeat None (List.length scripts).

Definition add_scripts (scripts : list string) (names : option (list string))
  (wf_name : option string) : M E unit :=
  get_lp ;;
  wf_name' <- (if truthy_str wf_name then ret wf_name
               else lift (list_index (names_or_none scripts names) 0)) ;;
  r <- lift (script_fws scripts (names_or_none scripts names) 0 [] []) ;;
  lp_add_wf (fst r) (snd r) wf_name'.

End MoreScript.

(** ** A reference LaunchPad

    The LaunchPad of [fireworks.core.launchpad] is not among the sources.
    The instance below follows the specification of the engine where it
    describes an operation, and is kept as small as the commands allow
    elsewhere.  The theorems that do not name it hold for every [External];
    it provides the concrete runs. *)

(** A stored FireWork or Workflow, reduced to what the queries read. *)
Record doc : Type := mkDoc {
  doc_id : Z;
  doc_name : string;
  doc_state : string;
  created_on : Z;
  updated_on : Z
}.

(** One entry of the offline-run collection; [run_readable] tells whether
    the completion record of the launch can be read. *)
Record offline_run : Type := mkRun {
  run_launch_id : Z;
  run_fw_id : Z;
  run_completed : bool;
  run_deprecated : bool;
  run_readable : bool
}.

Record RefStore : Type := mkRefStore {
  fireworks : list doc;
  workflows : list doc;
  wf_links : list (pykey * pyval);
  reservations : list (string * list Z);
  offline_runs : list offline_run
}.

(** One condition of a structured query on a document. *)
Definition ref_condition (d : doc) (kv : pykey * pyval) : bool :=
  match kv with
  | (KStr k, PStr s) =>
      if String.eqb k "name" then String.eqb (doc_name d) s
      else if String.eqb k "state" then String.eqb (doc_state d) s
      else false
  | (KStr k, PDict [(KStr op, PList ids)]) =>
      (String.eqb k "fw_id" || String.eqb k "nodes")
      && String.eqb op "$in"
      && existsb (fun v => match v with
                           | PInt n => Z.eqb n (doc_id d)
                           | _ => false
                           end) ids
  | _ => false
  end.

(** Modelled from the spec: the predicate of [get_ready_fw_ids(filter, sort,
    limit)], "an arbitrary predicate over FW attributes (state, name,
    structured query)"; no query, or an empty one, selects everything. *)
Definition ref_matches (q : pyval) (d : doc) : bool :=
  match q with
  | PDict kvs => forallb (ref_condition d) kvs
  | _ => true
  end.

(** The timestamp a sort key names. *)
Definition sort_key (k : string) (d : doc) : Z :=
  if String.eqb k "created_on" then created_on d
  else if String.eqb k "updated_on" then updated_on d
  else 0.

(** [a] may stand before [b] in the order asked for. *)
Definition in_order (k : string) (dir : direction) (a b : doc) : bool :=
  match dir with
  | ASCENDING => sort_key k a <=? sort_key k b
  | DESCENDING => sort_key k b <=? sort_key k a
  end.


Fixpoint insert_doc (k : string) (dir : direction) (x : doc) (l : list doc)
  : list doc :=
  match l with
  | [] => [x]
  | y :: rest =>
      if in_order k dir x y then x :: y :: rest
      else y :: insert_doc k dir x rest
  end.

Fixpoint sort_docs (k : string) (dir : direction) (l : list doc) : list doc :=
  match l with
  | [] => []
  | x :: rest => insert_doc k dir x (sort_docs k dir rest)
  end.

(** Modelled from the spec: "honoring an optional sort key ([created_on] /
    [updated_on], ascending or descending)". *)
Definition ref_sorted (sort : option (list (string * direction)))
  (l : list doc) : list doc :=
  match sort with
  | Some ((k, dir) :: _) => sort_docs k dir l
  | _ => l
  end.

(** Modelled from the spec: "a result cap ([0] = unlimited)". *)
Definition ref_capped {A : Type} (limit : Z) (l : list A) : list A :=
  if limit =? 0 then l else firstn (Z.to_nat limit) l.

Definition arg_or {A : Type} (a : arg A) (default : A) : A :=
  match a with
  | Default => default
  | Given x => x
  end.

(** Modelled from the spec: [get_ready_fw_ids(filter, sort, limit) ->
    [fw_id]] of the LaunchPad, which the script calls as [lp.get_fw_ids] on
    FireWorks and as [lp.get_wf_ids] on Workflows. *)
Definition ref_get_ids (docs : list doc) (q : pyval)
  (sort : arg (option (list (string * direction)))) (limit : arg Z)
  (count_only : arg bool) : result ids_result :=
  let found := filter (ref_matches q) docs in
  if arg_or count_only false then Ok (IdCount (len found))
  else Ok (IdList (map doc_id
                     (ref_capped (arg_or limit 0)
                        (ref_sorted (arg_or sort None) found)))).

Definition ref_set_state (st : string) (i : Z) (l : list doc) : list doc :=
  map (fun d => if doc_id d =? i
                then mkDoc (doc_id d) (doc_name d) st (created_on d)
                           (updated_on d)
                else d) l.

Definition ref_find_run (launch_id : pyval) (runs : list offline_run)
  : option offline_run :=
  match launch_id with
  | PInt n => find (fun r => run_launch_id r =? n) runs
  | _ => None
  end.

Definition ref_complete_run (n : Z) (runs : list offline_run)
  : list offline_run :=
  map (fun r => if run_launch_id r =? n
                then mkRun (run_launch_id r) (run_fw_id r) true
                           (run_deprecated r) (run_readable r)
                else r) runs.

(** Modelled from the spec: [recover_offline(launch_id, ignore_errors) ->
    fw_id | none] of the LaunchPad.  A readable record is applied and the
    launch is completed; an unreadable one aborts the reconciliation of the
    launch when [ignore_errors] is false, and is skipped with the [fw_id] of
    the launch reported when it is true. *)
Definition ref_recover_offline (launch_id : pyval) (ignore_errors : bool)
  (s : RefStore) : result (option Z) * RefStore :=
  match ref_find_run launch_id (offline_runs s) with
  | None => (Raise (LaunchPadError "no such offline run"), s)
  | Some r =>
      if run_readable r then
        (Ok None,
         mkRefStore (fireworks s) (workflows s) (wf_links s) (reservations s)
           (ref_complete_run (run_launch_id r) (offline_runs s)))
      else if ignore_errors then (Ok (Some (run_fw_id r)), s)
      else (Raise (LaunchPadError "bad offline record"), s)
  end.

Definition ref_with_workflows (s : RefStore) (l : list doc) : RefStore :=
  mkRefStore (fireworks s) l (wf_links s) (reservations s) (offline_runs s).

Definition ref_with_fireworks (s : RefStore) (l : list doc) : RefStore :=
  mkRefStore l (workflows s) (wf_links s) (reservations s) (offline_runs s).

(** The mutating calls: the state changes that the specification of the
    engine names, on the addressed document alone. *)
Definition ref_exec (c : lp_call) (s : RefStore)
  : result (option Z) * RefStore :=
  match c with
  | lp_reset _ => (Ok None, mkRefStore [] [] [] [] [])
  | lp_defuse_wf f =>
      (Ok None, ref_with_workflows s (ref_set_state "DEFUSED" f (workflows s)))
  | lp_archive_wf f =>
      (Ok None, ref_with_workflows s (ref_set_state "ARCHIVED" f (workflows s)))
  | lp_reignite_wf f =>
      (Ok None, ref_with_workflows s (ref_set_state "WAITING" f (workflows s)))
  | lp_defuse_fw f =>
      (Ok None, ref_with_fireworks s (ref_set_state "DEFUSED" f (fireworks s)))
  | lp_reignite_fw f =>
      (Ok None, ref_with_fireworks s (ref_set_state "WAITING" f (fireworks s)))
  | lp_rerun_fw f =>
      (Ok None, ref_with_fireworks s (ref_set_state "WAITING" f (fireworks s)))
  | lp_purge_workflow i =>
      (Ok None,
       ref_with_workflows s
         (filter (fun d => negb (doc_id d =? i)) (workflows s)))
  | lp_set_priority _ _ => (Ok None, s)
  | lp_refresh_wf _ _ => (Ok None, s)
  | lp_recover_offline launch_id ignore => ref_recover_offline launch_id ignore s
  end.

Definition ref_doc_dict (d : doc) : list (pykey * pyval) :=
  [(KStr "fw_id", PInt (doc_id d)); (KStr "name", PStr (doc_name d));
   (KStr "state", PStr (doc_state d)); (KStr "spec", PDict []);
   (KStr "created_on", PInt (created_on d));
   (KStr "updated_on", PInt (updated_on d)); (KStr "launches", PList [])].

Definition ref_find_doc (i : Z) (l : list doc) : option doc :=
  find (fun d => doc_id d =? i) l.

(** Decimal digits to a number, as far as the instance needs [int(s)]. *)
Fixpoint ref_digits (s : string) (acc : Z) : result Z :=
  match s with
  | EmptyString => Ok acc
  | String c rest =>
      let n := Z.of_nat (nat_of_ascii c) in
      if (48 <=? n) && (n <=? 57) then ref_digits rest (10 * acc + (n - 48))
      else Raise (ValueError "invalid literal for int() with base 10")
  end.

Definition ref_int_of_str (s : string) : result Z :=
  match s with
  | EmptyString => Raise (ValueError "invalid literal for int() with base 10")
  | _ => ref_digits s 0
  end.

(** The literals the concrete runs evaluate. *)
Definition ref_literal_eval (s : string) : result pyval :=
  if String.eqb s "{}" then Ok (PDict [])
  else if String.eqb s "{'spec.x': 1}" then Ok (PDict [(KStr "spec.x", PInt 1)])
  else if String.eqb s "{'name': 'old', 'spec.x': 1}" then
    Ok (PDict [(KStr "name", PStr "old"); (KStr "spec.x", PInt 1)])
  else Raise (ValueError "malformed node or string").

#[export] Instance Reference : External := {
  Store := RefStore;
  PW_CHECK_NUM := 10;
  literal_eval := ref_literal_eval;
  int_of_str := ref_int_of_str;
  recursion_limit := 1000;
  path_exists := fun _ => false;
  prettytable_installed := true;
  LaunchPad_from_file := fun _ => true;
  LaunchPad_new := fun _ _ => true;
  get_wf_ids := fun s => ref_get_ids (workflows s);
  get_fw_ids := fun s => ref_get_ids (fireworks s);
  get_fw_ids_from_reservation_id := fun s q =>
    match find (fun r => String.eqb (fst r) q) (reservations s) with
    | Some r => Ok (IdList (snd r))
    | None => Raise (LaunchPadError "no such reservation")
    end;
  get_fw_by_id_to_dict := fun s i =>
    match ref_find_doc i (fireworks s) with
    | Some d => Ok (ref_doc_dict d)
    | None => Raise (LaunchPadError "no such FireWork")
    end;
  get_wf_summary_dict := fun s i _ =>
    match ref_find_doc i (workflows s) with
    | Some d =>
        Ok [(KStr "name", PStr (doc_name d));
            (KStr "state", PStr (doc_state d));
            (KStr "links", PDict (wf_links s))]
    | None => Raise (LaunchPadError "no such Workflow")
    end;
  get_wf_by_fw_id := fun s i =>
    match ref_find_doc i (workflows s) with
    | Some d => Ok (PDict (ref_doc_dict d))
    | None => Raise (LaunchPadError "no such Workflow")
    end;
  workflows_count := fun s => Ok (len (workflows s));
  offline_runs_find := fun s _ _ =>
    Ok (map (fun r => PDict [(KStr "launch_id", PInt (run_launch_id r))])
          (filter (fun r => negb (run_completed r) && negb (run_deprecated r))
             (offline_runs s)));
  get_tracker_data := fun _ _ => Ok [];
  fireworks_find_name := fun s i =>
    match ref_find_doc i (fireworks s) with
    | Some d => Ok (doc_name d)
    | None => Raise TypeError
    end;
  lp_exec := ref_exec
}.

(** ** Notions the statements use *)

Section Notions.

Context {E : External}.

(** The world [w] with another namespace. *)
Definition with_args (w : World E) (a : Args) : World E :=
  mkWorld a (w_store w) (w_stdin w) (w_dates w) (w_clock w) (w_out w)
    (w_log w) (w_calls w).

(** [get_lp] connects: it returns a LaunchPad. *)
Definition connected (w : World E) : Prop := fst (get_lp w) = Ok tt.

(** Two namespaces that agree on every option but [launchpad_file] and
    [loglvl], the two that [get_lp] may set. *)
Definition same_options (a b : Args) : Prop :=
  set_loglvl (set_launchpad_file a None) "" =
  set_loglvl (set_launchpad_file b None) "".

(** What a command did to the database: nothing when no mutating call was
    issued and the database is as it was. *)
Definition untouched (w w' : World E) : Prop :=
  w_calls w' = w_calls w /\ w_store w' = w_store w.

(** No question was put to the user and no answer read. *)
Definition unprompted (w w' : World E) : Prop :=
  w_stdin w' = w_stdin w /\
  (forall p, In (Prompt p) (w_out w') -> In (Prompt p) (w_out w)).

(** The query a selection by [--query], [--name] and [--state] builds. *)
Definition combined_query (a : Args) (parsed : list (pykey * pyval))
  : list (pykey * pyval) :=
  let q1 := if truthy_str (name a)
            then dict_set parsed (KStr "name") (pyval_of_optstr (name a))
            else parsed in
  if truthy_str (state a)
  then dict_set q1 (KStr "state") (pyval_of_optstr (state a))
  else q1.

(** The entities [parse_helper] selects, before the password check. *)
Definition selection (wf_mode : bool) (a : Args) (s : Store)
  : result ids_result :=
  if truthy_list (fw_id a)
     && (1 <=? sum_bools [truthy_str (name a); truthy_str (state a);
                          truthy_str (query a)])
  then Raise (ValueError "Cannot specify both fw_id and name/state/query)")
  else if truthy_list (fw_id a) then
    Ok (IdList (match fw_id a with Some l => l | None => [] end))
  else
    match (if truthy_str (query a) then literal_eval_opt (query a)
           else Ok (PDict [])) with
    | Raise e => Raise e
    | Ok q0 =>
        match (if truthy_str (name a)
               then py_setitem q0 "name" (pyval_of_optstr (name a))
               else Ok q0) with
        | Raise e => Raise e
        | Ok q1 =>
            match (if truthy_str (state a)
                   then py_setitem q1 "state" (pyval_of_optstr (state a))
                   else Ok q1) with
            | Raise e => Raise e
            | Ok q2 =>
                if wf_mode then get_wf_ids s q2 Default Default Default
                else get_fw_ids s q2 Default Default Default
            end
        end
    end.

(** The sub-commands that select entities through [parse_helper] and act
    on each with one LaunchPad call: whether they select Workflows, and the
    call. *)
Definition acts_with (c : command) : option (bool * (Z -> lp_call)) :=
  match c with
  | cmd_defuse => Some (true, lp_defuse_wf)
  | cmd_archive => Some (true, lp_archive_wf)
  | cmd_reignite => Some (true, lp_reignite_wf)
  | cmd_defuse_fws => Some (false, lp_defuse_fw)
  | cmd_reignite_fws => Some (false, lp_reignite_fw)
  | cmd_rerun_fws => Some (false, lp_rerun_fw)
  | _ => None
  end.

(** The shape these sub-commands share in the source: the selection, one
    call and one debug line [note f] per entity, and a closing line
    [closing n] on their number. *)
Definition acting (wf_mode : bool) (op : Z -> lp_call)
  (note closing : Z -> string) : M E unit :=
  get_lp ;;
  fw_ids <- parse_helper wf_mode false ;;
  l <- lift (ids_iter fw_ids) ;;
  for_each l (fun f => call (op f) ;; log DEBUG (note f)) ;;
  n <- lift (ids_len fw_ids) ;;
  log INFO (closing n).

(** The sub-commands whose effect can be taken back. *)
Definition reversible (c : command) : bool :=
  match c with
  | cmd_defuse | cmd_reignite | cmd_rerun_fws
  | cmd_defuse_fws | cmd_reignite_fws => true
  | _ => false
  end.

(** The LaunchPad call [op] returns, whatever the entity and the database. *)
Definition returns (op : Z -> lp_call) : Prop :=
  forall f s, exists r s', lp_exec (op f) s = (Ok r, s').

(** A selector that combines filters the sub-command holds exclusive. *)
Definition ambiguous (c : command) (a : Args) : Prop :=
  match c with
  | cmd_rerun_fws | cmd_defuse | cmd_archive | cmd_reignite | cmd_defuse_fws
  | cmd_reignite_fws | cmd_refresh | cmd_set_priority | cmd_track_fws =>
      truthy_list (fw_id a) = true /\
      (truthy_str (name a) = true \/ truthy_str (state a) = true \/
       truthy_str (query a) = true)
  | cmd_purge_wfs =>
      truthy_list (fw_id a) = true /\
      (truthy_str (name a) = true \/ truthy_str (state a) = true)
  | cmd_get_fws | cmd_get_wfs =>
      1 < sum_bools [truthy_list (fw_id a); truthy_str (name a);
                     truthy_str (state a); truthy_str (query a)]
  | _ => False
  end.

(** The message with which a sub-command rejects an ambiguous selector. *)
Definition rejection (c : command) : string :=
  match c with
  | cmd_get_fws | cmd_get_wfs =>
      "Please specify exactly one of (fw_id, name, state, query)"
  | cmd_purge_wfs => "Please specify exactly one of (fw_id, name, state)"
  | _ => "Cannot specify both fw_id and name/state/query)"
  end.

(** An answer the prompts take for a yes: it starts with [Y] or [y]. *)
Definition says_yes (answer : string) : Prop :=
  exists rest, answer = String "Y" rest \/ answer = String "y" rest.

(** An answer that is not empty and does not start with [Y] or [y]. *)
Definition says_no (answer : string) : Prop :=
  exists c rest, answer = String c rest /\ c <> "Y"%char /\ c <> "y"%char.




(** The world [w] after [p] has been printed. *)
Definition shows (w : World E) (p : printed) : World E :=
  mkWorld (w_args w) (w_store w) (w_stdin w) (w_dates w) (w_clock w)
    (w_out w ++ [p]) (w_log w) (w_calls w).

(** The world [w] with [--depth d]. *)
Definition with_depth (d : Z) (w : World E) : World E :=
  with_args w (set_depth (w_args w) d).

(** The value [get_children] builds when it follows every link below
    [start] down to the FireWorks without children. *)
Inductive expansion (links : list (pykey * list Z)) : Z -> pyval -> Prop :=
| expansion_absent (start : Z) :
    dict_get links (KInt start) = None ->
    expansion links start (PDict [])
| expansion_leaf (start : Z) :
    dict_get links (KInt start) = Some [] ->
    expansion links start (PDict [(KInt start, PList [])])
| expansion_node (start : Z) (c : list Z) (subs : list pyval) :
    dict_get links (KInt start) = Some c ->
    c <> [] ->
    Forall2 (expansion links) c subs ->
    expansion links start (PDict [(KInt start, PList subs)]).

(** Every chain of links below [start] has at most [n] links. *)
Fixpoint bounded (links : list (pykey * list Z)) (n : nat) (start : Z)
  : Prop :=
  match dict_get links (KInt start) with
  | None => True
  | Some c =>
      match n with
      | O => c = []
      | S n' => Forall (bounded links n') c
      end
  end.

(** A command that runs the same whatever [--depth] is. *)
Definition depth_blind {A : Type} (c : M E A) : Prop :=
  forall d w, c (with_depth d w) = (fst (c w), with_depth d (snd (c w))).

(** The world [w] with another [args.password], or with none when [p] is
    [Absent]. *)
Definition with_password (p : attr (option string)) (w : World E) : World E :=
  with_args w (set_password (w_args w) p).

(** A command that runs the same whatever [args.password] is, and whether
    the namespace has the attribute or not. *)
Definition password_blind {A : Type} (c : M E A) : Prop :=
  forall p w, c (with_password p w) = (fst (c w), with_password p (snd (c w))).



End Notions.

(** ** Further notions *)

(** The embedded sub-commands that select through [parse_helper]: whether
    they select Workflows, and whether they skip the check of [pw_check].
    [forget_offline] calls [parse_helper] too, with the check on, but on a
    namespace that has neither [fw_id] nor [password], for its parser
    declares neither: it is not embedded, and is none of these. *)
Definition selects (c : command) : option (bool * bool) :=
  match c with
  | cmd_track_fws => Some (false, true)
  | cmd_defuse | cmd_archive | cmd_reignite | cmd_refresh => Some (true, false)
  | cmd_defuse_fws | cmd_reignite_fws | cmd_rerun_fws | cmd_set_priority =>
      Some (false, false)
  | _ => None
  end.

(** The sub-commands that report on the database. *)
Definition reporting (c : command) : bool :=
  match c with
  | cmd_get_fws | cmd_get_wfs | cmd_get_links | cmd_track_fws => true
  | _ => false
  end.

(** The namespace [a] with [-s] set or not. *)
Definition set_silencer (a : Args) (v : bool) : Args :=
  mkArgs (launchpad_file a) (config_dir a) (logdir a) (loglvl a) v (output a)
    (fw_id a) (name a) (state a) (query a) (qid a) (password a)
    (display_format a) (max a) (sort a) (rsort a) (table a) (depth a)
    (ignore_errors a) (include a) (exclude a) (priority a).

(** The keys of a FireWork document that a display format leaves out. *)
Definition hidden (fmt : option string) : list pykey :=
  if optstr_eqb fmt "less"
  then [KStr "archived_launches"; KStr "spec"; KStr "launches"]
  else if optstr_eqb fmt "more" then [KStr "archived_launches"; KStr "spec"]
  else [].

(** The cell of a table row: [d.get(k)]. *)
Definition cell (d : pyval) (k : pykey) : pyval :=
  match d with
  | PDict kvs =>
      match dict_get kvs k with
      | Some v => v
      | None => PNone
      end
  | _ => PNone
  end.

(** A dictionary. *)
Definition is_dict (v : pyval) : Prop := exists kvs, v = PDict kvs.

(** [s.endswith("-")]. *)
Fixpoint ends_with_dash (s : string) : bool :=
  match s with
  | EmptyString => false
  | String c EmptyString => Ascii.eqb c "-"
  | String _ rest => ends_with_dash rest
  end.

(** A string without a dash. *)
Fixpoint dashless (s : string) : Prop :=
  match s with
  | EmptyString => True
  | String c rest => c <> "-"%char /\ dashless rest
  end.

(** [a] links to [b]: [b] is among the children that [links] lists under
    [a]. *)
Definition links_to (links : list (pykey * list Z)) (a b : Z) : Prop :=
  exists c, In (KInt a, c) links /\ In b c.

(** The links below [start] can be followed without end: they lead into a
    cycle. *)
Definition endless (links : list (pykey * list Z)) (start : Z) : Prop :=
  exists P : Z -> Prop,
    P start /\ forall x, P x -> exists y, links_to links x y /\ P y.

(** What [track_fws] prints for the FireWorks that have tracker lines to
    show, each with its id, its name and its lines: a block for each, with
    the separator before every block but the first. *)
Fixpoint blocks (first_print : bool) (l : list (Z * string * list string))
  : list printed :=
  match l with
  | [] => []
  | (f, name, lines) :: rest =>
      Print_text
        (join newline
           ((if first_print then [] else [">------<"])
            ++ ("# FW id: " ++ str_of_Z f ++ ", FW name: " ++ name) :: lines))
      :: blocks false rest
  end.

Section FurtherNotions.

Context {E : External}.

(** The message of [pw_check] on a password that is not the date. *)
Definition password_required : string :=
  "Modifying more than " ++ str_of_Z PW_CHECK_NUM
  ++ " entries requires setting the --password parameter! (Today's date, e.g. 2012-02-25)".

(** The database after the mutating calls [calls], made in order, when
    each of them has returned. *)
Fixpoint after (calls : list lp_call) (s : Store) : option Store :=
  match calls with
  | [] => Some s
  | c :: rest =>
      match lp_exec c s with
      | (Ok _, s') => after rest s'
      | (Raise _, _) => None
      end
  end.

(** [pw_check] lets the selection [ids] pass in the world [w]: it is small
    enough to need no confirmation, or the password is the date, or there
    is no password and the question is answered with a yes, the date
    being the same before the question and after the answer. *)
Definition passes_check (w : World E) (ids : list Z) : Prop :=
  len ids <= PW_CHECK_NUM \/
  (password (w_args w) = Present (Some (w_dates w (w_clock w))) /\
   w_dates w (w_clock w) <> "") \/
  (exists pw answer rest,
     password (w_args w) = Present pw /\ truthy_str pw = false /\
     w_stdin w = answer :: rest /\ says_yes answer /\
     w_dates w (S (w_clock w)) = w_dates w (w_clock w)).

(** [get_lp] connects through a LaunchPad file: the one given with [-l],
    or the default one when it exists in the configuration directory. *)
Definition uses_file (a : Args) : bool :=
  truthy_str (launchpad_file a)
  || path_exists (path_join (config_dir a) DEFAULT_LPAD_YAML).

(** A computation that, from any world, issues no mutating call, leaves the
    database as it is, puts no question and reads no answer. *)
Definition harmless {A : Type} (c : M E A) : Prop :=
  forall w, untouched w (snd (c w)) /\ unprompted w (snd (c w)).

(** The questions of [init_yaml], in the order it puts them. *)
Definition questions : list string :=
  map (fun kv => "Enter " ++ fst kv ++ " (default: "
                 ++ format_default (snd kv) ++ ") : ") fields.

(** The world after [init_yaml] has printed its two opening lines, put its
    questions and read the answers, [rest] being the lines not yet read. *)
Definition asked (w : World E) (rest : list string) : World E :=
  mkWorld (w_args w) (w_store w) rest (w_dates w) (w_clock w)
    (w_out w
     ++ [Print_text "Please supply the following configuration values";
         Print_text ("(press Enter if you want to accept the defaults)"
                     ++ newline)]
     ++ map Prompt questions)
    (w_log w) (w_calls w).

End FurtherNotions.

(** ** Sample namespaces and databases *)

(** The namespace of a sub-command run with no option: the defaults of the
    parsers, and no [password] attribute. *)
Definition no_options : Args :=
  mkArgs None "." None "INFO" false json_dumps None None None None None
    Absent (Some "less") max_default None None false 1 false None None 0.

(** The integers [1] to [n]. *)
Fixpoint upto (n : nat) : list Z :=
  match n with
  | O => []
  | S k => (upto k ++ [Z.of_nat n])%list
  end.

(** [n] documents named [w], the later created the earlier updated. *)
Definition sample_docs (n : nat) : list doc :=
  map (fun i => mkDoc i "w" "READY" i (100 - i)) (upto n).

(** Three FireWorks in a chain, eleven Workflows, one reservation held by
    two FireWorks, and three pending offline runs, the second unreadable. *)
Definition sample_store : RefStore :=
  mkRefStore (sample_docs 3) (sample_docs 11)
    [(KStr "w--1", PList [PStr "w--2"; PStr "w--3"]);
     (KStr "w--2", PList [PStr "w--3"]);
     (KStr "w--3", PList [])]
    [("q1", [3; 1])]
    [mkRun 1 5 false false true; mkRun 2 6 false false false;
     mkRun 3 7 false false true].

(** A run on the sample database with the answers [stdin] typed ahead. *)
Definition sample_world (a : Args) (stdin : list string) : World Reference :=
  mkWorld a sample_store stdin (fun _ => "2013-02-07") O [] [] [].

Definition select_ids (a : Args) (ids : list Z) : Args :=
  mkArgs (launchpad_file a) (config_dir a) (logdir a) (loglvl a) (silencer a)
    (output a) (Some ids) (name a) (state a) (query a) (qid a) (password a)
    (display_format a) (max a) (sort a) (rsort a) (table a) (depth a)
    (ignore_errors a) (include a) (exclude a) (priority a).

Definition select_name (a : Args) (n : string) : Args :=
  mkArgs (launchpad_file a) (config_dir a) (logdir a) (loglvl a) (silencer a)
    (output a) (fw_id a) (Some n) (state a) (query a) (qid a) (password a)
    (display_format a) (max a) (sort a) (rsort a) (table a) (depth a)
    (ignore_errors a) (include a) (exclude a) (priority a).

(** [archive -n w], [defuse -n w] and the like, with a [--password] option
    that is not given: eleven Workflows are selected. *)
Definition by_name_no_password : Args :=
  mkArgs None "." None "INFO" false json_dumps None (Some "w") None None None
    (Present None) (Some "less") max_default None None false 1 false None None
    0.

(** [purge_wfs -n w]: its parser has no [--password]. *)
Definition purge_by_name : Args := select_name no_options "w".

(** [archive -i 1 -n w]. *)
Definition id_and_name : Args := select_ids by_name_no_password [1].





(** [get_fws -i 1]. *)
Definition one_firework : Args := select_ids no_options [1].

(** [defuse_fws -q "{'name': 'old', 'spec.x': 1}" -n w -s READY]. *)
Definition three_filters : Args :=
  mkArgs None "." None "INFO" false json_dumps None (Some "w") (Some "READY")
    (Some "{'name': 'old', 'spec.x': 1}") None (Present None) (Some "less")
    max_default None None false 1 false None None 0.

(** ** Other sample LaunchPads

    The reference LaunchPad with a server that may be out of reach, with
    other mutating calls and with other tracker data. *)

Definition variant (reachable : bool)
  (exec : lp_call -> RefStore -> result (option Z) * RefStore)
  (trackers : RefStore -> Z -> result (list (Z * list tracker)))
  : External := {|
  Store := RefStore;
  PW_CHECK_NUM := @PW_CHECK_NUM Reference;
  literal_eval := @literal_eval Reference;
  int_of_str := @int_of_str Reference;
  recursion_limit := @recursion_limit Reference;
  path_exists := @path_exists Reference;
  prettytable_installed := @prettytable_installed Reference;
  LaunchPad_from_file := fun _ => reachable;
  LaunchPad_new := fun _ _ => reachable;
  get_wf_ids := @get_wf_ids Reference;
  get_fw_ids := @get_fw_ids Reference;
  get_fw_ids_from_reservation_id := @get_fw_ids_from_reservation_id Reference;
  get_fw_by_id_to_dict := @get_fw_by_id_to_dict Reference;
  get_wf_summary_dict := @get_wf_summary_dict Reference;
  get_wf_by_fw_id := @get_wf_by_fw_id Reference;
  workflows_count := @workflows_count Reference;
  offline_runs_find := @offline_runs_find Reference;
  get_tracker_data := trackers;
  fireworks_find_name := @fireworks_find_name Reference;
  lp_exec := exec
|}.

(** A LaunchPad whose server is out of reach. *)
Definition Unreachable : External := variant false ref_exec (fun _ _ => Ok []).

(** Mutating calls that raise on a Workflow or a FireWork that is not in
    the database. *)
Definition strict_exec (c : lp_call) (s : RefStore)
  : result (option Z) * RefStore :=
  match c with
  | lp_defuse_wf f | lp_archive_wf f | lp_reignite_wf f
  | lp_purge_workflow f =>
      match ref_find_doc f (workflows s) with
      | Some _ => ref_exec c s
      | None => (Raise (LaunchPadError "no such Workflow"), s)
      end
  | lp_defuse_fw f | lp_reignite_fw f | lp_rerun_fw f =>
      match ref_find_doc f (fireworks s) with
      | Some _ => ref_exec c s
      | None => (Raise (LaunchPadError "no such FireWork"), s)
      end
  | _ => ref_exec c s
  end.

(** One launch with two trackers for every FireWork but the second. *)
Definition sample_trackers (s : RefStore) (f : Z)
  : result (list (Z * list tracker)) :=
  if f =? 2 then Ok []
  else Ok [(10 * f, [mkTracker "out.txt" "out: done";
                     mkTracker "err.txt" "err: none"])].

Definition Strict : External := variant true strict_exec sample_trackers.

(** A sample outside of [init_yaml] and [add_scripts]: it shows on the
    terminal what is written to the file, and in the log the Workflow that
    is added. *)
#[export] Instance Shown : Outside Reference := {
  open_for_writing := fun path => print (Print_text ("open " ++ path));
  LaunchPad_from_dict_to_dict := fun doc => Ok (PDict doc);
  yaml_dump_to := fun _ d => print (Print_yaml d);
  lp_add_wf := fun fws _ name =>
    log INFO ("add_wf " ++ str_of_optstr name ++ ": "
              ++ join ", " (map task_script fws))
}.

(** A run during which the date changes after the first reading of the
    clock. *)
Definition midnight_world (a : Args) (stdin : list string) : World Reference :=
  mkWorld a sample_store stdin
    (fun n => match n with O => "2013-02-07" | S _ => "2013-02-08" end)
    O [] [] [].

(** A run on the database [s] of another LaunchPad. *)
Definition sample_world_of (E : External) (s : @Store E) (a : Args)
  (stdin : list string) : World E :=
  mkWorld a s stdin (fun _ => "2013-02-07") O [] [] [].

(** [-l lp.yaml], with the defaults of the parsers. *)
Definition with_file : Args := set_launchpad_file no_options (Some "lp.yaml").

(** [get_fws --qid q1 -d count]. *)
Definition count_by_reservation : Args :=
  mkArgs None "." None "INFO" false json_dumps None None None None (Some "q1")
    Absent (Some "count") max_default None None false 1 false None None 0.

(** [get_wfs -i 1 -t]. *)
Definition one_in_a_table : Args :=
  mkArgs None "." None "INFO" false json_dumps (Some [1]) None None None
    None Absent (Some "less") max_default None None true 1 false None None 0.

(** [get_fws -i 1 --qid q1]. *)
Definition id_and_reservation : Args :=
  mkArgs None "." None "INFO" false json_dumps (Some [1]) None None None
    (Some "q1") Absent (Some "less") max_default None None false 1 false None
    None 0.

(** [archive -i 1 99 2], with a [--password] option that is not given. *)
Definition three_ids : Args :=
  mkArgs None "." None "INFO" false json_dumps (Some [1; 99; 2]) None None
    None None (Present None) (Some "less") max_default None None false 1 false
    None None 0.

(** [track_fws -i 1 2 3 -x err.txt]. *)
Definition track_three : Args :=
  mkArgs None "." None "INFO" false json_dumps (Some [1; 2; 3]) None None None
    None Absent (Some "less") max_default None None false 1 false None
    (Some ["err.txt"]) 0.

(** [defuse -q READY], with a [--password] option that is not given: the
    query is a name, and no Python literal. *)
Definition malformed_query : Args :=
  mkArgs None "." None "INFO" false json_dumps None None None
    (Some "READY") None (Present None) (Some "less") max_default None
    None false 1 false None None 0.


(** Links that go round: from 1 to 3 and 2, and from 2 back to 1. *)
Definition round_links : list (pykey * list Z) :=
  [(KInt 1, [3; 2]); (KInt 2, [1]); (KInt 3, [])].

(** ** Tactics *)

(** One step of a command: the primitives of the monad unfolded, and the
    fields of the worlds they build read off. *)
Ltac run :=
  repeat progress
    (unfold get_password, set_args_password, bind, ret, raise, lift, get_args,
       put_args, read, print, input, today, log;
     cbn [fst snd w_args w_store w_stdin w_dates w_clock w_out w_log w_calls
          password set_password ids_len]).

(** Comparisons of numerals, evaluated. *)
Ltac arith :=
  repeat match goal with
    | |- context [Z.ltb ?a ?b] =>
        let v := eval cbv in (Z.ltb a b) in
        match v with true => idtac | false => idtac end;
        change (Z.ltb a b) with v
    | |- context [Z.eqb ?a ?b] =>
        let v := eval cbv in (Z.eqb a b) in
        match v with true => idtac | false => idtac end;
        change (Z.eqb a b) with v
    end.

(** The options of a namespace that a setter has rebuilt, read off. *)
Ltac fields :=
  cbn [launchpad_file config_dir logdir loglvl silencer output fw_id name
       state query qid password display_format max sort rsort table depth
       ignore_errors include exclude priority set_launchpad_file set_loglvl
       set_query set_password set_display_format set_depth].

(** * Properties *)

Section Proofs.

Context {E : External}.

(** ** Running the monad *)

Lemma bind_ok {A B : Type} (c : M E A) (k : A -> M E B) w a w' :
  c w = (Ok a, w') -> bind c k w = k a w'.
Proof. intro H. unfold bind. now rewrite H. Qed.

Lemma bind_raise {A B : Type} (c : M E A) (k : A -> M E B) w e w' :
  c w = (Raise e, w') -> bind c k w = (Raise e, w').
Proof. intro H. unfold bind. now rewrite H. Qed.

Lemma with_args_same (w : World E) : with_args w (w_args w) = w.
Proof. now destruct w. Qed.

Lemma same_options_refl (a : Args) : same_options a a.
Proof. reflexivity. Qed.

Lemma same_options_fields (a b : Args) :
  same_options a b ->
  fw_id a = fw_id b /\ name a = name b /\ state a = state b /\
  query a = query b /\ password a = password b /\
  ignore_errors a = ignore_errors b /\ depth a = depth b.
Proof.
  unfold same_options. intro H.
  repeat split;
    [ apply (f_equal fw_id) in H | apply (f_equal name) in H
    | apply (f_equal state) in H | apply (f_equal query) in H
    | apply (f_equal password) in H | apply (f_equal ignore_errors) in H
    | apply (f_equal depth) in H ]; exact H.
Qed.

(** ** Answers *)

Lemma upper_is_Y (c : ascii) :
  Ascii.eqb (ascii_upper c) "Y" = true <-> c = "Y"%char \/ c = "y"%char.
Proof.
  destruct c as [[] [] [] [] [] [] [] []]; vm_compute; split;
    try discriminate; try (intros [H | H]; discriminate H); auto.
Qed.

Lemma says_no_first_char (answer : string) :
  says_no answer ->
  exists c, first_char answer = Ok c /\ Ascii.eqb (ascii_upper c) "Y" = false.
Proof.
  intros (c & rest & -> & HY & Hy). exists c. split; [reflexivity|].
  destruct (Ascii.eqb (ascii_upper c) "Y") eqn:Heq; [|reflexivity].
  apply upper_is_Y in Heq. destruct Heq; contradiction.
Qed.

Lemma says_yes_first_char (answer : string) :
  says_yes answer ->
  exists c, first_char answer = Ok c /\ Ascii.eqb (ascii_upper c) "Y" = true.
Proof.
  intros (rest & [-> | ->]); eexists; split; reflexivity.
Qed.

(** ** get_lp *)

Lemma get_lp_cases (w : World E) :
  (exists a, get_lp w = (Ok tt, with_args w a) /\ same_options a (w_args w))
  \/
  (exists a msg,
     get_lp w =
     (Raise (ValueError msg),
      mkWorld a (w_store w) (w_stdin w) (w_dates w) (w_clock w)
        (w_out w ++ [Print_traceback]) (w_log w) (w_calls w))).
Proof.
  destruct w as [a s i d c o l k].
  unfold get_lp, bind, get_args, put_args, ret, raise, print, with_args.
  cbn [w_args w_store w_stdin w_dates w_clock w_out w_log w_calls].
  destruct (negb (truthy_str (launchpad_file a))
            && path_exists (path_join (config_dir a) DEFAULT_LPAD_YAML));
    cbn [w_args w_store w_stdin w_dates w_clock w_out w_log w_calls];
    match goal with
    | |- context [if truthy_str ?x then _ else _] => destruct (truthy_str x)
    end;
    cbn [w_args w_store w_stdin w_dates w_clock w_out w_log w_calls];
    match goal with
    | |- context [if ?b then ret tt else _] => destruct b
    | |- context [LaunchPad_from_file ?f] => destruct (LaunchPad_from_file f)
    | |- context [LaunchPad_new ?x ?y] => destruct (LaunchPad_new x y)
    end;
    cbn [w_args w_store w_stdin w_dates w_clock w_out w_log w_calls];
    first [ left; eexists; split; reflexivity
          | right; eexists; eexists; reflexivity ].
Qed.

Lemma get_lp_connected (w : World E) :
  connected w ->
  exists a, get_lp w = (Ok tt, with_args w a) /\ same_options a (w_args w).
Proof.
  unfold connected. intro H.
  destruct (get_lp_cases w) as [Hok | (a & msg & Hf)]; [exact Hok|].
  rewrite Hf in H. discriminate H.
Qed.

(** A command that starts by [get_lp] and fails there raises a
    [ValueError] and leaves the database alone. *)
Lemma get_lp_failure {A : Type} (k : M E A) (w : World E) :
  ~ connected w ->
  (exists msg, fst ((get_lp ;; k) w) = Raise (ValueError msg)) /\
  untouched w (snd ((get_lp ;; k) w)) /\
  unprompted w (snd ((get_lp ;; k) w)).
Proof.
  intro H. destruct (get_lp_cases w) as [(a & Hok & _) | (a & msg & Hf)].
  - exfalso. apply H. unfold connected. now rewrite Hok.
  - rewrite (bind_raise _ _ _ _ _ Hf). simpl. split; [now exists msg|].
    split; [split; reflexivity|]. split; [reflexivity|].
    intros p Hin. apply in_app_or in Hin. destruct Hin as [Hin | [Hin | []]];
      [exact Hin | discriminate Hin].
Qed.

(** ** pw_check *)

Lemma pw_check_passes (ids : list Z) (skip_pw : bool) (w : World E) :
  len ids <= PW_CHECK_NUM \/ skip_pw = true ->
  pw_check (IdList ids) skip_pw w = (Ok (IdList ids), w).
Proof.
  intro H. unfold pw_check. run.
  replace ((PW_CHECK_NUM <? len ids) && negb skip_pw) with false;
    [reflexivity|].
  symmetry. destruct H as [H | ->].
  - apply andb_false_intro1. apply Z.ltb_ge. exact H.
  - apply andb_false_r.
Qed.

Lemma pw_check_aborts (ids : list Z) (w : World E) pw answer rest :
  PW_CHECK_NUM < len ids ->
  password (w_args w) = Present pw ->
  truthy_str pw = false ->
  w_stdin w = answer :: rest ->
  says_no answer ->
  exists w',
    pw_check (IdList ids) false w
    = (Raise (ValueError "Operation aborted by user."), w') /\
    untouched w w' /\ w_stdin w' = rest.
Proof.
  intros Hn Hpw Hfalsy Hin Hno.
  destruct (says_no_first_char _ Hno) as (c & Hc & Hup).
  unfold pw_check. run.
  replace (PW_CHECK_NUM <? len ids) with true
    by (symmetry; apply Z.ltb_lt; exact Hn).
  cbn [andb negb]. run. rewrite Hpw. run. rewrite Hfalsy. cbn [negb]. run.
  rewrite Hin. run. rewrite Hc, Hup. run.
  eexists. split; [reflexivity|]. split; [split|]; reflexivity.
Qed.

Lemma pw_check_wrong_password (ids : list Z) (w : World E) pw :
  PW_CHECK_NUM < len ids ->
  password (w_args w) = Present (Some pw) ->
  pw <> "" ->
  pw <> w_dates w (w_clock w) ->
  exists msg w',
    pw_check (IdList ids) false w = (Raise (ValueError msg), w') /\
    untouched w w' /\ unprompted w w'.
Proof.
  intros Hn Hpw Hne Hdiff.
  unfold pw_check. run.
  replace (PW_CHECK_NUM <? len ids) with true
    by (symmetry; apply Z.ltb_lt; exact Hn).
  cbn [andb negb]. run. rewrite Hpw. run.
  replace (truthy_str (Some pw)) with true
    by (symmetry; simpl; apply negb_true_iff, String.eqb_neq; exact Hne).
  cbn [negb]. run. rewrite Hpw. run.
  replace (optstr_eqb (Some pw) (w_dates w (w_clock w))) with false
    by (symmetry; simpl; apply String.eqb_neq; exact Hdiff).
  cbn [negb]. eexists. eexists. split; [reflexivity|].
  split; [split; reflexivity|]. split; [reflexivity|]. intros p Hp; exact Hp.
Qed.

Lemma pw_check_right_password (ids : list Z) (w : World E) :
  PW_CHECK_NUM < len ids ->
  password (w_args w) = Present (Some (w_dates w (w_clock w))) ->
  w_dates w (w_clock w) <> "" ->
  exists w',
    pw_check (IdList ids) false w = (Ok (IdList ids), w') /\
    untouched w w' /\ unprompted w w' /\ w_args w' = w_args w /\
    w_log w' = w_log w.
Proof.
  intros Hn Hpw Hne.
  unfold pw_check. run.
  replace (PW_CHECK_NUM <? len ids) with true
    by (symmetry; apply Z.ltb_lt; exact Hn).
  cbn [andb negb]. run. rewrite Hpw. run.
  replace (truthy_str (Some (w_dates w (w_clock w)))) with true
    by (symmetry; simpl; apply negb_true_iff, String.eqb_neq; exact Hne).
  cbn [negb]. run. rewrite Hpw. run.
  replace (optstr_eqb (Some (w_dates w (w_clock w))) (w_dates w (w_clock w)))
    with true by (symmetry; simpl; apply String.eqb_refl).
  cbn [negb]. eexists. split; [reflexivity|].
  repeat split; try reflexivity. intros p Hp; exact Hp.
Qed.

(** ** parse_helper *)

Lemma parse_helper_selection (wf_mode skip_pw : bool) (w : World E) :
  parse_helper wf_mode skip_pw w =
  match selection wf_mode (w_args w) (w_store w) with
  | Ok ids => pw_check ids skip_pw w
  | Raise e => (Raise e, w)
  end.
Proof.
  unfold parse_helper, selection. run.
  destruct (truthy_list (fw_id (w_args w))
            && (1 <=? sum_bools [truthy_str (name (w_args w));
                                 truthy_str (state (w_args w));
                                 truthy_str (query (w_args w))]));
    [reflexivity|].
  destruct (truthy_list (fw_id (w_args w))); [reflexivity|].
  destruct (truthy_str (query (w_args w)));
    [destruct (literal_eval_opt (query (w_args w))) as [q0 | e];
       [|reflexivity]|];
    (destruct (truthy_str (name (w_args w)));
     [match goal with
      | |- context [py_setitem ?q "name" ?v] =>
          destruct (py_setitem q "name" v) as [q1 | e]; [|reflexivity]
      end|]);
    (destruct (truthy_str (state (w_args w)));
     [match goal with
      | |- context [py_setitem ?q "state" ?v] =>
          destruct (py_setitem q "state" v) as [q2 | e]; [|reflexivity]
      end|]);
    destruct wf_mode;
    match goal with
    | |- context [get_wf_ids ?s ?q ?a ?b ?c] =>
        destruct (get_wf_ids s q a b c); reflexivity
    | |- context [get_fw_ids ?s ?q ?a ?b ?c] =>
        destruct (get_fw_ids s q a b c); reflexivity
    end.
Qed.

Lemma selection_same_options (wf_mode : bool) (a b : Args) (s : Store) :
  same_options a b -> selection wf_mode a s = selection wf_mode b s.
Proof.
  intro H. apply same_options_fields in H.
  destruct H as (H1 & H2 & H3 & H4 & _).
  unfold selection. now rewrite H1, H2, H3, H4.
Qed.

Lemma selection_ambiguous (wf_mode : bool) (a : Args) (s : Store) :
  truthy_list (fw_id a) = true ->
  truthy_str (name a) = true \/ truthy_str (state a) = true \/
  truthy_str (query a) = true ->
  selection wf_mode a s
  = Raise (ValueError "Cannot specify both fw_id and name/state/query)").
Proof.
  intros Hid H. unfold selection. rewrite Hid.
  destruct (truthy_str (name a)), (truthy_str (state a)),
    (truthy_str (query a)); try reflexivity.
  destruct H as [H | [H | H]]; discriminate H.
Qed.

(** A command that selects through [parse_helper]: what it does once
    connected. *)
Lemma selecting_command_run {A : Type} (wf_mode skip_pw : bool)
  (k : ids_result -> M E A) (w : World E) (a : Args) :
  get_lp w = (Ok tt, with_args w a) ->
  same_options a (w_args w) ->
  (get_lp ;; ids <- parse_helper wf_mode skip_pw ;; k ids) w =
  match selection wf_mode (w_args w) (w_store w) with
  | Ok ids => (r <- pw_check ids skip_pw ;; k r) (with_args w a)
  | Raise e => (Raise e, with_args w a)
  end.
Proof.
  intros Hlp Hsame. rewrite (bind_ok _ _ _ _ _ Hlp).
  unfold bind at 1. rewrite parse_helper_selection.
  change (w_args (with_args w a)) with a.
  change (w_store (with_args w a)) with (w_store w).
  rewrite (selection_same_options wf_mode a (w_args w) (w_store w) Hsame).
  destruct (selection wf_mode (w_args w) (w_store w)); reflexivity.
Qed.

(** A command that selects through [parse_helper] rejects an ambiguous
    selector before it does anything else. *)
Lemma selecting_command_rejects {A : Type} (wf_mode skip_pw : bool)
  (k : ids_result -> M E A) (w : World E) :
  truthy_list (fw_id (w_args w)) = true ->
  truthy_str (name (w_args w)) = true \/ truthy_str (state (w_args w)) = true
  \/ truthy_str (query (w_args w)) = true ->
  exists msg w',
    (get_lp ;; ids <- parse_helper wf_mode skip_pw ;; k ids) w
    = (Raise (ValueError msg), w') /\
    untouched w w' /\
    (connected w -> msg = "Cannot specify both fw_id and name/state/query)").
Proof.
  intros Hid Hother.
  destruct (get_lp_cases w) as [(a & Hok & Hsame) | (a & msg & Hf)].
  - rewrite (selecting_command_run _ _ _ _ _ Hok Hsame).
    rewrite (selection_ambiguous _ _ _ Hid Hother).
    eexists. eexists. split; [reflexivity|]. split; [split; reflexivity|].
    reflexivity.
  - rewrite (bind_raise _ _ _ _ _ Hf).
    eexists. eexists. split; [reflexivity|]. split; [split; reflexivity|].
    unfold connected. rewrite Hf. discriminate.
Qed.

(** ** The listing commands and purge_wfs on an ambiguous selector *)

Lemma get_fws_results_rejects (w : World E) :
  1 < sum_bools [truthy_list (fw_id (w_args w)); truthy_str (name (w_args w));
                 truthy_str (state (w_args w)); truthy_str (query (w_args w))] ->
  exists msg w',
    get_fws_results w = (Raise (ValueError msg), w') /\ untouched w w' /\
    (connected w ->
     msg = "Please specify exactly one of (fw_id, name, state, query)").
Proof.
  intro H.
  destruct (get_lp_cases w) as [(a & Hok & Hsame) | (a & msg & Hf)].
  - apply same_options_fields in Hsame.
    destruct Hsame as (H1 & H2 & H3 & H4 & _).
    unfold get_fws_results. rewrite (bind_ok _ _ _ _ _ Hok).
    unfold with_args. run. rewrite H1, H2, H3, H4.
    apply Z.ltb_lt in H. rewrite H. run.
    eexists. eexists. split; [reflexivity|]. split; [split; reflexivity|].
    reflexivity.
  - unfold get_fws_results. rewrite (bind_raise _ _ _ _ _ Hf).
    eexists. eexists. split; [reflexivity|]. split; [split; reflexivity|].
    unfold connected. rewrite Hf. discriminate.
Qed.

Lemma get_wfs_results_rejects (w : World E) :
  1 < sum_bools [truthy_list (fw_id (w_args w)); truthy_str (name (w_args w));
                 truthy_str (state (w_args w)); truthy_str (query (w_args w))] ->
  exists msg w',
    get_wfs_results w = (Raise (ValueError msg), w') /\ untouched w w' /\
    (connected w ->
     msg = "Please specify exactly one of (fw_id, name, state, query)").
Proof.
  intro H.
  destruct (get_lp_cases w) as [(a & Hok & Hsame) | (a & msg & Hf)].
  - apply same_options_fields in Hsame.
    destruct Hsame as (H1 & H2 & H3 & H4 & _).
    unfold get_wfs_results. rewrite (bind_ok _ _ _ _ _ Hok).
    unfold with_args. run. rewrite H1, H2, H3, H4.
    apply Z.ltb_lt in H. rewrite H. run.
    eexists. eexists. split; [reflexivity|]. split; [split; reflexivity|].
    reflexivity.
  - unfold get_wfs_results. rewrite (bind_raise _ _ _ _ _ Hf).
    eexists. eexists. split; [reflexivity|]. split; [split; reflexivity|].
    unfold connected. rewrite Hf. discriminate.
Qed.

Lemma purge_wfs_rejects (w : World E) :
  truthy_list (fw_id (w_args w)) = true ->
  truthy_str (name (w_args w)) = true \/ truthy_str (state (w_args w)) = true ->
  exists msg w',
    purge_wfs w = (Raise (ValueError msg), w') /\ untouched w w' /\
    (connected w -> msg = "Please specify exactly one of (fw_id, name, state)").
Proof.
  intros Hid H.
  destruct (get_lp_cases w) as [(a & Hok & Hsame) | (a & msg & Hf)].
  - apply same_options_fields in Hsame.
    destruct Hsame as (H1 & H2 & H3 & _).
    unfold purge_wfs. rewrite (bind_ok _ _ _ _ _ Hok).
    unfold with_args. run. rewrite H1, H2, H3, Hid.
    replace (1 <? sum_bools [true; truthy_str (name (w_args w));
                             truthy_str (state (w_args w))]) with true
      by (destruct H as [H | H]; rewrite H;
          destruct (truthy_str (name (w_args w))),
            (truthy_str (state (w_args w))); reflexivity).
    run. eexists. eexists. split; [reflexivity|]. split; [split; reflexivity|].
    reflexivity.
  - unfold purge_wfs. rewrite (bind_raise _ _ _ _ _ Hf).
    eexists. eexists. split; [reflexivity|]. split; [split; reflexivity|].
    unfold connected. rewrite Hf. discriminate.
Qed.

(** C3.  Every selecting sub-command rejects an ambiguous selector (fw_id
    together with name, state or query; for get_fws and get_wfs, more than
    one of fw_id, name, state and query) with a ValueError, the one that
    names the selector once the LaunchPad is connected, and neither calls a
    mutating LaunchPad method nor changes the database. *)
Theorem ambiguous_selector_rejected (c : command) (w : World E) :
  ambiguous c (w_args w) ->
  (exists msg, fst (func c w) = Raise (ValueError msg)) /\
  untouched w (snd (func c w)) /\
  (connected w -> fst (func c w) = Raise (ValueError (rejection c))).
Proof.
  assert (Hsel : forall (wf_mode skip_pw : bool) (k : ids_result -> M E unit),
             truthy_list (fw_id (w_args w)) = true /\
             (truthy_str (name (w_args w)) = true \/
              truthy_str (state (w_args w)) = true \/
              truthy_str (query (w_args w)) = true) ->
             (exists msg,
                fst ((get_lp ;; ids <- parse_helper wf_mode skip_pw ;; k ids) w)
                = Raise (ValueError msg)) /\
             untouched w
               (snd ((get_lp ;; ids <- parse_helper wf_mode skip_pw ;; k ids) w))
             /\
             (connected w ->
              fst ((get_lp ;; ids <- parse_helper wf_mode skip_pw ;; k ids) w)
              = Raise (ValueError
                         "Cannot specify both fw_id and name/state/query)"))).
  { intros wf_mode skip_pw k [Hid H].
    destruct (selecting_command_rejects wf_mode skip_pw k w Hid H)
      as (msg & w' & Hr & Hu & Hm).
    rewrite Hr. split; [eexists; reflexivity|]. split; [exact Hu|].
    intro Hc. now rewrite (Hm Hc). }
  destruct c; cbn [ambiguous func rejection]; try contradiction;
    try (intro H; exact (Hsel _ _ _ H)).
  - (* get_fws *)
    intro H.
    destruct (get_fws_results_rejects w H) as (msg & w' & Hr & Hu & Hm).
    unfold get_fws. rewrite (bind_raise _ _ _ _ _ Hr).
    split; [eexists; reflexivity|]. split; [exact Hu|].
    intro Hc. now rewrite (Hm Hc).
  - (* get_wfs *)
    intro H.
    destruct (get_wfs_results_rejects w H) as (msg & w' & Hr & Hu & Hm).
    unfold get_wfs. rewrite (bind_raise _ _ _ _ _ Hr).
    split; [eexists; reflexivity|]. split; [exact Hu|].
    intro Hc. now rewrite (Hm Hc).
  - (* purge_wfs *)
    intros [Hid H].
    destruct (purge_wfs_rejects w Hid H) as (msg & w' & Hr & Hu & Hm).
    rewrite Hr. split; [eexists; reflexivity|]. split; [exact Hu|].
    intro Hc. now rewrite (Hm Hc).
Qed.

(** ** The commands that act on each selected entity *)

Lemma acts_with_acting (c : command) (wf_mode : bool) (op : Z -> lp_call) :
  acts_with c = Some (wf_mode, op) ->
  exists note closing, func c = acting wf_mode op note closing.
Proof.
  destruct c; cbn [acts_with]; intro H; inversion H; subst;
    eexists (fun f => _); eexists (fun n => _); reflexivity.
Qed.

Lemma for_each_calls (op : Z -> lp_call) (note : Z -> string) (l : list Z)
  (w : World E) :
  returns op ->
  exists s',
    for_each l (fun f => call (op f) ;; log DEBUG (note f)) w
    = (Ok tt,
       mkWorld (w_args w) s' (w_stdin w) (w_dates w) (w_clock w) (w_out w)
         (w_log w ++ map (fun f => (DEBUG, note f)) l)
         (w_calls w ++ map op l)).
Proof.
  intro Hret. revert w. induction l as [|f l IH]; intro w.
  - exists (w_store w). cbn [for_each map]. unfold ret.
    rewrite !app_nil_r. now destruct w.
  - cbn [for_each map].
    destruct (Hret f (w_store w)) as (r & s1 & Hexec).
    unfold bind at 1. unfold bind at 1. unfold call at 1. rewrite Hexec.
    unfold log at 1.
    cbn [w_args w_store w_stdin w_dates w_clock w_out w_log w_calls].
    match goal with
    | |- context [for_each l _ ?w1] => destruct (IH w1) as (s' & Hl)
    end.
    rewrite Hl.
    cbn [w_args w_store w_stdin w_dates w_clock w_out w_log w_calls].
    exists s'. rewrite <- !app_assoc. reflexivity.
Qed.

Lemma acting_proceeds (wf_mode : bool) (op : Z -> lp_call)
  (note closing : Z -> string) (w : World E) (ids : list Z) :
  connected w ->
  selection wf_mode (w_args w) (w_store w) = Ok (IdList ids) ->
  len ids <= PW_CHECK_NUM ->
  returns op ->
  exists w',
    acting wf_mode op note closing w = (Ok tt, w') /\
    w_stdin w' = w_stdin w /\ w_out w' = w_out w /\
    w_clock w' = w_clock w /\ w_calls w' = (w_calls w ++ map op ids)%list.
Proof.
  intros Hc Hsel Hn Hret.
  destruct (get_lp_connected w Hc) as (a & Hok & Hsame).
  unfold acting. rewrite (selecting_command_run _ _ _ _ _ Hok Hsame), Hsel.
  unfold bind at 1. rewrite (pw_check_passes _ _ _ (or_introl Hn)).
  unfold bind at 1. unfold lift at 1. cbn [ids_iter].
  destruct (for_each_calls op note ids (with_args w a) Hret) as (s' & Hl).
  unfold bind at 1. rewrite Hl. run.
  eexists. split; [reflexivity|]. cbn. repeat split; reflexivity.
Qed.

Lemma acting_aborts (wf_mode : bool) (op : Z -> lp_call)
  (note closing : Z -> string) (w : World E) (ids : list Z) pw answer rest :
  connected w ->
  selection wf_mode (w_args w) (w_store w) = Ok (IdList ids) ->
  PW_CHECK_NUM < len ids ->
  password (w_args w) = Present pw ->
  truthy_str pw = false ->
  w_stdin w = answer :: rest ->
  says_no answer ->
  exists w',
    acting wf_mode op note closing w
    = (Raise (ValueError "Operation aborted by user."), w') /\
    untouched w w'.
Proof.
  intros Hc Hsel Hn Hpw Hfalsy Hin Hno.
  destruct (get_lp_connected w Hc) as (a & Hok & Hsame).
  unfold acting. rewrite (selecting_command_run _ _ _ _ _ Hok Hsame), Hsel.
  assert (Hpw' : password (w_args (with_args w a)) = Present pw).
  { apply same_options_fields in Hsame. cbn. now rewrite (proj1 (proj2 (proj2
      (proj2 (proj2 Hsame))))). }
  destruct (pw_check_aborts ids (with_args w a) pw answer rest Hn Hpw' Hfalsy
              Hin Hno) as (w' & Hrun & Hu & _).
  rewrite (bind_raise _ _ _ _ _ Hrun).
  eexists. split; [reflexivity|]. exact Hu.
Qed.

Lemma acting_wrong_password (wf_mode : bool) (op : Z -> lp_call)
  (note closing : Z -> string) (w : World E) (ids : list Z) pw :
  connected w ->
  selection wf_mode (w_args w) (w_store w) = Ok (IdList ids) ->
  PW_CHECK_NUM < len ids ->
  password (w_args w) = Present (Some pw) ->
  pw <> "" ->
  pw <> w_dates w (w_clock w) ->
  exists msg w',
    acting wf_mode op note closing w = (Raise (ValueError msg), w') /\
    untouched w w' /\ unprompted w w'.
Proof.
  intros Hc Hsel Hn Hpw Hne Hdiff.
  destruct (get_lp_connected w Hc) as (a & Hok & Hsame).
  unfold acting. rewrite (selecting_command_run _ _ _ _ _ Hok Hsame), Hsel.
  assert (Hpw' : password (w_args (with_args w a)) = Present (Some pw)).
  { apply same_options_fields in Hsame. cbn. now rewrite (proj1 (proj2 (proj2
      (proj2 (proj2 Hsame))))). }
  destruct (pw_check_wrong_password ids (with_args w a) pw Hn Hpw' Hne Hdiff)
    as (msg & w' & Hrun & Hu & Hq).
  rewrite (bind_raise _ _ _ _ _ Hrun).
  eexists. eexists. split; [reflexivity|]. split; [exact Hu | exact Hq].
Qed.

Lemma acting_right_password (wf_mode : bool) (op : Z -> lp_call)
  (note closing : Z -> string) (w : World E) (ids : list Z) :
  connected w ->
  selection wf_mode (w_args w) (w_store w) = Ok (IdList ids) ->
  PW_CHECK_NUM < len ids ->
  password (w_args w) = Present (Some (w_dates w (w_clock w))) ->
  w_dates w (w_clock w) <> "" ->
  returns op ->
  exists w',
    acting wf_mode op note closing w = (Ok tt, w') /\
    unprompted w w' /\ w_calls w' = (w_calls w ++ map op ids)%list.
Proof.
  intros Hc Hsel Hn Hpw Hne Hret.
  destruct (get_lp_connected w Hc) as (a & Hok & Hsame).
  unfold acting. rewrite (selecting_command_run _ _ _ _ _ Hok Hsame), Hsel.
  assert (Hpw' : password (w_args (with_args w a))
                 = Present (Some (w_dates (with_args w a)
                                    (w_clock (with_args w a))))).
  { apply same_options_fields in Hsame. cbn. now rewrite (proj1 (proj2 (proj2
      (proj2 (proj2 Hsame))))). }
  destruct (pw_check_right_password ids (with_args w a) Hn Hpw' Hne)
    as (w1 & Hrun & (Hcalls & Hstore) & (Hstdin & Hout) & Hargs & Hlog).
  unfold bind at 1. rewrite Hrun.
  unfold bind at 1. unfold lift at 1. cbn [ids_iter].
  destruct (for_each_calls op note ids w1 Hret) as (s' & Hl).
  unfold bind at 1. rewrite Hl. run.
  eexists. split; [reflexivity|]. cbn. split; [split|].
  - exact Hstdin.
  - intros p Hp. apply Hout. exact Hp.
  - now rewrite Hcalls.
Qed.

(** ** reset and purge_wfs *)

Lemma reset_aborts (w : World E) pw answer rest n :
  connected w ->
  password (w_args w) = Present pw ->
  truthy_str pw = false ->
  workflows_count (w_store w) = Ok n ->
  w_stdin w = answer :: rest ->
  says_no answer ->
  exists w',
    reset w = (Raise (ValueError "Operation aborted by user."), w') /\
    untouched w w' /\
    w_out w' = (w_out w ++
                [Prompt ("Are you sure? This will RESET " ++ str_of_Z n
                         ++ " workflows and all data. (Y/N)")])%list.
Proof.
  intros Hc Hpw Hfalsy Hcount Hin Hno.
  destruct (get_lp_connected w Hc) as (a & Hok & Hsame).
  destruct (says_no_first_char _ Hno) as (c & Hfc & Hup).
  apply same_options_fields in Hsame.
  destruct Hsame as (_ & _ & _ & _ & Hp & _).
  unfold reset. rewrite (bind_ok _ _ _ _ _ Hok). unfold with_args. run.
  rewrite Hp, Hpw. run. rewrite Hfalsy. cbn [negb]. run.
  rewrite Hcount. run. rewrite Hin. run. rewrite Hfc, Hup. run.
  eexists. split; [reflexivity|]. split; [split|]; reflexivity.
Qed.

Lemma reset_with_password (w : World E) pw :
  connected w ->
  password (w_args w) = Present (Some pw) ->
  pw <> "" ->
  unprompted w (snd (reset w)) /\
  w_calls (snd (reset w)) = (w_calls w ++ [lp_reset (Some pw)])%list.
Proof.
  intros Hc Hpw Hne.
  destruct (get_lp_connected w Hc) as (a & Hok & Hsame).
  apply same_options_fields in Hsame.
  destruct Hsame as (_ & _ & _ & _ & Hp & _).
  unfold reset. rewrite (bind_ok _ _ _ _ _ Hok). unfold with_args. run.
  rewrite Hp, Hpw. run.
  replace (truthy_str (Some pw)) with true
    by (symmetry; simpl; apply negb_true_iff, String.eqb_neq; exact Hne).
  cbn [negb]. run. rewrite Hp, Hpw. run. unfold call.
  cbn [w_args w_store w_stdin w_dates w_clock w_out w_log w_calls].
  destruct (lp_exec (lp_reset (Some pw)) (w_store w)) as [[r | e] s'];
    cbn; (split; [split; [reflexivity | intros p Hin; exact Hin]
                 | reflexivity]).
Qed.

Lemma for_each_quiet {A : Type} (body : A -> M E unit) :
  (forall x w, w_stdin (snd (body x w)) = w_stdin w /\
               w_out (snd (body x w)) = w_out w) ->
  forall l w, w_stdin (snd (for_each l body w)) = w_stdin w /\
              w_out (snd (for_each l body w)) = w_out w.
Proof.
  intros Hbody l. induction l as [|x l IH]; intro w.
  - split; reflexivity.
  - cbn [for_each]. unfold bind. destruct (Hbody x w) as (H1 & H2).
    destruct (body x w) as [[[] | e] w1]; cbn [snd] in *.
    + destruct (IH w1) as (H3 & H4). now rewrite H3, H4, H1, H2.
    + now rewrite H1, H2.
Qed.

Lemma purge_wfs_unprompted (w : World E) : unprompted w (snd (purge_wfs w)).
Proof.
  assert (Hsame : forall w' : World E,
             w_stdin w' = w_stdin w /\ w_out w' = w_out w -> unprompted w w').
  { intros w' [H1 H2]. split; [exact H1|]. intro p. now rewrite H2. }
  destruct (get_lp_cases w) as [(a & Hok & _) | (a & msg & Hf)].
  - apply Hsame. unfold purge_wfs. rewrite (bind_ok _ _ _ _ _ Hok).
    unfold with_args. run.
    destruct (1 <? sum_bools [truthy_list (fw_id a); truthy_str (name a);
                              truthy_str (state a)]);
      [split; reflexivity|].
    destruct (truthy_list (fw_id a));
      [|destruct (truthy_str (name a));
        [|destruct (truthy_str (state a)); [|split; reflexivity]]];
      cbn [fst snd w_store];
      match goal with
      | |- context [get_wf_ids ?s ?q ?x ?y ?z] =>
          destruct (get_wf_ids s q x y z) as [[l | n] | e];
            cbn [ids_iter]; try (split; reflexivity)
      end;
      match goal with
      | |- context [for_each ?l0 ?body ?w0] =>
          destruct (for_each_quiet body) with (l := l0) (w := w0)
            as (H1 & H2);
            [ intros x w1; unfold bind, call, ret;
              destruct (lp_exec (lp_purge_workflow x) (w_store w1))
                as [[r | e] s']; split; reflexivity
            | rewrite H1, H2; split; reflexivity ]
      end.
  - unfold purge_wfs. rewrite (bind_raise _ _ _ _ _ Hf). cbn.
    split; [reflexivity|]. intros p Hin. apply in_app_or in Hin.
    destruct Hin as [Hin | [Hin | []]]; [exact Hin | discriminate Hin].
Qed.

Lemma reset_asks (w : World E) pw answer rest n :
  connected w ->
  password (w_args w) = Present pw ->
  truthy_str pw = false ->
  workflows_count (w_store w) = Ok n ->
  w_stdin w = answer :: rest ->
  w_out (snd (reset w))
  = (w_out w ++ [Prompt ("Are you sure? This will RESET " ++ str_of_Z n
                         ++ " workflows and all data. (Y/N)")])%list.
Proof.
  intros Hc Hpw Hfalsy Hcount Hin.
  destruct (get_lp_connected w Hc) as (a & Hok & Hsame).
  apply same_options_fields in Hsame.
  destruct Hsame as (_ & _ & _ & _ & Hp & _).
  unfold reset. rewrite (bind_ok _ _ _ _ _ Hok). unfold with_args. run.
  rewrite Hp, Hpw. run. rewrite Hfalsy. cbn [negb]. run.
  rewrite Hcount. run. rewrite Hin. run.
  destruct answer as [|c answer']; cbn [first_char]; [reflexivity|].
  destruct (Ascii.eqb (ascii_upper c) "Y"); run; [|reflexivity].
  unfold call.
  cbn [w_args w_store w_stdin w_dates w_clock w_out w_log w_calls].
  destruct (lp_exec (lp_reset (Some (w_dates w (w_clock w)))) (w_store w))
    as [[r | e] s']; reflexivity.
Qed.

Lemma reset_confirmed (w : World E) pw answer rest n :
  connected w ->
  password (w_args w) = Present pw ->
  truthy_str pw = false ->
  workflows_count (w_store w) = Ok n ->
  w_stdin w = answer :: rest ->
  says_yes answer ->
  w_calls (snd (reset w))
  = (w_calls w ++ [lp_reset (Some (w_dates w (w_clock w)))])%list.
Proof.
  intros Hc Hpw Hfalsy Hcount Hin Hyes.
  destruct (get_lp_connected w Hc) as (a & Hok & Hsame).
  destruct (says_yes_first_char _ Hyes) as (ch & Hfc & Hup).
  apply same_options_fields in Hsame.
  destruct Hsame as (_ & _ & _ & _ & Hp & _).
  unfold reset. rewrite (bind_ok _ _ _ _ _ Hok). unfold with_args. run.
  rewrite Hp, Hpw. run. rewrite Hfalsy. cbn [negb]. run.
  rewrite Hcount. run. rewrite Hin. run. rewrite Hfc, Hup. run.
  unfold call.
  cbn [w_args w_store w_stdin w_dates w_clock w_out w_log w_calls].
  destruct (lp_exec (lp_reset (Some (w_dates w (w_clock w)))) (w_store w))
    as [[r | e] s']; reflexivity.
Qed.

(** *** purge_wfs does not read the password *)

Lemma get_lp_password_blind : password_blind get_lp.
Proof.
  intros p [a s i dt c o l k].
  unfold get_lp, with_password, with_args, set_password, bind, get_args,
    put_args, ret, raise, print.
  cbn [w_args w_store w_stdin w_dates w_clock w_out w_log w_calls
       launchpad_file config_dir logdir loglvl silencer set_launchpad_file
       set_loglvl].
  destruct (negb (truthy_str (launchpad_file a))
            && path_exists (path_join (config_dir a) DEFAULT_LPAD_YAML));
    cbn [w_args w_store w_stdin w_dates w_clock w_out w_log w_calls
         launchpad_file config_dir logdir loglvl silencer set_launchpad_file
         set_loglvl fst snd];
    match goal with
    | |- context [if truthy_str ?x then _ else _] => destruct (truthy_str x)
    end;
    cbn [w_args w_store w_stdin w_dates w_clock w_out w_log w_calls
         launchpad_file config_dir logdir loglvl silencer set_launchpad_file
         set_loglvl fst snd];
    match goal with
    | |- context [LaunchPad_from_file ?f] => destruct (LaunchPad_from_file f)
    | |- context [LaunchPad_new ?x ?y] => destruct (LaunchPad_new x y)
    end;
    reflexivity.
Qed.

Lemma bind_password_blind {A B : Type} (c : M E A) (k : A -> M E B) :
  password_blind c -> (forall a, password_blind (k a)) ->
  password_blind (bind c k).
Proof.
  intros Hc Hk p w. unfold bind. rewrite Hc.
  destruct (c w) as [[a | e] w1]; cbn [fst snd]; [apply Hk | reflexivity].
Qed.

Lemma ret_password_blind {A : Type} (a : A) : password_blind (ret a : M E A).
Proof. intros p w. reflexivity. Qed.

Lemma raise_password_blind {A : Type} (e : exc) :
  password_blind (raise e : M E A).
Proof. intros p w. reflexivity. Qed.

Lemma lift_password_blind {A : Type} (r : result A) :
  password_blind (lift r : M E A).
Proof. intros p w. reflexivity. Qed.

Lemma read_password_blind {A : Type} (f : Store -> result A) :
  password_blind (read f).
Proof. intros p w. reflexivity. Qed.

Lemma call_password_blind (c : lp_call) : password_blind (call c).
Proof.
  intros p w. unfold call, with_password, with_args.
  cbn [w_args w_store w_stdin w_dates w_clock w_out w_log w_calls].
  destruct (lp_exec c (w_store w)); reflexivity.
Qed.

Lemma if_password_blind {A : Type} (b : bool) (c1 c2 : M E A) :
  password_blind c1 -> password_blind c2 ->
  password_blind (if b then c1 else c2).
Proof. destruct b; auto. Qed.

Lemma for_each_password_blind {A : Type} (body : A -> M E unit) (l : list A) :
  (forall x, password_blind (body x)) -> password_blind (for_each l body).
Proof.
  intro Hbody. induction l as [|x l IH]; [intros p w; reflexivity|].
  cbn [for_each]. apply bind_password_blind; [apply Hbody | intros _; exact IH].
Qed.

Lemma purge_wfs_password_blind : password_blind purge_wfs.
Proof.
  assert (Hrest : forall (check : M E unit) (query : M E pyval),
             password_blind check -> password_blind query ->
             password_blind
               (check ;;
                query <- query ;;
                ids <- read (fun s =>
                         get_wf_ids s query Default Default Default) ;;
                l <- lift (ids_iter ids) ;;
                for_each l (fun i => call (lp_purge_workflow i) ;; ret tt))).
  { intros check query Hcheck Hquery.
    apply bind_password_blind; [exact Hcheck|]. intros _.
    apply bind_password_blind; [exact Hquery|]. intro q.
    apply bind_password_blind; [apply read_password_blind|]. intro ids.
    apply bind_password_blind; [apply lift_password_blind|]. intro l.
    apply for_each_password_blind. intro i.
    apply bind_password_blind; [apply call_password_blind|]. intros _.
    apply ret_password_blind. }
  unfold purge_wfs. apply bind_password_blind; [exact get_lp_password_blind|].
  intros _ p w.
  refine (Hrest _ _ _ _ p w).
  - apply if_password_blind;
      [apply raise_password_blind | apply ret_password_blind].
  - repeat (apply if_password_blind; [apply ret_password_blind|]).
    apply raise_password_blind.
Qed.

(** ** A confirmed run *)

Lemma pw_check_confirmed (ids : list Z) (w : World E) pw answer rest :
  PW_CHECK_NUM < len ids ->
  password (w_args w) = Present pw ->
  truthy_str pw = false ->
  w_stdin w = answer :: rest ->
  says_yes answer ->
  w_dates w (S (w_clock w)) = w_dates w (w_clock w) ->
  exists w',
    pw_check (IdList ids) false w = (Ok (IdList ids), w') /\
    untouched w w' /\ w_stdin w' = rest.
Proof.
  intros Hn Hpw Hfalsy Hin Hyes Hdate.
  destruct (says_yes_first_char _ Hyes) as (c & Hc & Hup).
  unfold pw_check. run.
  replace (PW_CHECK_NUM <? len ids) with true
    by (symmetry; apply Z.ltb_lt; exact Hn).
  cbn [andb negb]. run. rewrite Hpw. run. rewrite Hfalsy. cbn [negb]. run.
  rewrite Hin. run. rewrite Hc, Hup. run. rewrite Hdate.
  replace (optstr_eqb (Some (w_dates w (w_clock w))) (w_dates w (w_clock w)))
    with true by (symmetry; simpl; apply String.eqb_refl).
  cbn [negb]. eexists. split; [reflexivity|]. split; [split|]; reflexivity.
Qed.

Lemma acting_confirmed (wf_mode : bool) (op : Z -> lp_call)
  (note closing : Z -> string) (w : World E) (ids : list Z) pw answer rest :
  connected w ->
  selection wf_mode (w_args w) (w_store w) = Ok (IdList ids) ->
  PW_CHECK_NUM < len ids ->
  password (w_args w) = Present pw ->
  truthy_str pw = false ->
  w_stdin w = answer :: rest ->
  says_yes answer ->
  w_dates w (S (w_clock w)) = w_dates w (w_clock w) ->
  returns op ->
  exists w',
    acting wf_mode op note closing w = (Ok tt, w') /\
    w_calls w' = (w_calls w ++ map op ids)%list.
Proof.
  intros Hc Hsel Hn Hpw Hfalsy Hin Hyes Hdate Hret.
  destruct (get_lp_connected w Hc) as (a & Hok & Hsame).
  unfold acting. rewrite (selecting_command_run _ _ _ _ _ Hok Hsame), Hsel.
  assert (Hpw' : password (w_args (with_args w a)) = Present pw).
  { apply same_options_fields in Hsame. cbn. now rewrite (proj1 (proj2 (proj2
      (proj2 (proj2 Hsame))))). }
  destruct (pw_check_confirmed ids (with_args w a) pw answer rest Hn Hpw'
              Hfalsy Hin Hyes Hdate) as (w1 & Hrun & (Hcalls & _) & _).
  unfold bind at 1. rewrite Hrun.
  unfold bind at 1. unfold lift at 1. cbn [ids_iter].
  destruct (for_each_calls op note ids w1 Hret) as (s' & Hl).
  unfold bind at 1. rewrite Hl. run.
  eexists. split; [reflexivity|]. cbn. now rewrite Hcalls.
Qed.

(** ** The confirmation gate *)

(** C1, as amended.  archive with more than PW_CHECK_NUM workflows selected
    demands a confirmation before it changes anything: with no password,
    an answer that is not empty and does not start with Y or y raises
    ValueError('Operation aborted by user.'); a password that is not the
    date raises ValueError; in both cases no mutating call is issued and the
    database is as it was; an answer that starts with Y or y, when the date
    is the same before the question and after the answer, or the date as
    password, lets every workflow be archived when lp.archive_wf returns.
    reset asks in the same way whatever the number of workflows: with no
    password it puts its question; an answer that is not empty and does not
    start with Y or y raises the same ValueError with nothing changed; on
    an answer that starts with Y or y it calls lp.reset with the date; a
    password that is given is handed to lp.reset with no question.
    purge_wfs puts no question, and runs the same whatever args.password
    is, and whether there is one or not. *)
Theorem destructive_commands_confirmation (w : World E) :
  connected w ->
  (forall ids,
     selection true (w_args w) (w_store w) = Ok (IdList ids) ->
     PW_CHECK_NUM < len ids ->
     (forall pw answer rest,
        password (w_args w) = Present pw -> truthy_str pw = false ->
        w_stdin w = answer :: rest ->
        (says_no answer ->
         fst (archive w) = Raise (ValueError "Operation aborted by user.") /\
         untouched w (snd (archive w))) /\
        (says_yes answer ->
         w_dates w (S (w_clock w)) = w_dates w (w_clock w) ->
         returns lp_archive_wf ->
         fst (archive w) = Ok tt /\
         w_calls (snd (archive w))
         = (w_calls w ++ map lp_archive_wf ids)%list)) /\
     (forall pw,
        password (w_args w) = Present (Some pw) -> pw <> "" ->
        (pw <> w_dates w (w_clock w) ->
         (exists msg, fst (archive w) = Raise (ValueError msg)) /\
         untouched w (snd (archive w)) /\ unprompted w (snd (archive w))) /\
        (pw = w_dates w (w_clock w) -> returns lp_archive_wf ->
         fst (archive w) = Ok tt /\ unprompted w (snd (archive w)) /\
         w_calls (snd (archive w))
         = (w_calls w ++ map lp_archive_wf ids)%list))) /\
  (forall pw answer rest n,
     password (w_args w) = Present pw -> truthy_str pw = false ->
     workflows_count (w_store w) = Ok n ->
     w_stdin w = answer :: rest ->
     w_out (snd (reset w))
     = (w_out w ++ [Prompt ("Are you sure? This will RESET " ++ str_of_Z n
                            ++ " workflows and all data. (Y/N)")])%list /\
     (says_no answer ->
      fst (reset w) = Raise (ValueError "Operation aborted by user.") /\
      untouched w (snd (reset w))) /\
     (says_yes answer ->
      w_calls (snd (reset w))
      = (w_calls w ++ [lp_reset (Some (w_dates w (w_clock w)))])%list)) /\
  (forall pw,
     password (w_args w) = Present (Some pw) -> pw <> "" ->
     unprompted w (snd (reset w)) /\
     w_calls (snd (reset w)) = (w_calls w ++ [lp_reset (Some pw)])%list) /\
  unprompted w (snd (purge_wfs w)) /\
  password_blind purge_wfs.
Proof.
  intro Hc.
  destruct (acts_with_acting cmd_archive true lp_archive_wf eq_refl)
    as (note & closing & Hshape).
  cbn [func] in Hshape. rewrite Hshape.
  split; [|split; [|split; [|split]]].
  - intros ids Hsel Hn. split.
    + intros pw answer rest Hpw Hfalsy Hin. split.
      * intro Hno.
        destruct (acting_aborts true lp_archive_wf note closing w ids pw
                    answer rest Hc Hsel Hn Hpw Hfalsy Hin Hno)
          as (w' & Hr & Hu).
        now rewrite Hr.
      * intros Hyes Hdate Hret.
        destruct (acting_confirmed true lp_archive_wf note closing w ids pw
                    answer rest Hc Hsel Hn Hpw Hfalsy Hin Hyes Hdate Hret)
          as (w' & Hr & Hcalls).
        now rewrite Hr.
    + intros pw Hpw Hne. split.
      * intro Hdiff.
        destruct (acting_wrong_password true lp_archive_wf note closing w ids
                    pw Hc Hsel Hn Hpw Hne Hdiff) as (msg & w' & Hr & Hu & Hq).
        rewrite Hr. split; [eexists; reflexivity | split; assumption].
      * intros -> Hret.
        destruct (acting_right_password true lp_archive_wf note closing w ids
                    Hc Hsel Hn Hpw Hne Hret) as (w' & Hr & Hq & Hcalls).
        rewrite Hr. split; [reflexivity | split; assumption].
  - intros pw answer rest n Hpw Hfalsy Hcount Hin.
    split; [exact (reset_asks w pw answer rest n Hc Hpw Hfalsy Hcount Hin)|].
    split.
    + intro Hno.
      destruct (reset_aborts w pw answer rest n Hc Hpw Hfalsy Hcount Hin Hno)
        as (w' & Hr & Hu & _).
      now rewrite Hr.
    + intro Hyes.
      exact (reset_confirmed w pw answer rest n Hc Hpw Hfalsy Hcount Hin Hyes).
  - intros pw Hpw Hne. exact (reset_with_password w pw Hc Hpw Hne).
  - exact (purge_wfs_unprompted w).
  - exact purge_wfs_password_blind.
Qed.

(** C2, as amended.  defuse, reignite and rerun_fws (and defuse_fws and
    reignite_fws) pass the same gate as archive.  With at most PW_CHECK_NUM
    entities selected they put no question, read no password and act on
    every entity; with more, and no password, an answer that is not empty
    and does not start with Y or y raises ValueError('Operation aborted by
    user.') and a password that is not the date raises ValueError, with no
    mutating call issued and the database as it was. *)
Theorem reversible_commands_gate (c : command) (wf_mode : bool)
  (op : Z -> lp_call) (w : World E) (ids : list Z) :
  reversible c = true ->
  acts_with c = Some (wf_mode, op) ->
  connected w ->
  selection wf_mode (w_args w) (w_store w) = Ok (IdList ids) ->
  (len ids <= PW_CHECK_NUM -> returns op ->
   fst (func c w) = Ok tt /\
   w_stdin (snd (func c w)) = w_stdin w /\
   w_out (snd (func c w)) = w_out w /\
   w_clock (snd (func c w)) = w_clock w /\
   w_calls (snd (func c w)) = (w_calls w ++ map op ids)%list) /\
  (PW_CHECK_NUM < len ids ->
   (forall pw answer rest,
      password (w_args w) = Present pw -> truthy_str pw = false ->
      w_stdin w = answer :: rest -> says_no answer ->
      fst (func c w) = Raise (ValueError "Operation aborted by user.") /\
      untouched w (snd (func c w))) /\
   (forall pw,
      password (w_args w) = Present (Some pw) -> pw <> "" ->
      pw <> w_dates w (w_clock w) ->
      (exists msg, fst (func c w) = Raise (ValueError msg)) /\
      untouched w (snd (func c w)))).
Proof.
  intros _ Hacts Hc Hsel.
  destruct (acts_with_acting c wf_mode op Hacts) as (note & closing & Hshape).
  rewrite Hshape. split.
  - intros Hn Hret.
    destruct (acting_proceeds wf_mode op note closing w ids Hc Hsel Hn Hret)
      as (w' & Hr & H1 & H2 & H3 & H4).
    rewrite Hr. repeat split; assumption.
  - intro Hn. split.
    + intros pw answer rest Hpw Hfalsy Hin Hno.
      destruct (acting_aborts wf_mode op note closing w ids pw answer rest
                  Hc Hsel Hn Hpw Hfalsy Hin Hno) as (w' & Hr & Hu).
      now rewrite Hr.
    + intros pw Hpw Hne Hdiff.
      destruct (acting_wrong_password wf_mode op note closing w ids pw
                  Hc Hsel Hn Hpw Hne Hdiff) as (msg & w' & Hr & Hu & _).
      rewrite Hr. split; [eexists; reflexivity | assumption].
Qed.

(** C7.  On an id list of at most PW_CHECK_NUM entries, and on any id list
    when skip_pw is true, pw_check returns the list as it is and leaves the
    world as it is: nothing is asked, nothing is read from the terminal or
    from the clock, and args.password is not read; the world may have no
    such attribute.  So does the selection of track_fws, which calls
    parse_helper with skip_pw true, whatever number of FireWorks it
    selects. *)
Theorem pw_check_returns_ids_unchanged (ids : list Z) (skip_pw : bool)
  (w : World E) :
  len ids <= PW_CHECK_NUM \/ skip_pw = true ->
  pw_check (IdList ids) skip_pw w = (Ok (IdList ids), w) /\
  (forall selected,
     selection false (w_args w) (w_store w) = Ok (IdList selected) ->
     parse_helper false true w = (Ok (IdList selected), w)).
Proof.
  intro H. split; [exact (pw_check_passes ids skip_pw w H)|].
  intros selected Hsel. rewrite parse_helper_selection, Hsel.
  apply pw_check_passes. now right.
Qed.

(** ** Dictionaries *)

Lemma pykey_eqb_refl (k : pykey) : pykey_eqb k k = true.
Proof. destruct k; simpl; [apply Z.eqb_refl | apply String.eqb_refl]. Qed.

Lemma pykey_eqb_eq (a b : pykey) : pykey_eqb a b = true <-> a = b.
Proof.
  destruct a, b; simpl; split; intro H; try discriminate.
  - apply Z.eqb_eq in H. now subst.
  - inversion H. apply Z.eqb_refl.
  - apply String.eqb_eq in H. now subst.
  - inversion H. apply String.eqb_refl.
Qed.

Lemma dict_get_set_same {V : Type} (d : list (pykey * V)) k v :
  dict_get (dict_set d k v) k = Some v.
Proof.
  induction d as [|[k' v'] d IH]; simpl.
  - now rewrite pykey_eqb_refl.
  - destruct (pykey_eqb k' k) eqn:Hk; simpl; now rewrite Hk.
Qed.

Lemma dict_get_set_other {V : Type} (d : list (pykey * V)) k k' v :
  k <> k' -> dict_get (dict_set d k v) k' = dict_get d k'.
Proof.
  intro Hne. induction d as [|[k0 v0] d IH]; simpl.
  - destruct (pykey_eqb k k') eqn:Hk; [|reflexivity].
    apply pykey_eqb_eq in Hk. contradiction.
  - destruct (pykey_eqb k0 k) eqn:Hk; simpl.
    + destruct (pykey_eqb k0 k') eqn:Hk'; [|reflexivity].
      apply pykey_eqb_eq in Hk, Hk'. subst. contradiction.
    + now rewrite IH.
Qed.

(** C9.  Without fw_id, parse_helper takes --query, --name and --state
    together: the dictionary that --query evaluates to (the empty one
    without --query), with its name entry set to --name and its state
    entry set to --state when these are given and its other entries kept, is
    the query handed to lp.get_wf_ids or lp.get_fw_ids, and the ids that
    come back go to pw_check. *)
Theorem parse_helper_combines_filters (wf_mode skip_pw : bool) (w : World E)
  (parsed : list (pykey * pyval)) :
  truthy_list (fw_id (w_args w)) = false ->
  (if truthy_str (query (w_args w))
   then literal_eval (the_str (query (w_args w))) = Ok (PDict parsed)
   else parsed = []) ->
  parse_helper wf_mode skip_pw w
  = (ids <- read (fun s =>
                    (if wf_mode then get_wf_ids else get_fw_ids) s
                      (PDict (combined_query (w_args w) parsed))
                      Default Default Default) ;;
     pw_check ids skip_pw) w
  /\ (truthy_str (name (w_args w)) = true ->
      dict_get (combined_query (w_args w) parsed) (KStr "name")
      = Some (PStr (the_str (name (w_args w)))))
  /\ (truthy_str (state (w_args w)) = true ->
      dict_get (combined_query (w_args w) parsed) (KStr "state")
      = Some (PStr (the_str (state (w_args w)))))
  /\ (forall k,
        (truthy_str (name (w_args w)) = true -> k <> KStr "name") ->
        (truthy_str (state (w_args w)) = true -> k <> KStr "state") ->
        dict_get (combined_query (w_args w) parsed) k = dict_get parsed k).
Proof.
  intros Hid Hq. split; [|split; [|split]].
  - rewrite parse_helper_selection. unfold selection. rewrite Hid.
    cbn [andb]. unfold combined_query.
    assert (Hq0 : (if truthy_str (query (w_args w))
                   then literal_eval_opt (query (w_args w))
                   else Ok (PDict [])) = Ok (PDict parsed)).
    { destruct (query (w_args w)) as [q|]; cbn in *.
      - destruct (negb (q =? "")%string); [exact Hq | now subst].
      - now subst. }
    rewrite Hq0.
    destruct (truthy_str (name (w_args w))), (truthy_str (state (w_args w)));
      cbn [py_setitem]; unfold bind, read; destruct wf_mode;
      match goal with
      | |- context [get_wf_ids ?s ?q ?a ?b ?c] =>
          destruct (get_wf_ids s q a b c); reflexivity
      | |- context [get_fw_ids ?s ?q ?a ?b ?c] =>
          destruct (get_fw_ids s q a b c); reflexivity
      end.
  - intro Hname. unfold combined_query. rewrite Hname.
    assert (Hv : pyval_of_optstr (name (w_args w))
                 = PStr (the_str (name (w_args w)))).
    { destruct (name (w_args w)); [reflexivity | discriminate Hname]. }
    destruct (truthy_str (state (w_args w))).
    + rewrite dict_get_set_other by discriminate.
      now rewrite dict_get_set_same, Hv.
    + now rewrite dict_get_set_same, Hv.
  - intro Hstate. unfold combined_query. rewrite Hstate.
    assert (Hv : pyval_of_optstr (state (w_args w))
                 = PStr (the_str (state (w_args w)))).
    { destruct (state (w_args w)); [reflexivity | discriminate Hstate]. }
    now rewrite dict_get_set_same, Hv.
  - intros k Hname Hstate. unfold combined_query.
    destruct (truthy_str (name (w_args w))), (truthy_str (state (w_args w))).
    + rewrite dict_get_set_other by (intro; subst; now apply Hstate).
      rewrite dict_get_set_other by (intro; subst; now apply Hname).
      reflexivity.
    + rewrite dict_get_set_other by (intro; subst; now apply Hname).
      reflexivity.
    + rewrite dict_get_set_other by (intro; subst; now apply Hstate).
      reflexivity.
    + reflexivity.
Qed.

(** ** The single result *)

Lemma unwrap_single_list (results : list pyval) :
  unwrap_single (PList results)
  = Ok (match results with
        | [x] => x
        | _ => PList results
        end).
Proof.
  unfold unwrap_single. cbn [py_len].
  destruct results as [|x [|y rest]]; try reflexivity.
  replace (len (x :: y :: rest) =? 1) with false; [reflexivity|].
  symmetry. apply Z.eqb_neq. unfold len. cbn [List.length]. lia.
Qed.

Lemma map_r_cells (headers : list pykey) (kvs : list (pykey * pyval)) :
  map_r (py_get (PDict kvs)) headers = Ok (map (cell (PDict kvs)) headers).
Proof.
  induction headers as [|k headers IH]; [reflexivity|].
  cbn [map_r map]. rewrite IH. cbn [py_get cell].
  destruct (dict_get kvs k); reflexivity.
Qed.

Lemma map_r_rows (headers : list pykey) (ds : list pyval) :
  Forall is_dict ds ->
  map_r (fun d => map_r (py_get d) headers) ds
  = Ok (map (fun d => map (cell d) headers) ds).
Proof.
  induction 1 as [|d ds [kvs ->] _ IH]; [reflexivity|].
  cbn [map_r map]. now rewrite map_r_cells, IH.
Qed.

Lemma wf_table_prints_a_table (wfs : pyval) (t : printed) :
  wf_table wfs = Ok t -> exists headers rows, t = Print_table headers rows.
Proof.
  unfold wf_table. intro H.
  destruct (py_getitem wfs (KInt 0)) as [first|]; [|discriminate H].
  destruct (py_keys first) as [headers|]; [|discriminate H].
  destruct prettytable_installed; [|discriminate H].
  destruct (py_iter wfs) as [ds|]; [|discriminate H].
  destruct (map_r (fun d => map_r (py_get d) headers) ds) as [rows|];
    [|discriminate H].
  inversion H. now eexists; eexists.
Qed.


(** ** get_children *)

Lemma map_r_ext {A B : Type} (f g : A -> result B) (l : list A) :
  (forall x, f x = g x) -> map_r f l = map_r g l.
Proof.
  intro H. induction l as [|x l IH]; [reflexivity|].
  cbn [map_r]. now rewrite H, IH.
Qed.

Lemma children_loop_ext (rec1 rec2 : Z -> result pyval) (start : Z)
  (items : list (pykey * list Z)) (data : list (pykey * pyval)) :
  (forall i, rec1 i = rec2 i) ->
  children_loop rec1 start items data = children_loop rec2 start items data.
Proof.
  intro H. revert data. induction items as [|[l c] items IH]; intro data;
    [reflexivity|].
  cbn [children_loop]. rewrite (map_r_ext rec1 rec2 c H).
  destruct (pykey_eqb l (KInt start)); [|apply IH].
  destruct (0 <? len c); [|apply IH].
  destruct (map_r rec2 c); [apply IH | reflexivity].
Qed.

Lemma get_children_max_depth (fuel : nat) links start d1 d2 :
  get_children fuel links start d1 = get_children fuel links start d2.
Proof.
  revert start. induction fuel as [|fuel IH]; intro start; [reflexivity|].
  cbn [get_children]. apply children_loop_ext. intro i. apply IH.
Qed.

Lemma dict_get_absent {V : Type} (d : list (pykey * V)) (k : pykey) :
  ~ In k (map fst d) -> dict_get d k = None.
Proof.
  induction d as [|[k' v] d IH]; intro H; [reflexivity|].
  cbn [dict_get]. destruct (pykey_eqb k' k) eqn:Hk.
  - apply pykey_eqb_eq in Hk. subst. exfalso. apply H. now left.
  - apply IH. intro Hin. apply H. now right.
Qed.

(** On a dictionary, whose keys are distinct, the loop of [get_children]
    is a lookup of [start]. *)
Lemma children_loop_lookup (rec : Z -> result pyval) (start : Z)
  (items : list (pykey * list Z)) (data : list (pykey * pyval)) :
  NoDup (map fst items) ->
  children_loop rec start items data
  = match dict_get items (KInt start) with
    | None => Ok (PDict data)
    | Some c =>
        if 0 <? len c then
          match map_r rec c with
          | Ok subs => Ok (PDict (dict_set data (KInt start) (PList subs)))
          | Raise e => Raise e
          end
        else Ok (PDict (dict_set data (KInt start) (PList (map PInt c))))
    end.
Proof.
  revert data. induction items as [|[l c] items IH]; intros data Hnd;
    [reflexivity|].
  inversion Hnd as [|? ? Hnotin Hnd']; subst.
  cbn [children_loop dict_get]. destruct (pykey_eqb l (KInt start)) eqn:Hl.
  - apply pykey_eqb_eq in Hl. subst l.
    assert (Hnone : dict_get items (KInt start) = None)
      by (apply dict_get_absent; exact Hnotin).
    destruct (0 <? len c).
    + destruct (map_r rec c); [|reflexivity].
      now rewrite (IH _ Hnd'), Hnone.
    + now rewrite (IH _ Hnd'), Hnone.
  - apply (IH _ Hnd').
Qed.

Lemma map_r_Forall2 {A B : Type} (f : A -> result B) (l : list A)
  (ys : list B) :
  map_r f l = Ok ys -> Forall2 (fun x y => f x = Ok y) l ys.
Proof.
  revert ys. induction l as [|x l IH]; intros ys H; cbn [map_r] in H.
  - inversion H. constructor.
  - destruct (f x) as [y|e] eqn:Hx; [|discriminate H].
    destruct (map_r f l) as [ys'|e]; [|discriminate H].
    inversion H. subst. constructor; [exact Hx | now apply IH].
Qed.

Lemma map_r_total {A B : Type} (f : A -> result B) (l : list A) :
  Forall (fun x => exists y, f x = Ok y) l -> exists ys, map_r f l = Ok ys.
Proof.
  induction 1 as [|x l [y Hy] _ [ys Hys]]; [now exists []|].
  exists (y :: ys). cbn [map_r]. now rewrite Hy, Hys.
Qed.

Lemma get_children_expands (fuel : nat) links start d t :
  NoDup (map fst links) ->
  get_children fuel links start d = Ok t ->
  expansion links start t.
Proof.
  intro Hnd. revert start t.
  induction fuel as [|fuel IH]; intros start t H; [discriminate H|].
  cbn [get_children] in H. rewrite (children_loop_lookup _ _ _ _ Hnd) in H.
  destruct (dict_get links (KInt start)) as [c|] eqn:Hc.
  - destruct (0 <? len c) eqn:Hlen.
    + destruct (map_r (fun i => get_children fuel links i d) c) as [subs|e]
        eqn:Hsubs; [|discriminate H].
      inversion H. subst t. cbn [dict_set].
      apply expansion_node with (c := c); [exact Hc | |].
      * intro Hnil. subst c. discriminate Hlen.
      * apply map_r_Forall2 in Hsubs.
        eapply Forall2_impl; [|exact Hsubs]. intros i s Hi. now apply IH.
    + inversion H. subst t. cbn [dict_set].
      assert (c = []) as ->.
      { destruct c; [reflexivity|]. exfalso. apply Z.ltb_ge in Hlen.
        unfold len in Hlen. cbn [List.length] in Hlen. lia. }
      apply expansion_leaf. exact Hc.
  - inversion H. apply expansion_absent. exact Hc.
Qed.

Lemma get_children_S (fuel : nat) links start d :
  get_children (S fuel) links start d
  = children_loop (fun i => get_children fuel links i d) start links [].
Proof. reflexivity. Qed.

Lemma get_children_returns (n : nat) links start d :
  NoDup (map fst links) ->
  bounded links n start ->
  exists t, get_children (S n) links start d = Ok t.
Proof.
  intro Hnd. revert start.
  induction n as [|n IH]; intros start Hb; rewrite get_children_S;
    rewrite (children_loop_lookup _ _ _ _ Hnd); cbn [bounded] in Hb;
    destruct (dict_get links (KInt start)) as [c|]; try (eexists; reflexivity).
  - subst c. eexists. reflexivity.
  - destruct (0 <? len c); [|eexists; reflexivity].
    destruct (map_r_total (fun i => get_children (S n) links i d) c)
      as [ys Hys].
    + eapply Forall_impl; [|exact Hb]. intros i Hi. now apply IH.
    + rewrite Hys. eexists. reflexivity.
Qed.

(** ** get_links and --depth *)

Lemma get_lp_depth_blind : depth_blind get_lp.
Proof.
  intros d [a s i dt c o l k].
  unfold get_lp, with_depth, with_args, set_depth, bind, get_args, put_args,
    ret, raise, print.
  cbn [w_args w_store w_stdin w_dates w_clock w_out w_log w_calls
       launchpad_file config_dir logdir loglvl silencer set_launchpad_file
       set_loglvl].
  destruct (negb (truthy_str (launchpad_file a))
            && path_exists (path_join (config_dir a) DEFAULT_LPAD_YAML));
    cbn [w_args w_store w_stdin w_dates w_clock w_out w_log w_calls
         launchpad_file config_dir logdir loglvl silencer set_launchpad_file
         set_loglvl fst snd];
    match goal with
    | |- context [if truthy_str ?x then _ else _] => destruct (truthy_str x)
    end;
    cbn [w_args w_store w_stdin w_dates w_clock w_out w_log w_calls
         launchpad_file config_dir logdir loglvl silencer set_launchpad_file
         set_loglvl fst snd];
    match goal with
    | |- context [LaunchPad_from_file ?f] => destruct (LaunchPad_from_file f)
    | |- context [LaunchPad_new ?x ?y] => destruct (LaunchPad_new x y)
    end;
    reflexivity.
Qed.

Lemma bind_depth_blind {A B : Type} (c : M E A) (k : A -> M E B) :
  depth_blind c -> (forall a, depth_blind (k a)) -> depth_blind (bind c k).
Proof.
  intros Hc Hk d w. unfold bind. rewrite Hc.
  destruct (c w) as [[a | e] w1]; cbn [fst snd]; [apply Hk | reflexivity].
Qed.

Lemma for_each_depth_blind {A : Type} (body : A -> M E unit) (l : list A) :
  (forall x, depth_blind (body x)) -> depth_blind (for_each l body).
Proof.
  intro Hbody. induction l as [|x l IH]; [intros d w; reflexivity|].
  cbn [for_each]. apply bind_depth_blind; [apply Hbody | intros _; exact IH].
Qed.

Lemma lift_depth_blind {A : Type} (r : result A) : depth_blind (lift r).
Proof. intros d w. reflexivity. Qed.

Lemma read_depth_blind {A : Type} (f : Store -> result A) :
  depth_blind (read f).
Proof. intros d w. reflexivity. Qed.

Lemma print_depth_blind (p : printed) : depth_blind (print p).
Proof. intros d w. reflexivity. Qed.

Lemma get_links_depth_blind : depth_blind get_links.
Proof.
  assert (Hrest : forall q : pyval,
             depth_blind
               (ids <- read (fun s =>
                         get_wf_ids s q (Given None) (Given 0) (Given false)) ;;
                l <- lift (ids_iter ids) ;;
                for_each l (fun i =>
                  d <- read (fun s => get_wf_summary_dict s i (Some "all")) ;;
                  dl <- lift (py_getitem (PDict d) (KStr "links")) ;;
                  items <- lift (py_items dl) ;;
                  links <- lift (links_of_items items []) ;;
                  c <- lift (get_children recursion_limit links i 3) ;;
                  print (Print_yaml c)))).
  { intro q. apply bind_depth_blind; [apply read_depth_blind|]. intro ids.
    apply bind_depth_blind; [apply lift_depth_blind|]. intro l.
    apply for_each_depth_blind. intro i.
    repeat (apply bind_depth_blind;
            [first [apply read_depth_blind | apply lift_depth_blind]|];
            intro).
    apply print_depth_blind. }
  unfold get_links. apply bind_depth_blind; [exact get_lp_depth_blind|].
  intros _ d w. exact (Hrest _ d w).
Qed.

Lemma bounded_unfold links (n : nat) (start : Z) :
  bounded links n start
  = match dict_get links (KInt start) with
    | None => True
    | Some c =>
        match n with
        | O => c = []
        | S n' => Forall (bounded links n') c
        end
    end.
Proof. destruct n; reflexivity. Qed.

Lemma bounded_mono links (n : nat) (start : Z) :
  bounded links n start -> bounded links (S n) start.
Proof.
  revert start. induction n as [|n IH]; intros start H;
    rewrite bounded_unfold in H; rewrite bounded_unfold;
    destruct (dict_get links (KInt start)) as [c|]; try exact I.
  - subst c. constructor.
  - eapply Forall_impl; [|exact H]. intros i Hi. now apply IH.
Qed.

Lemma bounded_le links (n m : nat) (start : Z) :
  (n <= m)%nat -> bounded links n start -> bounded links m start.
Proof.
  induction 1 as [|m _ IH]; intro H; [exact H|].
  apply bounded_mono. now apply IH.
Qed.

(** C8.  get_children does not read max_depth: two values of it give the
    same result.  What it returns on a links dictionary is the expansion of
    every link below the start node down to the nodes without children,
    and it returns whenever the interpreter allows more nested calls than
    the longest chain of links has.  get_links, which passes 3, runs the
    same whatever --depth is: same result, same printed output. *)
Theorem get_children_ignores_max_depth (fuel : nat)
  (links : list (pykey * list Z)) (start d1 d2 d : Z) (w : World E) :
  get_children fuel links start d1 = get_children fuel links start d2 /\
  (NoDup (map fst links) ->
   (forall t, get_children fuel links start d1 = Ok t ->
              expansion links start t) /\
   (forall n, bounded links n start -> (n < fuel)%nat ->
              exists t, get_children fuel links start d1 = Ok t)) /\
  get_links (with_depth d w) = (fst (get_links w), with_depth d (snd (get_links w))).
Proof.
  split; [apply get_children_max_depth|]. split.
  - intro Hnd. split.
    + intros t Ht. exact (get_children_expands fuel links start d1 t Hnd Ht).
    + intros n Hb Hlt. destruct fuel as [|fuel]; [lia|].
      apply get_children_returns; [exact Hnd|].
      apply (bounded_le links n fuel); [lia | exact Hb].
  - apply get_links_depth_blind.
Qed.

(** ** recover_offline *)






(** C6: the run on which the claim fails.  reset without a password, when
    the user answers with an empty line, raises IndexError, where the claim
    has ValueError('Operation aborted by user.'); lp.reset is not called
    and the database is as it was. *)
Theorem reset_empty_answer_raises_IndexError (w : World E) pw rest n :
  connected w ->
  password (w_args w) = Present pw ->
  truthy_str pw = false ->
  workflows_count (w_store w) = Ok n ->
  w_stdin w = "" :: rest ->
  fst (reset w) = Raise IndexError /\ untouched w (snd (reset w)).
Proof.
  intros Hc Hpw Hfalsy Hcount Hin.
  destruct (get_lp_connected w Hc) as (a & Hok & Hsame).
  apply same_options_fields in Hsame.
  destruct Hsame as (_ & _ & _ & _ & Hp & _).
  assert (Hrun : exists w', reset w = (Raise IndexError, w') /\ untouched w w').
  { unfold reset. rewrite (bind_ok _ _ _ _ _ Hok). unfold with_args. run.
    rewrite Hp, Hpw. run. rewrite Hfalsy. cbn [negb]. run.
    rewrite Hcount. run. rewrite Hin. run. cbn [first_char].
    eexists. split; [reflexivity | split; reflexivity]. }
  destruct Hrun as (w' & Hrun & Hu). now rewrite Hrun.
Qed.

End Proofs.

(** ** The reference LaunchPad sorts and caps *)

Section ReferenceProofs.

Variable k : string.
Variable dir : direction.







End ReferenceProofs.

Lemma ref_capped_all {A : Type} (l : list A) : ref_capped 0 l = l.
Proof. reflexivity. Qed.


(** ** What get_fws and get_wfs ask the LaunchPad for *)

Section Listing.

Context {E : External}.

Lemma same_options_listing (a b : Args) :
  same_options a b ->
  fw_id a = fw_id b /\ name a = name b /\ state a = state b /\
  query a = query b /\ qid a = qid b /\
  display_format a = display_format b /\ max a = max b /\
  sort a = sort b /\ rsort a = rsort b.
Proof.
  unfold same_options. intro H.
  repeat split;
    [ apply (f_equal fw_id) in H | apply (f_equal name) in H
    | apply (f_equal state) in H | apply (f_equal query) in H
    | apply (f_equal qid) in H | apply (f_equal display_format) in H
    | apply (f_equal max) in H | apply (f_equal sort) in H
    | apply (f_equal rsort) in H ]; exact H.
Qed.




End Listing.




(** * Further properties of the script *)

Section Further.

Context {E : External}.

(** ** The selecting commands and the confirmation *)

Lemma same_options_password (a b : Args) :
  same_options a b -> password a = password b.
Proof.
  intro H. apply same_options_fields in H.
  exact (proj1 (proj2 (proj2 (proj2 (proj2 H))))).
Qed.

Lemma selecting_run (c : command) (wf_mode skip_pw : bool) (w : World E) :
  selects c = Some (wf_mode, skip_pw) ->
  connected w ->
  exists (a : Args) (k : ids_result -> M E unit),
    same_options a (w_args w) /\
    func c w
    = match selection wf_mode (w_args w) (w_store w) with
      | Ok ids => (r <- pw_check ids skip_pw ;; k r) (with_args w a)
      | Raise e => (Raise e, with_args w a)
      end.
Proof.
  intros Hs Hc.
  destruct (get_lp_connected w Hc) as (a & Hok & Hsame).
  exists a.
  destruct c; cbn [selects] in Hs; inversion Hs; subst wf_mode skip_pw;
    cbn [func]; eexists (fun ids => _); (split; [exact Hsame|]);
    unfold rerun_fws, defuse, archive, reignite, defuse_fws, reignite_fws,
      refresh, set_priority, track_fws;
    rewrite (selecting_command_run _ _ _ _ _ Hok Hsame); reflexivity.
Qed.

Lemma pw_check_empty_answer (ids : list Z) (w : World E) pw rest :
  PW_CHECK_NUM < len ids ->
  password (w_args w) = Present pw ->
  truthy_str pw = false ->
  w_stdin w = "" :: rest ->
  exists w',
    pw_check (IdList ids) false w = (Raise IndexError, w') /\ untouched w w'.
Proof.
  intros Hn Hpw Hfalsy Hin.
  unfold pw_check. run.
  replace (PW_CHECK_NUM <? len ids) with true
    by (symmetry; apply Z.ltb_lt; exact Hn).
  cbn [andb negb]. run. rewrite Hpw. run. rewrite Hfalsy. cbn [negb]. run.
  rewrite Hin. run. cbn [first_char].
  eexists. split; [reflexivity|]. split; reflexivity.
Qed.

Lemma pw_check_date_changed (ids : list Z) (w : World E) pw answer rest :
  PW_CHECK_NUM < len ids ->
  password (w_args w) = Present pw ->
  truthy_str pw = false ->
  w_stdin w = answer :: rest ->
  says_yes answer ->
  w_dates w (S (w_clock w)) <> w_dates w (w_clock w) ->
  exists w',
    pw_check (IdList ids) false w = (Raise (ValueError password_required), w')
    /\ untouched w w'.
Proof.
  intros Hn Hpw Hfalsy Hin Hyes Hdate.
  destruct (says_yes_first_char _ Hyes) as (c & Hc & Hup).
  unfold pw_check. run.
  replace (PW_CHECK_NUM <? len ids) with true
    by (symmetry; apply Z.ltb_lt; exact Hn).
  cbn [andb negb]. run. rewrite Hpw. run. rewrite Hfalsy. cbn [negb]. run.
  rewrite Hin. run. rewrite Hc, Hup. run.
  replace (optstr_eqb (Some (w_dates w (S (w_clock w))))
             (w_dates w (w_clock w))) with false
    by (symmetry; simpl; apply String.eqb_neq; exact Hdate).
  cbn [negb]. eexists. split; [reflexivity|]. split; reflexivity.
Qed.

Lemma pw_check_wrong_password_message (ids : list Z) (w : World E) pw :
  PW_CHECK_NUM < len ids ->
  password (w_args w) = Present (Some pw) ->
  pw <> "" ->
  pw <> w_dates w (w_clock w) ->
  exists w',
    pw_check (IdList ids) false w = (Raise (ValueError password_required), w')
    /\ untouched w w' /\ unprompted w w'.
Proof.
  intros Hn Hpw Hne Hdiff.
  unfold pw_check. run.
  replace (PW_CHECK_NUM <? len ids) with true
    by (symmetry; apply Z.ltb_lt; exact Hn).
  cbn [andb negb]. run. rewrite Hpw. run.
  replace (truthy_str (Some pw)) with true
    by (symmetry; simpl; apply negb_true_iff, String.eqb_neq; exact Hne).
  cbn [negb]. run. rewrite Hpw. run.
  replace (optstr_eqb (Some pw) (w_dates w (w_clock w))) with false
    by (symmetry; simpl; apply String.eqb_neq; exact Hdiff).
  cbn [negb]. eexists. split; [reflexivity|].
  split; [split; reflexivity|]. split; [reflexivity|]. intros p Hp; exact Hp.
Qed.

(** X1.  The confirmation of pw_check fails on an empty answer.  A
    sub-command that selects through parse_helper with the check on
    (defuse, archive, reignite, refresh, defuse_fws, reignite_fws,
    rerun_fws, set_priority), run on more than PW_CHECK_NUM entities with
    no password, raises IndexError when the user answers the question with
    an empty line, not the ValueError of an aborted operation; no mutating
    call is issued and the database is as it was. *)
Theorem confirmation_empty_answer_raises_IndexError (c : command)
  (wf_mode : bool) (w : World E) (ids : list Z) pw rest :
  selects c = Some (wf_mode, false) ->
  connected w ->
  selection wf_mode (w_args w) (w_store w) = Ok (IdList ids) ->
  PW_CHECK_NUM < len ids ->
  password (w_args w) = Present pw ->
  truthy_str pw = false ->
  w_stdin w = "" :: rest ->
  fst (func c w) = Raise IndexError /\ untouched w (snd (func c w)).
Proof.
  intros Hs Hc Hsel Hn Hpw Hfalsy Hin.
  destruct (selecting_run c wf_mode false w Hs Hc) as (a & k & Hsame & Hrun).
  rewrite Hsel in Hrun.
  assert (Hpw' : password (w_args (with_args w a)) = Present pw)
    by (cbn; now rewrite (same_options_password _ _ Hsame)).
  destruct (pw_check_empty_answer ids (with_args w a) pw rest Hn Hpw' Hfalsy
              Hin) as (w' & Hr & Hu).
  rewrite Hrun, (bind_raise _ _ _ _ _ Hr). split; [reflexivity | exact Hu].
Qed.

(** X2.  pw_check reads the date twice, before the question and after the
    answer, and compares the two.  When the date changes in between, a
    confirmation with Y or y is refused: the sub-command raises the
    ValueError that asks for the --password parameter, issues no mutating
    call and leaves the database as it was. *)
Theorem confirmation_refused_when_date_changes (c : command)
  (wf_mode : bool) (w : World E) (ids : list Z) pw answer rest :
  selects c = Some (wf_mode, false) ->
  connected w ->
  selection wf_mode (w_args w) (w_store w) = Ok (IdList ids) ->
  PW_CHECK_NUM < len ids ->
  password (w_args w) = Present pw ->
  truthy_str pw = false ->
  w_stdin w = answer :: rest ->
  says_yes answer ->
  w_dates w (S (w_clock w)) <> w_dates w (w_clock w) ->
  fst (func c w) = Raise (ValueError password_required) /\
  untouched w (snd (func c w)).
Proof.
  intros Hs Hc Hsel Hn Hpw Hfalsy Hin Hyes Hdate.
  destruct (selecting_run c wf_mode false w Hs Hc) as (a & k & Hsame & Hrun).
  rewrite Hsel in Hrun.
  assert (Hpw' : password (w_args (with_args w a)) = Present pw)
    by (cbn; now rewrite (same_options_password _ _ Hsame)).
  destruct (pw_check_date_changed ids (with_args w a) pw answer rest Hn Hpw'
              Hfalsy Hin Hyes Hdate) as (w' & Hr & Hu).
  rewrite Hrun, (bind_raise _ _ _ _ _ Hr). split; [reflexivity | exact Hu].
Qed.

(** X3.  refresh and set_priority are gated as defuse, archive, reignite,
    defuse_fws, reignite_fws and rerun_fws are: each of these eight
    sub-commands selects through parse_helper with the check on.  On more
    than PW_CHECK_NUM entities, with no password, an answer that is not
    empty and does not start with Y or y raises ValueError('Operation
    aborted by user.'); a password that is not the date raises the
    ValueError that asks for the --password parameter, without a question;
    in both cases no mutating call is issued and the database is as it
    was. *)
Theorem checked_commands_gated (c : command) (wf_mode : bool)
  (w : World E) (ids : list Z) :
  selects c = Some (wf_mode, false) ->
  connected w ->
  selection wf_mode (w_args w) (w_store w) = Ok (IdList ids) ->
  PW_CHECK_NUM < len ids ->
  (forall pw answer rest,
     password (w_args w) = Present pw -> truthy_str pw = false ->
     w_stdin w = answer :: rest -> says_no answer ->
     fst (func c w) = Raise (ValueError "Operation aborted by user.") /\
     untouched w (snd (func c w))) /\
  (forall pw,
     password (w_args w) = Present (Some pw) -> pw <> "" ->
     pw <> w_dates w (w_clock w) ->
     fst (func c w) = Raise (ValueError password_required) /\
     untouched w (snd (func c w)) /\ unprompted w (snd (func c w))).
Proof.
  intros Hs Hc Hsel Hn.
  destruct (selecting_run c wf_mode false w Hs Hc) as (a & k & Hsame & Hrun).
  rewrite Hsel in Hrun. rewrite Hrun. split.
  - intros pw answer rest Hpw Hfalsy Hin Hno.
    assert (Hpw' : password (w_args (with_args w a)) = Present pw)
      by (cbn; now rewrite (same_options_password _ _ Hsame)).
    destruct (pw_check_aborts ids (with_args w a) pw answer rest Hn Hpw'
                Hfalsy Hin Hno) as (w' & Hr & Hu & _).
    rewrite (bind_raise _ _ _ _ _ Hr). split; [reflexivity | exact Hu].
  - intros pw Hpw Hne Hdiff.
    assert (Hpw' : password (w_args (with_args w a)) = Present (Some pw))
      by (cbn; now rewrite (same_options_password _ _ Hsame)).
    destruct (pw_check_wrong_password_message ids (with_args w a) pw Hn Hpw'
                Hne Hdiff) as (w' & Hr & Hu & Hq).
    rewrite (bind_raise _ _ _ _ _ Hr).
    split; [reflexivity | split; [exact Hu | exact Hq]].
Qed.

(** ** A call that raises in the middle of a batch *)

Lemma for_each_app {A : Type} (body : A -> M E unit) (l1 l2 : list A)
  (w : World E) :
  for_each (l1 ++ l2)%list body w = (for_each l1 body ;; for_each l2 body) w.
Proof.
  revert w. induction l1 as [|x l1 IH]; intro w; [reflexivity|].
  cbn [for_each List.app]. unfold bind.
  destruct (body x w) as [[[] | e] w1]; [|reflexivity].
  rewrite IH. reflexivity.
Qed.

Lemma for_each_calls_after (op : Z -> lp_call) (note : Z -> string)
  (l : list Z) (w : World E) (s1 : Store) :
  after (map op l) (w_store w) = Some s1 ->
  for_each l (fun f => call (op f) ;; log DEBUG (note f)) w
  = (Ok tt,
     mkWorld (w_args w) s1 (w_stdin w) (w_dates w) (w_clock w) (w_out w)
       (w_log w ++ map (fun f => (DEBUG, note f)) l)
       (w_calls w ++ map op l)).
Proof.
  revert w. induction l as [|f l IH]; intros w H.
  - cbn [map after] in H. injection H as <-.
    cbn [for_each map]. unfold ret. rewrite !app_nil_r. now destruct w.
  - cbn [map after] in H.
    destruct (lp_exec (op f) (w_store w)) as [[r | e] s'] eqn:Hexec;
      [|discriminate H].
    cbn [for_each map].
    unfold bind at 1. unfold bind at 1. unfold call at 1. rewrite Hexec.
    unfold log at 1.
    cbn [w_args w_store w_stdin w_dates w_clock w_out w_log w_calls].
    rewrite IH by exact H.
    cbn [w_args w_store w_stdin w_dates w_clock w_out w_log w_calls].
    rewrite <- !app_assoc. reflexivity.
Qed.

Lemma pw_check_log (ids : ids_result) (skip_pw : bool) (w : World E) :
  w_log (snd (pw_check ids skip_pw w)) = w_log w.
Proof.
  unfold pw_check. run.
  destruct (ids_len ids) as [n | e]; [|reflexivity].
  destruct ((PW_CHECK_NUM <? n) && negb skip_pw); [|reflexivity].
  run. destruct (password (w_args w)) as [|pw] eqn:Hpw; [reflexivity|].
  run. destruct (truthy_str pw); cbn [negb]; run; rewrite ?Hpw; run.
  - destruct (optstr_eqb pw (w_dates w (w_clock w))); reflexivity.
  - destruct (w_stdin w) as [|answer rest]; [reflexivity|]. run.
    destruct (first_char answer) as [c | e]; [|reflexivity]. run.
    destruct (Ascii.eqb (ascii_upper c) "Y"); [|reflexivity]. run.
    match goal with
    | |- context [optstr_eqb ?x ?y] => destruct (optstr_eqb x y)
    end; reflexivity.
Qed.

(** A selection that passes the check reaches the loop with the database,
    the calls and the log as they were. *)
Lemma passes_check_run (w : World E) (ids : list Z) (a : Args) :
  passes_check w ids ->
  same_options a (w_args w) ->
  exists w1,
    pw_check (IdList ids) false (with_args w a) = (Ok (IdList ids), w1) /\
    w_calls w1 = w_calls w /\ w_store w1 = w_store w /\ w_log w1 = w_log w.
Proof.
  intros Hpass Hsame.
  pose proof (same_options_password _ _ Hsame) as Hp.
  pose proof (pw_check_log (IdList ids) false (with_args w a)) as Hlog.
  destruct (Z.le_gt_cases (len ids) PW_CHECK_NUM) as [Hn | Hn].
  - exists (with_args w a).
    split; [exact (pw_check_passes ids false _ (or_introl Hn))|].
    repeat split; reflexivity.
  - destruct Hpass as [Hle | [(Hpw & Hne) | (pw & answer & rest & Hpw & Hfalsy
                                             & Hin & Hyes & Hdate)]];
      [lia| |].
    + assert (Hpw' : password (w_args (with_args w a))
                     = Present (Some (w_dates (with_args w a)
                                        (w_clock (with_args w a)))))
        by (cbn; now rewrite Hp).
      destruct (pw_check_right_password ids (with_args w a) Hn Hpw' Hne)
        as (w1 & Hrun & (Hcalls & Hstore) & _).
      exists w1. rewrite Hrun in Hlog. split; [exact Hrun|].
      split; [exact Hcalls|]. split; [exact Hstore | exact Hlog].
    + assert (Hpw' : password (w_args (with_args w a)) = Present pw)
        by (cbn; now rewrite Hp).
      destruct (pw_check_confirmed ids (with_args w a) pw answer rest Hn Hpw'
                  Hfalsy Hin Hyes Hdate) as (w1 & Hrun & (Hcalls & Hstore) & _).
      exists w1. rewrite Hrun in Hlog. split; [exact Hrun|].
      split; [exact Hcalls|]. split; [exact Hstore | exact Hlog].
Qed.

(** X4.  The sub-commands that act on each selected entity (defuse,
    archive, reignite, defuse_fws, reignite_fws, rerun_fws) do not undo
    what they have done when a LaunchPad call raises, in whichever way the
    selection has passed the check of pw_check: the entities before the
    one whose call raises have been acted on and stay so, the call that
    raises is the last one issued, the entities after it are not touched,
    the exception is the one of the call, and the closing line of the log
    is not written. *)
Theorem batch_stops_at_first_failure (c : command) (wf_mode : bool)
  (op : Z -> lp_call) (w : World E) (done todo : list Z) (x : Z)
  (s1 s2 : Store) (e : exc) :
  acts_with c = Some (wf_mode, op) ->
  connected w ->
  selection wf_mode (w_args w) (w_store w) = Ok (IdList (done ++ x :: todo)) ->
  passes_check w (done ++ x :: todo) ->
  after (map op done) (w_store w) = Some s1 ->
  lp_exec (op x) s1 = (Raise e, s2) ->
  fst (func c w) = Raise e /\
  w_calls (snd (func c w)) = (w_calls w ++ map op done ++ [op x])%list /\
  w_store (snd (func c w)) = s2 /\
  (forall msg, In (INFO, msg) (w_log (snd (func c w))) ->
               In (INFO, msg) (w_log w)).
Proof.
  intros Hacts Hc Hsel Hpass Hdone Hx.
  destruct (acts_with_acting c wf_mode op Hacts) as (note & closing & Hshape).
  destruct (get_lp_connected w Hc) as (a & Hok & Hsame).
  destruct (passes_check_run w (done ++ x :: todo) a Hpass Hsame)
    as (w1 & Hcheck & Hcalls & Hstore & Hlog).
  assert (Hrun : func c w
                 = (Raise e,
                    mkWorld (w_args w1) s2 (w_stdin w1) (w_dates w1)
                      (w_clock w1) (w_out w1)
                      (w_log w ++ map (fun f => (DEBUG, note f)) done)
                      ((w_calls w ++ map op done) ++ [op x]))).
  { rewrite Hshape. unfold acting.
    rewrite (selecting_command_run _ _ _ _ _ Hok Hsame), Hsel.
    unfold bind at 1. rewrite Hcheck.
    unfold bind at 1. unfold lift at 1. cbn [ids_iter].
    unfold bind at 1. rewrite for_each_app.
    unfold bind at 1.
    rewrite (for_each_calls_after op note done w1 s1)
      by (rewrite Hstore; exact Hdone).
    cbn [for_each]. unfold bind at 1. unfold bind at 1. unfold call at 1.
    cbn [w_args w_store w_stdin w_dates w_clock w_out w_log w_calls].
    rewrite Hx, Hcalls, Hlog. reflexivity. }
  rewrite Hrun. cbn [fst snd w_calls w_store w_log].
  split; [reflexivity|]. split; [now rewrite <- app_assoc|].
  split; [reflexivity|].
  intros msg Hin. apply in_app_or in Hin. destruct Hin as [Hin | Hin];
    [exact Hin|].
  apply in_map_iff in Hin. destruct Hin as (f & Hf & _). discriminate Hf.
Qed.

Lemma fold_m_app {A B : Type} (body : B -> A -> M E B) (l1 l2 : list A)
  (acc : B) (w : World E) :
  fold_m body (l1 ++ l2)%list acc w
  = (acc' <- fold_m body l1 acc ;; fold_m body l2 acc') w.
Proof.
  revert acc w. induction l1 as [|x l1 IH]; intros acc w; [reflexivity|].
  cbn [fold_m List.app]. unfold bind.
  destruct (body acc x w) as [[acc' | e] w1]; [|reflexivity].
  rewrite IH. reflexivity.
Qed.

Lemma recover_loop_after (runs launch_ids : list pyval) (failed : list Z)
  (w : World E) (s1 : Store) :
  Forall2 (fun l launch_id => py_getitem l (KStr "launch_id") = Ok launch_id)
    runs launch_ids ->
  after (map (fun launch_id =>
                lp_recover_offline launch_id (ignore_errors (w_args w)))
           launch_ids) (w_store w) = Some s1 ->
  exists failed',
    fold_m (fun failed l =>
      launch_id <- lift (py_getitem l (KStr "launch_id")) ;;
      args <- get_args ;;
      fw <- call (lp_recover_offline launch_id (ignore_errors args)) ;;
      ret (if truthy_id fw
           then (failed ++ [match fw with Some n => n | None => 0 end])%list
           else failed)) runs failed w
    = (Ok failed',
       mkWorld (w_args w) s1 (w_stdin w) (w_dates w) (w_clock w) (w_out w)
         (w_log w)
         (w_calls w
          ++ map (fun launch_id =>
                    lp_recover_offline launch_id (ignore_errors (w_args w)))
               launch_ids)).
Proof.
  intro Hruns. revert failed w.
  induction Hruns as [|l launch_id runs launch_ids Hl _ IH];
    intros failed w Hafter.
  - cbn [map after] in Hafter. injection Hafter as <-.
    exists failed. cbn [fold_m map]. unfold ret. rewrite app_nil_r.
    now destruct w.
  - cbn [map after] in Hafter.
    destruct (lp_exec (lp_recover_offline launch_id (ignore_errors (w_args w)))
                (w_store w)) as [[r | e] s'] eqn:Hexec; [|discriminate Hafter].
    cbn [fold_m map].
    unfold bind at 1. unfold bind at 1. unfold lift at 1. rewrite Hl.
    unfold bind at 1. unfold get_args at 1.
    unfold bind at 1. unfold call at 1. rewrite Hexec. unfold ret at 1.
    cbn [w_args w_store w_stdin w_dates w_clock w_out w_log w_calls].
    match goal with
    | |- context [fold_m _ runs ?f ?w1] =>
        destruct (IH f w1 Hafter) as (failed' & Hrest)
    end.
    rewrite Hrest.
    cbn [w_args w_store w_stdin w_dates w_clock w_out w_log w_calls].
    exists failed'. now rewrite <- app_assoc.
Qed.

(** X5.  recover_offline stops at the first launch whose recovery raises,
    as lp.recover_offline does on a bad record without ignore_errors: the
    launches before it have been recovered, the call that raises is the
    last one issued, the launches after it are not gone through, the
    exception is the one of the call, and nothing is logged, neither the
    FINISHED line nor a failure list. *)
Theorem recover_offline_stops_at_first_error (w : World E)
  (before_it later : list pyval) (l : pyval) (launch_ids : list pyval)
  (launch_id : pyval) (s1 s2 : Store) (e : exc) :
  connected w ->
  offline_runs_find (w_store w)
    (PDict [(KStr "completed", PBool false); (KStr "deprecated", PBool false)])
    (PDict [(KStr "launch_id", PInt 1)]) = Ok (before_it ++ l :: later)%list ->
  Forall2 (fun l launch_id => py_getitem l (KStr "launch_id") = Ok launch_id)
    before_it launch_ids ->
  py_getitem l (KStr "launch_id") = Ok launch_id ->
  after (map (fun i => lp_recover_offline i (ignore_errors (w_args w)))
           launch_ids) (w_store w) = Some s1 ->
  lp_exec (lp_recover_offline launch_id (ignore_errors (w_args w))) s1
  = (Raise e, s2) ->
  fst (recover_offline w) = Raise e /\
  w_calls (snd (recover_offline w))
  = (w_calls w
     ++ map (fun i => lp_recover_offline i (ignore_errors (w_args w)))
          (launch_ids ++ [launch_id]))%list /\
  w_store (snd (recover_offline w)) = s2 /\
  w_log (snd (recover_offline w)) = w_log w.
Proof.
  intros Hc Hfind Hbefore Hl Hafter Hx.
  destruct (get_lp_connected w Hc) as (a & Hok & Hsame).
  assert (Hign : ignore_errors a = ignore_errors (w_args w)).
  { apply same_options_fields in Hsame.
    exact (proj1 (proj2 (proj2 (proj2 (proj2 (proj2 Hsame)))))). }
  assert (Hrun : recover_offline w
                 = (Raise e,
                    mkWorld a s2 (w_stdin w) (w_dates w) (w_clock w) (w_out w)
                      (w_log w)
                      ((w_calls w
                        ++ map (fun i => lp_recover_offline i
                                           (ignore_errors (w_args w)))
                             launch_ids)
                       ++ [lp_recover_offline launch_id
                             (ignore_errors (w_args w))]))).
  { unfold recover_offline. rewrite (bind_ok _ _ _ _ _ Hok).
    unfold bind at 1. unfold read at 1.
    change (w_store (with_args w a)) with (w_store w). rewrite Hfind.
    unfold bind at 1. rewrite fold_m_app. unfold bind at 1.
    destruct (recover_loop_after before_it launch_ids [] (with_args w a) s1
                Hbefore) as (failed' & Hloop).
    { cbn [with_args w_args w_store]. rewrite Hign. exact Hafter. }
    rewrite Hloop. cbn [fold_m].
    unfold bind at 1. unfold bind at 1. unfold lift at 1. rewrite Hl.
    unfold bind at 1. unfold get_args at 1.
    unfold bind at 1. unfold call at 1.
    cbn [w_args w_store w_stdin w_dates w_clock w_out w_log w_calls with_args].
    rewrite Hign, Hx. reflexivity. }
  rewrite Hrun. cbn [fst snd w_calls w_store w_log].
  split; [reflexivity|]. split; [|split; reflexivity].
  now rewrite map_app, app_assoc.
Qed.

(** X6.  reset, confirmed with an answer that starts with Y or y, stores
    the date in args.password and calls lp.reset with it: the call is the
    one mutating call issued, the question shows the number of workflows,
    and the one answer is read. *)
Theorem reset_confirmed_passes_the_date (w : World E) pw answer rest n :
  connected w ->
  password (w_args w) = Present pw ->
  truthy_str pw = false ->
  workflows_count (w_store w) = Ok n ->
  w_stdin w = answer :: rest ->
  says_yes answer ->
  w_calls (snd (reset w))
  = (w_calls w ++ [lp_reset (Some (w_dates w (w_clock w)))])%list /\
  w_out (snd (reset w))
  = (w_out w ++ [Prompt ("Are you sure? This will RESET " ++ str_of_Z n
                         ++ " workflows and all data. (Y/N)")])%list /\
  w_stdin (snd (reset w)) = rest /\
  password (w_args (snd (reset w))) = Present (Some (w_dates w (w_clock w))).
Proof.
  intros Hc Hpw Hfalsy Hcount Hin Hyes.
  destruct (get_lp_connected w Hc) as (a & Hok & Hsame).
  destruct (says_yes_first_char _ Hyes) as (ch & Hfc & Hup).
  apply same_options_fields in Hsame.
  destruct Hsame as (_ & _ & _ & _ & Hp & _).
  assert (Hrun : exists r s',
             reset w
             = (r, mkWorld (set_password a
                              (Present (Some (w_dates w (w_clock w)))))
                     s' rest (w_dates w) (S (w_clock w))
                     (w_out w ++
                      [Prompt ("Are you sure? This will RESET " ++ str_of_Z n
                               ++ " workflows and all data. (Y/N)")])
                     (w_log w)
                     (w_calls w
                      ++ [lp_reset (Some (w_dates w (w_clock w)))]))).
  { unfold reset. rewrite (bind_ok _ _ _ _ _ Hok). unfold with_args. run.
    rewrite Hp, Hpw. run. rewrite Hfalsy. cbn [negb]. run.
    rewrite Hcount. run. rewrite Hin. run. rewrite Hfc, Hup. run.
    unfold call.
    cbn [w_args w_store w_stdin w_dates w_clock w_out w_log w_calls].
    destruct (lp_exec (lp_reset (Some (w_dates w (w_clock w)))) (w_store w))
      as [[r | e] s']; eexists; eexists; reflexivity. }
  destruct Hrun as (r & s' & Hrun). rewrite Hrun.
  repeat split; reflexivity.
Qed.

(** ** get_lp *)

Lemma get_lp_unconnected (w : World E) :
  ~ connected w ->
  exists a,
    get_lp w
    = (Raise (ValueError (connect_error (launchpad_file a))),
       mkWorld a (w_store w) (w_stdin w) (w_dates w) (w_clock w)
         (w_out w ++ [Print_traceback]) (w_log w) (w_calls w)).
Proof.
  unfold connected. destruct w as [a s i d c o l k].
  unfold get_lp, bind, get_args, put_args, ret, raise, print.
  cbn [w_args w_store w_stdin w_dates w_clock w_out w_log w_calls].
  destruct (negb (truthy_str (launchpad_file a))
            && path_exists (path_join (config_dir a) DEFAULT_LPAD_YAML));
    cbn [w_args w_store w_stdin w_dates w_clock w_out w_log w_calls];
    match goal with
    | |- context [if truthy_str ?x then _ else _] => destruct (truthy_str x)
    end;
    cbn [w_args w_store w_stdin w_dates w_clock w_out w_log w_calls];
    match goal with
    | |- context [LaunchPad_from_file ?f] => destruct (LaunchPad_from_file f)
    | |- context [LaunchPad_new ?x ?y] => destruct (LaunchPad_new x y)
    end;
    cbn [w_args w_store w_stdin w_dates w_clock w_out w_log w_calls fst];
    intro H; try (exfalso; apply H; reflexivity);
    eexists; reflexivity.
Qed.

(** X7.  When get_lp cannot connect, no sub-command does anything else:
    each of them raises the ValueError of get_lp, whose message names the
    LaunchPad file that was tried, after the traceback has been printed;
    no mutating call is issued, the database is as it was, no answer is
    read and nothing is logged. *)
Theorem no_command_runs_unconnected (c : command) (w : World E) :
  ~ connected w ->
  fst (func c w)
  = Raise (ValueError
             (connect_error (launchpad_file (w_args (snd (func c w)))))) /\
  untouched w (snd (func c w)) /\
  w_stdin (snd (func c w)) = w_stdin w /\
  w_out (snd (func c w)) = (w_out w ++ [Print_traceback])%list /\
  w_log (snd (func c w)) = w_log w.
Proof.
  intro H. destruct (get_lp_unconnected w H) as (a & Hf).
  assert (Hk : forall k : M E unit,
             (get_lp ;; k) w
             = (Raise (ValueError (connect_error (launchpad_file a))),
                mkWorld a (w_store w) (w_stdin w) (w_dates w) (w_clock w)
                  (w_out w ++ [Print_traceback]) (w_log w) (w_calls w)))
    by (intro k; exact (bind_raise _ _ _ _ _ Hf)).
  assert (Hp : forall k : M E pyval,
             (get_lp ;; k) w
             = (Raise (ValueError (connect_error (launchpad_file a))),
                mkWorld a (w_store w) (w_stdin w) (w_dates w) (w_clock w)
                  (w_out w ++ [Print_traceback]) (w_log w) (w_calls w)))
    by (intro k; exact (bind_raise _ _ _ _ _ Hf)).
  destruct c; cbn [func];
    first [ unfold get_fws, get_fws_results;
            rewrite (bind_raise _ _ _ _ _ (Hp _))
          | unfold get_wfs, get_wfs_results;
            rewrite (bind_raise _ _ _ _ _ (Hp _))
          | unfold reset, get_links, rerun_fws, defuse, archive, reignite,
              defuse_fws, reignite_fws, refresh, set_priority, recover_offline,
              track_fws, purge_wfs; rewrite Hk ];
    cbn [fst snd w_args w_out w_stdin w_log];
    (split; [reflexivity|]); (split; [split; reflexivity|]);
    repeat split; reflexivity.
Qed.

Lemma path_join_truthy (a : string) :
  truthy_str (Some (path_join a DEFAULT_LPAD_YAML)) = true.
Proof.
  unfold path_join. destruct a as [|c a]; [reflexivity|].
  destruct (rev (list_ascii_of_string (String c a))) as [|c' l];
    [reflexivity|].
  destruct (Ascii.eqb c' "/"); reflexivity.
Qed.

(** X8.  When get_lp has a LaunchPad file to connect through, the one
    given with -l or the default one found in the configuration directory,
    the option -s has no effect: get_lp returns or raises the same with it
    as without it, and args.loglvl is left as it is. *)
Theorem silencer_unused_with_a_file (w : World E) (b : bool) :
  uses_file (w_args w) = true ->
  get_lp (with_args w (set_silencer (w_args w) b))
  = (fst (get_lp w),
     with_args (snd (get_lp w)) (set_silencer (w_args (snd (get_lp w))) b)) /\
  loglvl (w_args (snd (get_lp w))) = loglvl (w_args w).
Proof.
  destruct w as [a s i dt c o l k]. unfold uses_file.
  cbn [w_args]. intro H.
  unfold get_lp, with_args, set_silencer, bind, get_args, put_args, ret,
    raise, print.
  cbn [w_args w_store w_stdin w_dates w_clock w_out w_log w_calls
       launchpad_file config_dir logdir loglvl silencer set_launchpad_file
       set_loglvl].
  destruct (truthy_str (launchpad_file a)) eqn:Hfile.
  - cbn [negb andb].
    cbn [w_args w_store w_stdin w_dates w_clock w_out w_log w_calls
         launchpad_file config_dir logdir loglvl silencer set_launchpad_file
         set_loglvl fst snd].
    rewrite Hfile.
    destruct (LaunchPad_from_file (the_str (launchpad_file a)));
      split; reflexivity.
  - cbn [orb] in H. rewrite H. cbn [negb andb].
    cbn [w_args w_store w_stdin w_dates w_clock w_out w_log w_calls
         launchpad_file config_dir logdir loglvl silencer set_launchpad_file
         set_loglvl fst snd].
    rewrite path_join_truthy.
    destruct (LaunchPad_from_file
                (the_str (Some (path_join (config_dir a) DEFAULT_LPAD_YAML))));
      split; reflexivity.
Qed.

(** ** Selectors that are refused *)

(** X9.  defuse, archive, reignite, refresh, defuse_fws, reignite_fws,
    rerun_fws, set_priority and track_fws, run without fw_id.  A --query
    that ast.literal_eval does not accept makes each of these nine
    sub-commands raise what literal_eval raises; a --query that evaluates
    to something that is no dictionary, given together with --name or
    --state, makes it raise TypeError.  In both cases the LaunchPad is not
    asked for ids, no mutating call is issued, the database is as it was
    and no question is put. *)
Theorem malformed_query_aborts (c : command) (wf_mode skip_pw : bool)
  (w : World E) (q : string) :
  selects c = Some (wf_mode, skip_pw) ->
  connected w ->
  truthy_list (fw_id (w_args w)) = false ->
  query (w_args w) = Some q ->
  q <> "" ->
  (forall e, literal_eval q = Raise e ->
     fst (func c w) = Raise e /\ untouched w (snd (func c w)) /\
     unprompted w (snd (func c w))) /\
  (forall v, literal_eval q = Ok v -> (forall kvs, v <> PDict kvs) ->
     truthy_str (name (w_args w)) = true \/
     truthy_str (state (w_args w)) = true ->
     fst (func c w) = Raise TypeError /\ untouched w (snd (func c w)) /\
     unprompted w (snd (func c w))).
Proof.
  intros Hs Hc Hid Hq Hne.
  assert (Ht : truthy_str (query (w_args w)) = true)
    by (rewrite Hq; simpl; apply negb_true_iff, String.eqb_neq; exact Hne).
  assert (Hend : forall e,
             selection wf_mode (w_args w) (w_store w) = Raise e ->
             fst (func c w) = Raise e /\ untouched w (snd (func c w)) /\
             unprompted w (snd (func c w))).
  { intros e Hsel.
    destruct (selecting_run c wf_mode skip_pw w Hs Hc)
      as (a & k & _ & Hrun).
    rewrite Hsel in Hrun. rewrite Hrun.
    split; [reflexivity|]. split; [split; reflexivity|].
    split; [reflexivity | intros p Hp; exact Hp]. }
  split.
  - intros e He. apply Hend. unfold selection.
    rewrite Hid, Ht, Hq. cbn [andb literal_eval_opt]. now rewrite He.
  - intros v Hv Hnd Hfilter. apply Hend. unfold selection.
    rewrite Hid, Ht, Hq. cbn [andb literal_eval_opt]. rewrite Hv.
    assert (Hset : forall k x, py_setitem v k x = Raise TypeError).
    { intros k x. destruct v; try reflexivity.
      exfalso. exact (Hnd kvs eq_refl). }
    destruct (truthy_str (name (w_args w))).
    + now rewrite Hset.
    + destruct Hfilter as [Hf | Hf]; [discriminate Hf|].
      rewrite Hf. now rewrite Hset.
Qed.

(** X10.  purge_wfs does not purge without a selector: with none of
    fw_id, name and state given it raises ValueError, the one that asks
    for exactly one of them once the LaunchPad is connected, and neither
    issues a mutating call nor changes the database. *)
Theorem purge_wfs_requires_selector (w : World E) :
  truthy_list (fw_id (w_args w)) = false ->
  truthy_str (name (w_args w)) = false ->
  truthy_str (state (w_args w)) = false ->
  (exists msg, fst (purge_wfs w) = Raise (ValueError msg)) /\
  untouched w (snd (purge_wfs w)) /\
  (connected w ->
   fst (purge_wfs w)
   = Raise (ValueError "Please specify exactly one of (fw_id, name, state)")).
Proof.
  intros Hid Hname Hstate.
  destruct (get_lp_cases w) as [(a & Hok & Hsame) | (a & msg & Hf)].
  - apply same_options_fields in Hsame.
    destruct Hsame as (H1 & H2 & H3 & _).
    assert (Hrun : purge_wfs w
                   = (Raise (ValueError
                        "Please specify exactly one of (fw_id, name, state)"),
                      with_args w a)).
    { unfold purge_wfs. rewrite (bind_ok _ _ _ _ _ Hok).
      unfold with_args. run. rewrite H1, H2, H3, Hid, Hname, Hstate.
      cbn [sum_bools]. arith. run. reflexivity. }
    rewrite Hrun. split; [eexists; reflexivity|].
    split; [split; reflexivity | reflexivity].
  - unfold purge_wfs. rewrite (bind_raise _ _ _ _ _ Hf).
    split; [eexists; reflexivity|]. split; [split; reflexivity|].
    unfold connected. rewrite Hf. discriminate.
Qed.

(** X11.  get_fws refuses --qid together with -i or -n: with at most one
    of fw_id, name, state and query given, it raises the ValueError that
    asks for exactly one of fw_id, name and qid, prints nothing, issues no
    mutating call and leaves the database as it was. *)
Theorem get_fws_rejects_qid_with_id_or_name (w : World E) :
  connected w ->
  sum_bools [truthy_list (fw_id (w_args w)); truthy_str (name (w_args w));
             truthy_str (state (w_args w)); truthy_str (query (w_args w))]
  <= 1 ->
  truthy_str (qid (w_args w)) = true ->
  truthy_list (fw_id (w_args w)) = true \/ truthy_str (name (w_args w)) = true ->
  fst (get_fws w)
  = Raise (ValueError "Please specify exactly one of (fw_id, name, qid)") /\
  untouched w (snd (get_fws w)) /\
  w_out (snd (get_fws w)) = w_out w.
Proof.
  intros Hc Hsum Hqid Hsel.
  destruct (get_lp_connected w Hc) as (a & Hok & Hsame).
  apply same_options_listing in Hsame.
  destruct Hsame as (H1 & H2 & H3 & H4 & H5 & _).
  assert (Hrun : exists a',
             get_fws_results w
             = (Raise (ValueError
                         "Please specify exactly one of (fw_id, name, qid)"),
                with_args w a')).
  { unfold get_fws_results. rewrite (bind_ok _ _ _ _ _ Hok).
    unfold with_args. run. rewrite H1, H2, H3, H4.
    replace (1 <? _) with false by (symmetry; apply Z.ltb_ge; exact Hsum).
    run.
    destruct (truthy_list (fw_id (w_args w))) eqn:B1,
             (truthy_str (name (w_args w))) eqn:B2,
             (truthy_str (state (w_args w))) eqn:B3,
             (truthy_str (query (w_args w))) eqn:B4;
      cbn [sum_bools Z.add Z.eqb Z.leb] in Hsum |- *;
      try (exfalso; cbn in Hsum; lia);
      try (exfalso; destruct Hsel as [Hsel | Hsel]; discriminate Hsel).
    all: repeat progress
           (run; fields; arith; cbv iota;
            rewrite ?H1, ?H2, ?H3, ?H4, ?H5, ?Hqid, ?B1, ?B2, ?B3, ?B4).
    all: cbn [sum_bools]; arith; run; eexists; reflexivity. }
  destruct Hrun as (a' & Hrun).
  unfold get_fws. rewrite (bind_raise _ _ _ _ _ Hrun).
  split; [reflexivity|]. split; [split; reflexivity | reflexivity].
Qed.

(** ** What get_fws and get_wfs print *)

Lemma same_options_output (a b : Args) :
  same_options a b -> output a = output b.
Proof. unfold same_options. intro H. now apply (f_equal output) in H. Qed.

(** X12.  get_fws --qid with the display format count and no other
    selector prints the list of the ids of the FireWorks of the
    reservation, not their number: the lookup by reservation id is not
    asked for a count, and the list of one list that the format builds is
    unwrapped to the list of ids. *)
Theorem count_by_reservation_prints_the_ids (w : World E) (q : string)
  (ids : list Z) :
  connected w ->
  truthy_list (fw_id (w_args w)) = false ->
  truthy_str (name (w_args w)) = false ->
  truthy_str (state (w_args w)) = false ->
  truthy_str (query (w_args w)) = false ->
  qid (w_args w) = Some q ->
  q <> "" ->
  display_format (w_args w) = Some "count" ->
  literal_eval "{}" = Ok (PDict []) ->
  get_fw_ids_from_reservation_id (w_store w) q = Ok (IdList ids) ->
  fst (get_fws w) = Ok tt /\
  w_out (snd (get_fws w))
  = (w_out w ++ [Print_output (output (w_args w)) (PList (map PInt ids))])%list
  /\ untouched w (snd (get_fws w)).
Proof.
  intros Hc B1 B2 B3 B4 Hqid Hne Hdf Hlit Hres.
  assert (Ht : truthy_str (Some q) = true)
    by (simpl; apply negb_true_iff, String.eqb_neq; exact Hne).
  destruct (get_lp_connected w Hc) as (a & Hok & Hsame).
  pose proof (same_options_output _ _ Hsame) as Hout.
  apply same_options_listing in Hsame.
  destruct Hsame as (H1 & H2 & H3 & H4 & H5 & H6 & H7 & H8 & H9).
  assert (Hrun : exists a',
             output a' = output (w_args w) /\
             get_fws_results w
             = (Ok (PList [PList (map PInt ids)]), with_args w a')).
  { unfold get_fws_results. rewrite (bind_ok _ _ _ _ _ Hok).
    unfold with_args. run. rewrite H1, H2, H3, H4, B1, B2, B3, B4.
    cbn [sum_bools]. arith. run.
    repeat progress
      (run; fields; arith; cbv iota;
       rewrite ?H1, ?H2, ?H3, ?H4, ?H5, ?H6, ?H7, ?H8, ?H9, ?Hdf, ?Hqid,
         ?B1, ?B2, ?B3, ?B4, ?Ht; cbn [sum_bools truthy_str negb String.eqb
                                       Ascii.eqb Bool.eqb andb]).
    cbn [literal_eval_opt]. rewrite Hlit. run. cbn [the_str]. rewrite Hres.
    run. cbn [truthy len List.length Z.of_nat Z.eqb negb]. run.
    unfold present_fws. run. fields.
    cbn [optstr_eqb String.eqb Ascii.eqb Bool.eqb andb pyval_of_ids].
    eexists. split; [|reflexivity]. fields. exact Hout. }
  destruct Hrun as (a' & Hout' & Hrun).
  unfold get_fws. rewrite (bind_ok _ _ _ _ _ Hrun).
  unfold bind at 1. unfold lift at 1. rewrite unwrap_single_list.
  run. cbn [with_args w_args w_out w_calls w_store]. rewrite Hout'.
  split; [reflexivity|]. split; [reflexivity|]. split; reflexivity.
Qed.

Lemma dict_get_remove_other {V : Type} (d : list (pykey * V)) k k' :
  k <> k' -> dict_get (dict_remove d k) k' = dict_get d k'.
Proof.
  intro Hne. induction d as [|[k0 v0] d IH]; [reflexivity|].
  cbn [dict_remove dict_get]. destruct (pykey_eqb k0 k) eqn:Hk.
  - destruct (pykey_eqb k0 k') eqn:Hk'; [|reflexivity].
    apply pykey_eqb_eq in Hk, Hk'. subst. contradiction.
  - cbn [dict_get]. now rewrite IH.
Qed.

Lemma dict_get_remove_same {V : Type} (d : list (pykey * V)) k :
  NoDup (map fst d) -> dict_get (dict_remove d k) k = None.
Proof.
  induction d as [|[k0 v0] d IH]; intro Hnd; [reflexivity|].
  inversion Hnd as [|? ? Hnotin Hnd']; subst.
  cbn [dict_remove]. destruct (pykey_eqb k0 k) eqn:Hk.
  - apply pykey_eqb_eq in Hk. subst. now apply dict_get_absent.
  - cbn [dict_get]. rewrite Hk. now apply IH.
Qed.

Lemma dict_remove_keys {V : Type} (d : list (pykey * V)) k k' :
  In k' (map fst (dict_remove d k)) -> In k' (map fst d).
Proof.
  induction d as [|[k0 v0] d IH]; [intros []|].
  cbn [dict_remove]. destruct (pykey_eqb k0 k).
  - intro H. now right.
  - cbn [map fst In]. intros [H | H]; [now left | right; now apply IH].
Qed.

Lemma dict_remove_NoDup {V : Type} (d : list (pykey * V)) k :
  NoDup (map fst d) -> NoDup (map fst (dict_remove d k)).
Proof.
  induction d as [|[k0 v0] d IH]; intro Hnd; [constructor|].
  inversion Hnd as [|? ? Hnotin Hnd']; subst.
  cbn [dict_remove]. destruct (pykey_eqb k0 k); [exact Hnd'|].
  cbn [map fst]. constructor; [|now apply IH].
  intro Hin. apply Hnotin. now apply (dict_remove_keys d k).
Qed.

(** [d] without [k], whether [k] is among its keys or not. *)
Lemma dict_drop {V : Type} (d : list (pykey * V)) k :
  NoDup (map fst d) ->
  let d' := if dict_mem d k then dict_remove d k else d in
  NoDup (map fst d') /\ dict_get d' k = None /\
  (forall k', k <> k' -> dict_get d' k' = dict_get d k').
Proof.
  intro Hnd. unfold dict_mem. destruct (dict_get d k) eqn:Hk; cbv zeta.
  - split; [now apply dict_remove_NoDup|].
    split; [now apply dict_get_remove_same|].
    intros k' Hne. now apply dict_get_remove_other.
  - split; [exact Hnd|]. split; [exact Hk|]. reflexivity.
Qed.

(** X13.  What get_fws leaves out of the document of a FireWork.  In the
    formats more and less the entries archived_launches and spec are
    removed, in the format less the entry launches too, and every other
    entry is kept with its value; a document without a spec entry raises
    KeyError('spec') in these two formats; in the other formats the
    document is shown as it is. *)
Theorem display_format_hides_keys (fmt : option string)
  (d : list (pykey * pyval)) :
  NoDup (map fst d) ->
  (hidden fmt = [] -> trim_fw_dict fmt d = Ok d) /\
  (hidden fmt <> [] -> dict_get d (KStr "spec") = None ->
   trim_fw_dict fmt d = Raise (KeyError (KStr "spec"))) /\
  (dict_get d (KStr "spec") <> None ->
   exists d',
     trim_fw_dict fmt d = Ok d' /\
     (forall k, In k (hidden fmt) -> dict_get d' k = None) /\
     (forall k, ~ In k (hidden fmt) -> dict_get d' k = dict_get d k)).
Proof.
  intro Hnd.
  destruct (dict_drop d (KStr "archived_launches") Hnd) as (Hnd1 & Ha1 & Ho1).
  cbv zeta in Hnd1, Ha1, Ho1.
  set (d1 := if dict_mem d (KStr "archived_launches")
             then dict_remove d (KStr "archived_launches") else d) in *.
  assert (Hspec1 : dict_get d1 (KStr "spec") = dict_get d (KStr "spec"))
    by (apply Ho1; discriminate).
  unfold trim_fw_dict, hidden. fold d1.
  destruct (optstr_eqb fmt "less") eqn:Hless.
  - (* less *)
    rewrite orb_true_r. unfold dict_del, dict_mem. rewrite Hspec1.
    split; [discriminate|]. split.
    + intros _ Hnone. now rewrite Hnone.
    + intro Hsome. destruct (dict_get d (KStr "spec")) as [v|] eqn:Hs;
        [|contradiction].
      assert (Hnd2 : NoDup (map fst (dict_remove d1 (KStr "spec"))))
        by now apply dict_remove_NoDup.
      destruct (dict_drop (dict_remove d1 (KStr "spec")) (KStr "launches")
                  Hnd2) as (_ & Hl3 & Ho3).
      cbv zeta in Hl3, Ho3. unfold dict_mem in Hl3, Ho3.
      eexists. split; [reflexivity|]. split.
      * intros k [<- | [<- | [<- | []]]].
        -- rewrite Ho3 by discriminate.
           rewrite dict_get_remove_other by discriminate. exact Ha1.
        -- rewrite Ho3 by discriminate. now apply dict_get_remove_same.
        -- exact Hl3.
      * intros k Hk.
        assert (K1 : KStr "archived_launches" <> k)
          by (intro; subst; apply Hk; now left).
        assert (K2 : KStr "spec" <> k)
          by (intro; subst; apply Hk; right; now left).
        assert (K3 : KStr "launches" <> k)
          by (intro; subst; apply Hk; right; right; now left).
        rewrite Ho3 by exact K3.
        rewrite dict_get_remove_other by exact K2. now apply Ho1.
  - destruct (optstr_eqb fmt "more") eqn:Hmore.
    + (* more *)
      cbn [orb]. unfold dict_del, dict_mem. rewrite Hspec1.
      split; [discriminate|]. split.
      * intros _ Hnone. now rewrite Hnone.
      * intro Hsome. destruct (dict_get d (KStr "spec")) as [v|] eqn:Hs;
          [|contradiction].
        eexists. split; [reflexivity|]. split.
        -- intros k [<- | [<- | []]].
           ++ rewrite dict_get_remove_other by discriminate. exact Ha1.
           ++ now apply dict_get_remove_same.
        -- intros k Hk.
           assert (K1 : KStr "archived_launches" <> k)
             by (intro; subst; apply Hk; now left).
           assert (K2 : KStr "spec" <> k)
             by (intro; subst; apply Hk; right; now left).
           rewrite dict_get_remove_other by exact K2. now apply Ho1.
    + (* the other formats *)
      cbn [orb]. split; [reflexivity|]. split; [intro H; now contradiction H|].
      intros _. exists d. split; [reflexivity|].
      split; [intros k []|reflexivity].
Qed.

(** X14.  get_wfs --table prints a table only for two results or more
    that are documents.  With no result it raises IndexError; with one
    result it has unwrapped it, and raises TypeError on an id or a count
    and KeyError(0) on a document; with two ids or more it raises
    AttributeError; in none of these cases is anything printed.  With two
    documents or more, and prettytable installed, it prints the table
    whose headers are the keys of the first document and whose rows hold,
    for each document, the values under these keys, None where the
    document has none. *)
Theorem table_needs_two_documents (w w1 : World E) (results : list pyval) :
  get_wfs_results w = (Ok (PList results), w1) ->
  table (w_args w1) = true ->
  (results = [] -> get_wfs w = (Raise IndexError, w1)) /\
  (forall n, results = [PInt n] -> get_wfs w = (Raise TypeError, w1)) /\
  (forall d, results = [PDict d] -> dict_get d (KInt 0) = None ->
             get_wfs w = (Raise (KeyError (KInt 0)), w1)) /\
  (forall n rest, results = PInt n :: rest -> rest <> [] ->
                  get_wfs w = (Raise (AttributeError "keys"), w1)) /\
  (forall d rest, results = PDict d :: rest -> rest <> [] ->
                  Forall is_dict rest -> prettytable_installed = true ->
                  get_wfs w
                  = (Ok tt,
                     shows w1
                       (Print_table (map fst d)
                          (map (fun r => map (cell r) (map fst d)) results)))).
Proof.
  intros Hres Htable.
  assert (Hrun : get_wfs w
                 = (t <- lift (wf_table
                                 (match results with
                                  | [x] => x
                                  | _ => PList results
                                  end)) ;;
                    print t) w1).
  { unfold get_wfs. rewrite (bind_ok _ _ _ _ _ Hres).
    unfold bind at 1. unfold lift at 1. rewrite unwrap_single_list.
    unfold bind at 1. unfold get_args at 1. now rewrite Htable. }
  rewrite Hrun. repeat split.
  - intros ->. reflexivity.
  - intros n ->. reflexivity.
  - intros d -> Hd. unfold bind, lift, wf_table. cbn [py_getitem].
    now rewrite Hd.
  - intros n [|y rest] -> Hne; [contradiction|]. reflexivity.
  - intros d [|y rest] -> Hne Hdicts Hpt; [contradiction|].
    unfold bind, lift, wf_table.
    cbn [py_getitem list_index len List.length Z.of_nat Z.ltb Z.compare
         orb Z.leb nth_error Z.to_nat py_keys py_iter].
    replace (Z.pos (Pos.of_succ_nat (S (List.length rest))) <=? 0) with false
      by (symmetry; apply Z.leb_gt; lia).
    cbn [orb nth_error]. rewrite Hpt.
    rewrite map_r_rows by (constructor; [now exists d | exact Hdicts]).
    reflexivity.
Qed.

(** ** The id in the name of a Workflow *)

Lemma split_dashes_other (c : ascii) (rest : string) (acc : list ascii) :
  c <> "-"%char ->
  split_dashes (String c rest) acc = split_dashes rest (c :: acc).
Proof.
  intro H. destruct c as [[] [] [] [] [] [] [] []]; try reflexivity.
  contradiction H. reflexivity.
Qed.

Lemma split_dashes_dash_other (c : ascii) (rest : string) (acc : list ascii) :
  c <> "-"%char ->
  split_dashes (String "-" (String c rest)) acc
  = split_dashes (String c rest) ("-"%char :: acc).
Proof.
  intro H. destruct c as [[] [] [] [] [] [] [] []]; try reflexivity.
  contradiction H. reflexivity.
Qed.

Lemma split_dashes_nonempty (s : string) (acc : list ascii) :
  split_dashes s acc <> [].
Proof.
  revert acc. induction s as [s IH] using
    (well_founded_induction (well_founded_ltof _ String.length)).
  intro acc. destruct s as [|c s]; [discriminate|].
  destruct (Ascii.eqb_spec c "-") as [-> | Hc].
  - destruct s as [|c' s]; [discriminate|].
    destruct (Ascii.eqb_spec c' "-") as [-> | Hc'].
    + cbn [split_dashes]. discriminate.
    + rewrite split_dashes_dash_other by exact Hc'.
      apply IH. unfold ltof. cbn [String.length]. lia.
  - rewrite split_dashes_other by exact Hc.
    apply IH. unfold ltof. cbn [String.length]. lia.
Qed.

Lemma last_cons_nonempty {A : Type} (x : A) (l : list A) (d : A) :
  l <> [] -> last (x :: l) d = last l d.
Proof. destruct l; [contradiction|reflexivity]. Qed.

(** After a name that does not end with a dash, the separator that
    [get_wfs] appends is the last one that [split] finds. *)
Lemma last_piece_after (n t : string) (acc : list ascii) :
  ends_with_dash n = false ->
  last (split_dashes (n ++ "--" ++ t) acc) "" = last (split_dashes t []) "".
Proof.
  revert acc. induction n as [n IH] using
    (well_founded_induction (well_founded_ltof _ String.length)).
  intros acc Hn. destruct n as [|c n].
  - cbn [String.append split_dashes].
    apply last_cons_nonempty, split_dashes_nonempty.
  - destruct (Ascii.eqb_spec c "-") as [-> | Hc].
    + destruct n as [|c' n]; [discriminate Hn|].
      destruct (Ascii.eqb_spec c' "-") as [-> | Hc'].
      * cbn [String.append split_dashes].
        rewrite last_cons_nonempty by apply split_dashes_nonempty.
        apply IH; [unfold ltof; cbn [String.length]; lia|].
        destruct n as [|c'' n]; [discriminate Hn | exact Hn].
      * change (String "-" (String c' n) ++ "--" ++ t)
          with (String "-" (String c' (n ++ "--" ++ t))).
        rewrite split_dashes_dash_other by exact Hc'.
        change (String c' (n ++ "--" ++ t)) with (String c' n ++ "--" ++ t).
        apply IH; [unfold ltof; cbn [String.length]; lia | exact Hn].
    + change (String c n ++ "--" ++ t) with (String c (n ++ "--" ++ t)).
      rewrite split_dashes_other by exact Hc.
      apply IH; [unfold ltof; cbn [String.length]; lia|].
      destruct n as [|c' n]; [reflexivity | exact Hn].
Qed.

Lemma string_app_nil (s : string) : s ++ "" = s.
Proof. induction s as [|c s IH]; [reflexivity|]. cbn. now rewrite IH. Qed.

Lemma string_of_list_snoc (l : list ascii) (c : ascii) (t : string) :
  string_of_list_ascii (l ++ [c]) ++ t = string_of_list_ascii l ++ String c t.
Proof. induction l as [|x l IH]; [reflexivity|]. cbn. now rewrite IH. Qed.

Lemma split_dashes_dashless (t : string) (acc : list ascii) :
  dashless t ->
  split_dashes t acc = [string_of_list_ascii (rev acc) ++ t].
Proof.
  revert acc. induction t as [|c t IH]; intros acc H.
  - cbn [split_dashes]. now rewrite string_app_nil.
  - destruct H as [Hc Ht]. rewrite split_dashes_other by exact Hc.
    rewrite IH by exact Ht. cbn [rev]. now rewrite string_of_list_snoc.
Qed.

Lemma digits_dashless (d : Decimal.uint) :
  dashless (NilEmpty.string_of_uint d).
Proof.
  induction d; cbn [NilEmpty.string_of_uint dashless];
    try exact I; (split; [discriminate | assumption]).
Qed.

Lemma number_starts (d : Decimal.uint) :
  exists c rest,
    NilZero.string_of_uint d = String c rest /\ c <> "-"%char /\ dashless rest.
Proof.
  destruct d; cbn [NilZero.string_of_uint NilEmpty.string_of_uint];
    eexists; eexists; (split; [reflexivity|]);
    (split; [discriminate|]); try exact I; apply digits_dashless.
Qed.

Lemma str_of_Z_one_piece (i : Z) :
  last (split_dashes (str_of_Z i) []) "" = str_of_Z i.
Proof.
  unfold str_of_Z. destruct (Z.to_int i) as [d | d]; cbn [NilZero.string_of_int];
    destruct (number_starts d) as (c & rest & -> & Hc & Hrest).
  - rewrite split_dashes_dashless by (split; assumption). reflexivity.
  - rewrite split_dashes_dash_other by exact Hc.
    rewrite split_dashes_dashless by (split; assumption). reflexivity.
Qed.

(** X15.  The id that get_wfs appends to the name of a Workflow is the id
    that get_fwid, the reader of get_links, takes from a name.  For a
    document whose name is a string that does not end with a dash, get_wfs
    stores the name followed by two dashes and the id, and get_fwid reads
    the id back from it, for every integer that int reads back from its
    decimal form. *)
Theorem tagged_name_read_back (d : list (pykey * pyval)) (nm : string)
  (i : Z) :
  dict_get d (KStr "name") = Some (PStr nm) ->
  ends_with_dash nm = false ->
  int_of_str (str_of_Z i) = Ok i ->
  exists d',
    tag_name d i = Ok d' /\
    dict_get d' (KStr "name") = Some (PStr (nm ++ "--" ++ str_of_Z i)) /\
    get_fwid (PStr (nm ++ "--" ++ str_of_Z i)) = Ok i.
Proof.
  intros Hname Hdash Hint.
  exists (dict_set d (KStr "name") (PStr (nm ++ "--" ++ str_of_Z i))).
  split; [|split].
  - unfold tag_name. cbn [py_getitem]. rewrite Hname. reflexivity.
  - apply dict_get_set_same.
  - cbn [get_fwid]. unfold last_piece.
    rewrite (last_piece_after nm (str_of_Z i) [] Hdash).
    now rewrite str_of_Z_one_piece.
Qed.

(** ** Links that lead into a cycle *)

Lemma map_r_raises {A B : Type} (f : A -> result B) (l : list A) (e : exc) :
  (forall x, In x l -> (exists y, f x = Ok y) \/ f x = Raise e) ->
  (exists x, In x l /\ f x = Raise e) ->
  map_r f l = Raise e.
Proof.
  induction l as [|x l IH]; intros Hall (y & Hin & Hy); [destruct Hin|].
  cbn [map_r]. destruct (Hall x (or_introl eq_refl)) as [[v Hv] | Hx].
  - rewrite Hv. rewrite IH; [reflexivity | |].
    + intros z Hz. apply Hall. now right.
    + destruct Hin as [<- | Hin]; [|now exists y].
      rewrite Hv in Hy. discriminate Hy.
  - now rewrite Hx.
Qed.

Lemma map_r_ok_or {A B : Type} (f : A -> result B) (l : list A) (e : exc) :
  (forall x, In x l -> (exists y, f x = Ok y) \/ f x = Raise e) ->
  (exists ys, map_r f l = Ok ys) \/ map_r f l = Raise e.
Proof.
  induction l as [|x l IH]; intro Hall; [left; now exists []|].
  cbn [map_r]. destruct (Hall x (or_introl eq_refl)) as [[v Hv] | Hx].
  - rewrite Hv. destruct IH as [[ys Hys] | Hl].
    + intros z Hz. apply Hall. now right.
    + rewrite Hys. left. now eexists.
    + rewrite Hl. now right.
  - rewrite Hx. now right.
Qed.

Lemma children_loop_ok_or (rec : Z -> result pyval) (start : Z)
  (items : list (pykey * list Z)) (data : list (pykey * pyval)) (e : exc) :
  (forall i, (exists t, rec i = Ok t) \/ rec i = Raise e) ->
  (exists t, children_loop rec start items data = Ok t) \/
  children_loop rec start items data = Raise e.
Proof.
  intro Hrec. revert data.
  induction items as [|[l c] items IH]; intro data; [left; now eexists|].
  cbn [children_loop]. destruct (pykey_eqb l (KInt start)); [|apply IH].
  destruct (0 <? len c); [|apply IH].
  destruct (map_r_ok_or rec c e (fun x _ => Hrec x)) as [[ys Hys] | Hc].
  - rewrite Hys. apply IH.
  - rewrite Hc. now right.
Qed.

Lemma get_children_ok_or (fuel : nat) links start d :
  (exists t, get_children fuel links start d = Ok t) \/
  get_children fuel links start d = Raise RecursionError.
Proof.
  revert start. induction fuel as [|fuel IH]; intro start; [now right|].
  rewrite get_children_S. apply children_loop_ok_or. intro i. apply IH.
Qed.

Lemma children_loop_raises (rec : Z -> result pyval) (start : Z)
  (items : list (pykey * list Z)) (data : list (pykey * pyval)) (e : exc)
  (c : list Z) (y : Z) :
  (forall i, (exists t, rec i = Ok t) \/ rec i = Raise e) ->
  In (KInt start, c) items ->
  In y c ->
  rec y = Raise e ->
  children_loop rec start items data = Raise e.
Proof.
  intros Hrec Hin Hy He. revert data.
  induction items as [|[l c'] items IH]; intro data; [destruct Hin|].
  cbn [children_loop].
  assert (Hhere : forall c0, In y c0 -> map_r rec c0 = Raise e).
  { intros c0 Hy0. apply map_r_raises; [intros x _; apply Hrec|].
    now exists y. }
  destruct Hin as [Heq | Hin].
  - inversion Heq. subst l c'. rewrite pykey_eqb_refl.
    replace (0 <? len c) with true.
    + now rewrite (Hhere c Hy).
    + symmetry. apply Z.ltb_lt. destruct c; [destruct Hy|].
      unfold len. cbn [List.length]. lia.
  - destruct (pykey_eqb l (KInt start)); [|now apply IH].
    destruct (0 <? len c'); [|now apply IH].
    destruct (map_r_ok_or rec c' e (fun x _ => Hrec x)) as [[ys Hys] | Hc].
    + rewrite Hys. now apply IH.
    + now rewrite Hc.
Qed.

(** X16.  get_children does not return on links that lead into a cycle:
    when the links below the start node can be followed without end, it
    raises RecursionError whatever number of nested calls the interpreter
    allows, and whatever max_depth is. *)
Theorem get_children_cyclic_links (fuel : nat)
  (links : list (pykey * list Z)) (start d : Z) :
  endless links start ->
  get_children fuel links start d = Raise RecursionError.
Proof.
  intros (P & Hstart & Hstep). revert start Hstart.
  induction fuel as [|fuel IH]; intros start Hstart; [reflexivity|].
  rewrite get_children_S.
  destruct (Hstep start Hstart) as (y & (c & Hin & Hy) & HPy).
  apply (children_loop_raises _ start links [] RecursionError c y).
  - intro i. apply get_children_ok_or.
  - exact Hin.
  - exact Hy.
  - now apply IH.
Qed.

(** ** The commands that report *)

Lemma unprompted_refl (w : World E) : unprompted w w.
Proof. split; [reflexivity | intros p H; exact H]. Qed.

Lemma unprompted_trans (w1 w2 w3 : World E) :
  unprompted w1 w2 -> unprompted w2 w3 -> unprompted w1 w3.
Proof.
  intros [H1 H2] [H3 H4]. split; [now rewrite H3, H1|].
  intros p H. apply H2, H4, H.
Qed.

Lemma untouched_trans (w1 w2 w3 : World E) :
  untouched w1 w2 -> untouched w2 w3 -> untouched w1 w3.
Proof.
  intros [H1 H2] [H3 H4]. split; [now rewrite H3, H1 | now rewrite H4, H2].
Qed.

Lemma harmless_same {A : Type} (c : M E A) :
  (forall w, w_calls (snd (c w)) = w_calls w /\
             w_store (snd (c w)) = w_store w /\
             w_stdin (snd (c w)) = w_stdin w /\
             w_out (snd (c w)) = w_out w) ->
  harmless c.
Proof.
  intros H w. destruct (H w) as (H1 & H2 & H3 & H4).
  split; [split; assumption|]. split; [exact H3|]. intro p. now rewrite H4.
Qed.

Lemma harmless_bind {A B : Type} (c : M E A) (k : A -> M E B) :
  harmless c -> (forall a, harmless (k a)) -> harmless (bind c k).
Proof.
  intros Hc Hk w. unfold bind. destruct (Hc w) as [Hu Hp].
  destruct (c w) as [[a | e] w1]; cbn [snd] in *; [|split; assumption].
  destruct (Hk a w1) as [Hu' Hp'].
  split; [eapply untouched_trans | eapply unprompted_trans]; eassumption.
Qed.

Lemma harmless_ret {A : Type} (a : A) : harmless (ret a : M E A).
Proof. apply harmless_same. intro w. repeat split; reflexivity. Qed.

Lemma harmless_raise {A : Type} (e : exc) : harmless (raise e : M E A).
Proof. apply harmless_same. intro w. repeat split; reflexivity. Qed.

Lemma harmless_lift {A : Type} (r : result A) : harmless (lift r : M E A).
Proof. apply harmless_same. intro w. repeat split; reflexivity. Qed.

Lemma harmless_read {A : Type} (f : Store -> result A) : harmless (read f).
Proof. apply harmless_same. intro w. repeat split; reflexivity. Qed.

Lemma harmless_get_args : harmless (get_args : M E Args).
Proof. apply harmless_same. intro w. repeat split; reflexivity. Qed.

Lemma harmless_put_args (a : Args) : harmless (put_args a : M E unit).
Proof. apply harmless_same. intro w. repeat split; reflexivity. Qed.

Lemma harmless_print (p : printed) :
  (forall s, p <> Prompt s) -> harmless (print p : M E unit).
Proof.
  intros Hp w. split; [split; reflexivity|]. split; [reflexivity|].
  intros q Hin. cbn in Hin. apply in_app_or in Hin.
  destruct Hin as [Hin | [Hin | []]]; [exact Hin|].
  exfalso. exact (Hp q Hin).
Qed.

Lemma harmless_if {A : Type} (b : bool) (c1 c2 : M E A) :
  harmless c1 -> harmless c2 -> harmless (if b then c1 else c2).
Proof. destruct b; auto. Qed.

Lemma harmless_for_each {A : Type} (body : A -> M E unit) (l : list A) :
  (forall x, harmless (body x)) -> harmless (for_each l body).
Proof.
  intro Hbody. induction l as [|x l IH]; [apply harmless_ret|].
  cbn [for_each]. apply harmless_bind; [apply Hbody | intros _; exact IH].
Qed.

Lemma harmless_fold_m {A B : Type} (body : B -> A -> M E B) (l : list A)
  (acc : B) :
  (forall acc x, harmless (body acc x)) -> harmless (fold_m body l acc).
Proof.
  intro Hbody. revert acc. induction l as [|x l IH]; intro acc;
    [apply harmless_ret|].
  cbn [fold_m]. apply harmless_bind; [apply Hbody | intro acc'; apply IH].
Qed.

Lemma harmless_map_m {A B : Type} (f : A -> M E B) (l : list A) :
  (forall x, harmless (f x)) -> harmless (map_m f l).
Proof.
  intro Hf. induction l as [|x l IH]; [apply harmless_ret|].
  cbn [map_m]. apply harmless_bind; [apply Hf|]. intro y.
  apply harmless_bind; [exact IH|]. intro ys. apply harmless_ret.
Qed.

Lemma harmless_get_lp : harmless (get_lp : M E unit).
Proof.
  intro w. destruct (get_lp_cases w) as [(a & Hok & _) | (a & msg & Hf)].
  - rewrite Hok. split; [split; reflexivity|].
    split; [reflexivity | intros p Hp; exact Hp].
  - rewrite Hf. split; [split; reflexivity|]. split; [reflexivity|].
    intros p Hin. cbn in Hin. apply in_app_or in Hin.
    destruct Hin as [Hin | [Hin | []]]; [exact Hin | discriminate Hin].
Qed.

Lemma harmless_pw_check_skipped (ids : ids_result) :
  harmless (pw_check ids true).
Proof.
  unfold pw_check. apply harmless_bind; [apply harmless_lift|]. intro n.
  rewrite andb_false_r. apply harmless_ret.
Qed.

Lemma harmless_table (wfs : pyval) :
  harmless (t <- lift (wf_table wfs) ;; print t : M E unit).
Proof.
  intro w. unfold bind, lift.
  destruct (wf_table wfs) as [t|e] eqn:Ht.
  - destruct (wf_table_prints_a_table _ _ Ht) as (h & r & ->).
    apply harmless_print. discriminate.
  - split; [split; reflexivity | apply unprompted_refl].
Qed.

(** One step through a command that is made of harmless parts. *)
Ltac harmless_step :=
  first
    [ apply harmless_get_lp | apply harmless_pw_check_skipped
    | apply harmless_table
    | apply harmless_ret | apply harmless_raise | apply harmless_lift
    | apply harmless_read | apply harmless_get_args | apply harmless_put_args
    | apply harmless_bind; [|intro]
    | apply harmless_for_each; intro
    | apply harmless_fold_m; intros
    | apply harmless_map_m; intro
    | apply harmless_print; discriminate
    | apply harmless_if
    | match goal with
      | |- harmless (if ?b then _ else _) => destruct b
      | |- harmless (match ?x with _ => _ end) => destruct x
      end ].

(** X17.  The sub-commands that report (get_fws, get_wfs, get_links,
    track_fws) change nothing and ask nothing, whatever their options, the
    database and the answers typed ahead: they issue no mutating LaunchPad
    call, leave the database as it was, read no answer and put no
    question. *)
Theorem reporting_commands_read_only (c : command) (w : World E) :
  reporting c = true ->
  untouched w (snd (func c w)) /\ unprompted w (snd (func c w)).
Proof.
  intro H. revert w. change (harmless (func c)).
  destruct c; try discriminate H; cbn [func].
  - unfold get_fws, get_fws_results, present_fws. repeat harmless_step.
  - unfold get_wfs, get_wfs_results, present_wfs. repeat harmless_step.
  - unfold get_links. repeat harmless_step.
  - unfold track_fws. repeat harmless_step.
Qed.

(** ** track_fws *)

Lemma same_options_tracking (a b : Args) :
  same_options a b -> include a = include b /\ exclude a = exclude b.
Proof.
  unfold same_options. intro H.
  split; [apply (f_equal include) in H | apply (f_equal exclude) in H];
    exact H.
Qed.

Lemma track_loop (inc exc : option (list string)) (ids : list Z)
  (data : Z -> list (Z * list tracker)) (name : Z -> string)
  (first_print : bool) (w : World E) :
  (forall f, In f ids -> get_tracker_data (w_store w) f = Ok (data f)) ->
  (forall f, In f ids -> tracker_lines inc exc (data f) <> [] ->
             fireworks_find_name (w_store w) f = Ok (name f)) ->
  exists b,
    fold_m (fun first_print f =>
      data <- read (fun s => get_tracker_data s f) ;;
      if negb (len (tracker_lines inc exc data) =? 0) then
        name <- read (fun s => fireworks_find_name s f) ;;
        print (Print_text
                 (join newline
                    (List.app
                       (if first_print : bool then [] else [">------<"])
                       (("# FW id: " ++ str_of_Z f ++ ", FW name: " ++ name)
                        :: tracker_lines inc exc data)))) ;;
        ret false
      else ret first_print) ids first_print w
    = (Ok b,
       mkWorld (w_args w) (w_store w) (w_stdin w) (w_dates w) (w_clock w)
         (w_out w
          ++ blocks first_print
               (map (fun f => (f, name f, tracker_lines inc exc (data f)))
                  (filter (fun f =>
                             negb (len (tracker_lines inc exc (data f)) =? 0))
                     ids)))
         (w_log w) (w_calls w)).
Proof.
  revert first_print w. induction ids as [|f ids IH];
    intros first_print w Hdata Hname.
  - exists first_print. cbn [fold_m filter map blocks]. unfold ret.
    rewrite app_nil_r. now destruct w.
  - cbn [fold_m filter]. unfold bind at 1. unfold bind at 1.
    unfold read at 1. rewrite (Hdata f (or_introl eq_refl)).
    destruct (len (tracker_lines inc exc (data f)) =? 0) eqn:Hlen;
      cbn [negb].
    + unfold ret at 1.
      destruct (IH first_print w) as (b & Hrest).
      * intros g Hg. apply Hdata. now right.
      * intros g Hg. apply Hname. now right.
      * exists b. exact Hrest.
    + unfold bind at 1. unfold read at 1.
      rewrite (Hname f (or_introl eq_refl))
        by (intro Hnil; rewrite Hnil in Hlen; discriminate Hlen).
      unfold bind at 1. unfold print at 1. unfold ret at 1.
      match goal with
      | |- context [fold_m _ ids false ?w1] =>
          destruct (IH false w1) as (b & Hrest)
      end.
      * intros g Hg. apply Hdata. now right.
      * intros g Hg. apply Hname. now right.
      * exists b. rewrite Hrest.
        cbn [w_args w_store w_stdin w_dates w_clock w_out w_log w_calls
             map blocks].
        now rewrite <- app_assoc.
Qed.

(** X18.  What track_fws prints.  The selected FireWorks are gone through
    in order; one that has no tracker line to show, after the --include
    and --exclude filters, is passed over without output and without a
    look-up of its name; each of the others gets one block: the line with
    its id and its name, then its tracker lines; the separator line stands
    before every block but the first one printed. *)
Theorem track_fws_report (w : World E) (ids : list Z)
  (data : Z -> list (Z * list tracker)) (name : Z -> string) :
  connected w ->
  selection false (w_args w) (w_store w) = Ok (IdList ids) ->
  (forall f, In f ids -> get_tracker_data (w_store w) f = Ok (data f)) ->
  (forall f, In f ids ->
     tracker_lines (include (w_args w)) (exclude (w_args w)) (data f) <> [] ->
     fireworks_find_name (w_store w) f = Ok (name f)) ->
  fst (track_fws w) = Ok tt /\
  w_out (snd (track_fws w))
  = (w_out w
     ++ blocks true
          (map (fun f =>
                  (f, name f,
                   tracker_lines (include (w_args w)) (exclude (w_args w))
                     (data f)))
             (filter (fun f =>
                        negb (len (tracker_lines (include (w_args w))
                                     (exclude (w_args w)) (data f)) =? 0))
                ids)))%list.
Proof.
  intros Hc Hsel Hdata Hname.
  destruct (get_lp_connected w Hc) as (a & Hok & Hsame).
  destruct (same_options_tracking _ _ Hsame) as (Hinc & Hexc).
  destruct (track_loop (include (w_args w)) (exclude (w_args w)) ids data name
              true (with_args w a) Hdata Hname) as (b & Hloop).
  assert (Hrun : track_fws w
                 = (Ok tt,
                    mkWorld a (w_store w) (w_stdin w) (w_dates w) (w_clock w)
                      (w_out w
                       ++ blocks true
                            (map (fun f =>
                                    (f, name f,
                                     tracker_lines (include (w_args w))
                                       (exclude (w_args w)) (data f)))
                               (filter
                                  (fun f =>
                                     negb (len (tracker_lines
                                                  (include (w_args w))
                                                  (exclude (w_args w))
                                                  (data f)) =? 0))
                                  ids)))
                      (w_log w) (w_calls w))).
  { unfold track_fws.
    rewrite (selecting_command_run _ _ _ _ _ Hok Hsame), Hsel.
    unfold bind at 1. rewrite (pw_check_passes _ _ _ (or_intror eq_refl)).
    unfold bind at 1. unfold get_args at 1.
    unfold bind at 1. unfold lift at 1. cbn [ids_iter].
    cbn [with_args w_args]. rewrite Hinc, Hexc.
    unfold bind at 1. rewrite Hloop. reflexivity. }
  rewrite Hrun. split; reflexivity.
Qed.

End Further.

(** ** init and add_scripts *)

Section FurtherOutside.

Context {E : External} {O : Outside E}.

Lemma init_yaml_asks (config_file : string) (w : World E)
  (h p n u pw : string) (rest : list string) :
  w_stdin w = h :: p :: n :: u :: pw :: rest ->
  init_yaml config_file w
  = (port <- lift (py_int (answer_or p (PInt 27017))) ;;
     open_for_writing config_file ;;
     d <- lift (LaunchPad_from_dict_to_dict
                  [(KStr "host", answer_or h (PStr "localhost"));
                   (KStr "port", PInt port);
                   (KStr "name", answer_or n (PStr "fireworks"));
                   (KStr "username", answer_or u PNone);
                   (KStr "password", answer_or pw PNone)]) ;;
     yaml_dump_to config_file d ;;
     print (Print_text
              (newline ++ "Configuration written to " ++ config_file ++ "!")))
      (asked w rest).
Proof.
  intro Hin. unfold init_yaml, fields. cbn [fold_m fst snd]. run.
  rewrite Hin. run. cbn [dict_set pykey_eqb String.eqb Ascii.eqb Bool.eqb andb].
  run. cbn [py_getitem dict_get pykey_eqb String.eqb Ascii.eqb Bool.eqb andb].
  unfold asked, questions, fields. cbn [map fst snd format_default].
  rewrite <- !app_assoc. cbn [List.app].
  destruct (py_int (answer_or p (PInt 27017))) as [port | e]; reflexivity.
Qed.

(** X19.  The document that init_yaml hands to LaunchPad.from_dict.  It
    puts its five questions, for host, port, name, username and password
    in this order, before anything else; the document has these five
    entries in this order, each with the answer typed, or with the default
    (localhost, 27017, fireworks, None, None) when the answer is empty; the
    port is an integer, the default 27017 or what int makes of the answer.
    The file is opened for writing before LaunchPad.from_dict is called,
    and the closing line is printed last. *)
Theorem init_yaml_document (config_file : string) (w : World E)
  (h p n u pw : string) (rest : list string) (port : Z) :
  w_stdin w = h :: p :: n :: u :: pw :: rest ->
  (p = "" /\ port = 27017) \/ (p <> "" /\ int_of_str p = Ok port) ->
  init_yaml config_file w
  = (open_for_writing config_file ;;
     d <- lift (LaunchPad_from_dict_to_dict
                  [(KStr "host", answer_or h (PStr "localhost"));
                   (KStr "port", PInt port);
                   (KStr "name", answer_or n (PStr "fireworks"));
                   (KStr "username", answer_or u PNone);
                   (KStr "password", answer_or pw PNone)]) ;;
     yaml_dump_to config_file d ;;
     print (Print_text
              (newline ++ "Configuration written to " ++ config_file ++ "!")))
      (asked w rest).
Proof.
  intros Hin Hport. rewrite (init_yaml_asks config_file w h p n u pw rest Hin).
  assert (Hp : py_int (answer_or p (PInt 27017)) = Ok port).
  { destruct Hport as [[-> ->] | [Hne Hint]]; [reflexivity|].
    unfold answer_or.
    replace (negb (p =? "")%string) with true
      by (symmetry; apply negb_true_iff, String.eqb_neq; exact Hne).
    exact Hint. }
  unfold bind at 1. unfold lift at 1. now rewrite Hp.
Qed.

(** X20.  init_yaml checks the port only after it has put all its five
    questions, and writes nothing when the check fails: on an answer for
    the port that int does not read, it raises what int raises once the
    five answers are read; the file is not opened, LaunchPad.from_dict is
    not called and nothing more is printed, whatever these would do. *)
Theorem init_yaml_rejects_bad_port (config_file : string) (w : World E)
  (h p n u pw : string) (rest : list string) (e : exc) :
  w_stdin w = h :: p :: n :: u :: pw :: rest ->
  p <> "" ->
  int_of_str p = Raise e ->
  init_yaml config_file w = (Raise e, asked w rest).
Proof.
  intros Hin Hne Hint.
  rewrite (init_yaml_asks config_file w h p n u pw rest Hin).
  unfold bind at 1. unfold lift at 1. unfold answer_or.
  replace (negb (p =? "")%string) with true
    by (symmetry; apply negb_true_iff, String.eqb_neq; exact Hne).
  cbn [py_int]. now rewrite Hint.
Qed.

Lemma list_index_nth {A : Type} (l : list A) (j : nat) (x : A) :
  nth_error l j = Some x -> list_index l (Z.of_nat j) = Ok x.
Proof.
  intro H. unfold list_index.
  assert (Hlt : (j < List.length l)%nat)
    by (apply nth_error_Some; rewrite H; discriminate).
  replace (Z.of_nat j <? 0) with false by (symmetry; apply Z.ltb_ge; lia).
  replace (Z.of_nat j <? 0) with false by (symmetry; apply Z.ltb_ge; lia).
  replace (len l <=? Z.of_nat j) with false
    by (symmetry; apply Z.leb_gt; unfold len; lia).
  cbn [orb]. now rewrite Nat2Z.id, H.
Qed.

Lemma list_index_beyond {A : Type} (l : list A) (i : Z) :
  len l <= i -> list_index l i = Raise IndexError.
Proof.
  intro H. unfold list_index. unfold len in *.
  replace (i <? 0) with false by (symmetry; apply Z.ltb_ge; lia).
  replace (i <? 0) with false by (symmetry; apply Z.ltb_ge; lia).
  replace (Z.of_nat (List.length l) <=? i) with true
    by (symmetry; apply Z.leb_le; lia).
  reflexivity.
Qed.

Lemma list_index_within {A : Type} (l : list A) (i : Z) :
  0 <= i < len l -> exists x, list_index l i = Ok x.
Proof.
  intro H. unfold len in H.
  destruct (nth_error l (Z.to_nat i)) as [x|] eqn:Hx.
  - exists x. rewrite <- (Z2Nat.id i) by lia. now apply list_index_nth.
  - apply nth_error_None in Hx. lia.
Qed.

(** What the loop of [add_scripts] adds to the FireWorks and to the links
    it starts from. *)
Lemma script_fws_adds (scripts : list string) (names : list (option string))
  (idx : nat) (fws : list FireWork) (links : list (pykey * Z))
  (fws' : list FireWork) (links' : list (pykey * Z)) :
  script_fws scripts names (Z.of_nat idx) fws links = Ok (fws', links') ->
  exists added,
    fws' = (fws ++ added)%list /\
    map task_script added = scripts /\
    (forall j fw, nth_error added j = Some fw ->
       fw_fw_id fw = Z.of_nat (idx + j) /\
       list_index names (Z.of_nat (idx + j)) = Ok (fw_name fw) /\
       task_use_shell fw = true) /\
    (forall k,
       dict_get links' (KInt k)
       = if (Z.max 1 (Z.of_nat idx) <=? k + 1)
            && (k + 1 <? Z.of_nat idx + len scripts)
         then Some (k + 1) else dict_get links (KInt k)).
Proof.
  revert idx fws links.
  induction scripts as [|s scripts IH]; intros idx fws links H.
  - cbn [script_fws] in H. inversion H. subst. exists [].
    split; [now rewrite app_nil_r|]. split; [reflexivity|].
    split; [intros [|j] fw Hj; discriminate Hj|].
    intro k. replace (_ && _) with false; [reflexivity|].
    symmetry. apply andb_false_iff. unfold len. cbn [List.length].
    destruct (Z.max 1 (Z.of_nat idx) <=? k + 1) eqn:H1; [right | now left].
    apply Z.leb_le in H1. apply Z.ltb_ge. lia.
  - cbn [script_fws] in H.
    destruct (list_index names (Z.of_nat idx)) as [n|e] eqn:Hn;
      [|discriminate H].
    replace (Z.of_nat idx + 1) with (Z.of_nat (S idx)) in H by lia.
    apply IH in H. destruct H as (added & -> & Hscripts & Hfws & Hlinks).
    exists (mkFireWork s true n (Z.of_nat idx) :: added).
    split; [now rewrite <- app_assoc|].
    split; [cbn [map task_script]; now rewrite Hscripts|]. split.
    + intros [|j] fw Hj.
      * cbn [nth_error] in Hj. inversion Hj. subst fw.
        rewrite Nat.add_0_r. cbn. now rewrite Hn.
      * cbn [nth_error] in Hj. destruct (Hfws j fw Hj) as (H1 & H2 & H3).
        replace (idx + S j)%nat with (S idx + j)%nat by lia. auto.
    + intro k. rewrite Hlinks. unfold len. cbn [List.length].
      destruct (Z.eqb_spec (Z.of_nat idx) 0) as [H0 | H0]; cbn [negb];
        destruct (Z.leb_spec (Z.max 1 (Z.of_nat (S idx))) (k + 1));
        destruct (Z.ltb_spec (k + 1)
                    (Z.of_nat (S idx) + Z.of_nat (List.length scripts)));
        destruct (Z.leb_spec (Z.max 1 (Z.of_nat idx)) (k + 1));
        destruct (Z.ltb_spec (k + 1)
                    (Z.of_nat idx + Z.of_nat (S (List.length scripts))));
        cbn [andb]; try reflexivity; try lia.
      all: first
             [ rewrite dict_get_set_other by (intro Hk; inversion Hk; lia);
               reflexivity
             | replace (Z.of_nat idx - 1) with k by lia;
               rewrite dict_get_set_same; f_equal; lia ].
Qed.

Lemma script_fws_enough (scripts : list string) (names : list (option string))
  (idx : nat) (fws : list FireWork) (links : list (pykey * Z)) :
  Z.of_nat idx + len scripts <= len names ->
  exists r, script_fws scripts names (Z.of_nat idx) fws links = Ok r.
Proof.
  revert idx fws links.
  induction scripts as [|s scripts IH]; intros idx fws links H.
  - eexists. reflexivity.
  - cbn [script_fws]. unfold len in H. cbn [List.length] in H.
    destruct (list_index_within names (Z.of_nat idx)) as [n Hn];
      [unfold len; lia|].
    rewrite Hn. replace (Z.of_nat idx + 1) with (Z.of_nat (S idx)) by lia.
    apply IH. unfold len. lia.
Qed.

Lemma script_fws_short (scripts : list string) (names : list (option string))
  (idx : nat) (fws : list FireWork) (links : list (pykey * Z)) :
  Z.of_nat idx <= len names ->
  len names < Z.of_nat idx + len scripts ->
  script_fws scripts names (Z.of_nat idx) fws links = Raise IndexError.
Proof.
  revert idx fws links.
  induction scripts as [|s scripts IH]; intros idx fws links Hle H.
  - unfold len in *. cbn [List.length] in H. lia.
  - cbn [script_fws].
    assert (H' : len names < Z.of_nat (S idx) + len scripts)
      by (unfold len in *; cbn [List.length] in H; lia).
    destruct (Z.eq_dec (Z.of_nat idx) (len names)) as [Heq | Hne].
    + rewrite list_index_beyond by lia. reflexivity.
    + destruct (list_index_within names (Z.of_nat idx)) as [n Hn]; [lia|].
      rewrite Hn. replace (Z.of_nat idx + 1) with (Z.of_nat (S idx)) by lia.
      apply IH; unfold len in *; lia.
Qed.

Lemma len_names_or_none (scripts : list string)
  (names : option (list string)) :
  len (names_or_none scripts names)
  = if truthy_list names
    then len (match names with Some l => l | None => [] end)
    else len scripts.
Proof.
  unfold names_or_none, len. destruct (truthy_list names).
  - now rewrite length_map.
  - now rewrite repeat_length.
Qed.

(** X21.  The Workflow that add_scripts hands to lp.add_wf runs the
    scripts in sequence.  Given at least one script and, when names are
    given, no fewer names than scripts: the FireWorks are one per script,
    in the order of the scripts, the one at position j with fw_id j, with
    the name at position j (None when no names are given) and with
    use_shell set; the links lead from every fw_id to the next one, and
    only so; the name of the Workflow is --wf_name, or else the first
    name. *)
Theorem add_scripts_chains_the_scripts (scripts : list string)
  (names : option (list string)) (wf_name : option string) (w : World E) :
  connected w ->
  scripts <> [] ->
  (forall l, names = Some l -> l <> [] -> len scripts <= len l) ->
  exists fws links,
    add_scripts scripts names wf_name w
    = lp_add_wf fws links
        (if truthy_str wf_name then wf_name
         else nth 0 (names_or_none scripts names) None)
        (snd (get_lp w)) /\
    map task_script fws = scripts /\
    (forall j fw, nth_error fws j = Some fw ->
       fw_fw_id fw = Z.of_nat j /\
       fw_name fw = nth j (names_or_none scripts names) None /\
       task_use_shell fw = true) /\
    (forall k,
       dict_get links (KInt k)
       = if (0 <=? k) && (k + 1 <? len scripts) then Some (k + 1) else None).
Proof.
  intros Hc Hne Hnames.
  destruct (get_lp_connected w Hc) as (a & Hok & _).
  assert (Hlen : len scripts <= len (names_or_none scripts names)).
  { rewrite len_names_or_none. destruct names as [l|]; cbn [truthy_list].
    - destruct (len l =? 0) eqn:Hl; cbn [negb]; [lia|].
      apply Hnames; [reflexivity|]. intros ->. discriminate Hl.
    - lia. }
  destruct (script_fws_enough scripts (names_or_none scripts names) 0 [] [])
    as [[fws links] Hr]; [cbn; lia|].
  exists fws, links.
  assert (Hfirst : list_index (names_or_none scripts names) 0
                   = Ok (nth 0 (names_or_none scripts names) None)).
  { destruct (names_or_none scripts names) as [|x l] eqn:Hl.
    - exfalso. destruct scripts; [now apply Hne|].
      unfold len in Hlen. cbn [List.length] in Hlen. lia.
    - apply (list_index_nth (x :: l) 0). reflexivity. }
  split.
  - unfold add_scripts. rewrite (bind_ok _ _ _ _ _ Hok), Hok. cbn [snd].
    unfold bind, lift, ret. cbn [Z.of_nat] in Hr.
    destruct (truthy_str wf_name); [|rewrite Hfirst]; now rewrite Hr.
  - apply (script_fws_adds scripts _ 0 [] []) in Hr.
    destruct Hr as (added & Heq & Hscripts & Hfws & Hlinks).
    cbn [List.app] in Heq. subst added.
    split; [exact Hscripts|]. split.
    + intros j fw Hj. destruct (Hfws j fw Hj) as (H1 & H2 & H3).
      cbn [Nat.add] in H1, H2. split; [exact H1|]. split; [|exact H3].
      assert (Hlt : (j < List.length (names_or_none scripts names))%nat).
      { assert (j < List.length fws)%nat
          by (apply nth_error_Some; rewrite Hj; discriminate).
        rewrite <- (length_map task_script), Hscripts in H.
        unfold len in Hlen. lia. }
      destruct (nth_error (names_or_none scripts names) j) as [x|] eqn:Hx.
      * rewrite (list_index_nth _ _ _ Hx) in H2. injection H2 as <-.
        symmetry. apply nth_error_nth. exact Hx.
      * apply nth_error_None in Hx. lia.
    + intro k. rewrite Hlinks. cbn [dict_get Z.of_nat Z.add].
      replace (Z.max 1 0) with 1 by reflexivity.
      replace (1 <=? k + 1) with (0 <=? k); [reflexivity|].
      destruct (0 <=? k) eqn:H0; symmetry;
        [apply Z.leb_le; apply Z.leb_le in H0
        |apply Z.leb_gt; apply Z.leb_gt in H0]; lia.
Qed.

(** X22.  add_scripts raises IndexError, and adds nothing, when names are
    given and are fewer than the scripts, and when neither scripts nor
    names nor --wf_name are given: lp.add_wf is not called, whatever it
    would do, and the world is the one that get_lp has left. *)
Theorem add_scripts_raises_IndexError (scripts : list string)
  (names : option (list string)) (wf_name : option string) (w : World E) :
  connected w ->
  (exists l, names = Some l /\ l <> [] /\ len l < len scripts) \/
  (scripts = [] /\ truthy_list names = false /\ truthy_str wf_name = false) ->
  add_scripts scripts names wf_name w = (Raise IndexError, snd (get_lp w)).
Proof.
  intros Hc Hcase.
  destruct (get_lp_connected w Hc) as (a & Hok & _).
  unfold add_scripts. rewrite (bind_ok _ _ _ _ _ Hok), Hok. cbn [snd].
  destruct Hcase as [(l & -> & Hne & Hlt) | (-> & Hn & Hw)].
  - assert (Ht : truthy_list (Some l) = true).
    { cbn [truthy_list]. apply negb_true_iff, Z.eqb_neq. unfold len.
      destruct l; [contradiction|]. cbn [List.length]. lia. }
    assert (Hshort : script_fws scripts (names_or_none scripts (Some l)) 0 [] []
                     = Raise IndexError).
    { apply (script_fws_short scripts _ 0 [] []).
      - cbn [Z.of_nat]. unfold len. lia.
      - rewrite len_names_or_none, Ht. cbn [Z.of_nat]. lia. }
    unfold bind, lift, ret.
    destruct (truthy_str wf_name).
    + now rewrite Hshort.
    + destruct (list_index (names_or_none scripts (Some l)) 0) as [x|e] eqn:Hx.
      * now rewrite Hshort.
      * unfold names_or_none in Hx. rewrite Ht in Hx.
        destruct l; [contradiction|]. discriminate Hx.
  - unfold names_or_none. rewrite Hn, Hw. reflexivity.
Qed.

End FurtherOutside.

(** * Concrete runs on the reference LaunchPad *)

Lemma says_no_no : says_no "no".
Proof. exists "n"%char, "o". repeat split; discriminate. Qed.

(** C1: archive of eleven workflows, answered with no, on the theorem. *)
Lemma archive_refused_run :
  connected (sample_world by_name_no_password ["no"]) /\
  selection true by_name_no_password sample_store = Ok (IdList (upto 11)) /\
  PW_CHECK_NUM < len (upto 11) /\
  fst (archive (sample_world by_name_no_password ["no"]))
  = Raise (ValueError "Operation aborted by user.") /\
  untouched (sample_world by_name_no_password ["no"])
    (snd (archive (sample_world by_name_no_password ["no"]))).
Proof.
  assert (Hc : connected (sample_world by_name_no_password ["no"]))
    by reflexivity.
  assert (Hsel : selection true
                   (w_args (sample_world by_name_no_password ["no"]))
                   (w_store (sample_world by_name_no_password ["no"]))
                 = Ok (IdList (upto 11))) by reflexivity.
  assert (Hn : PW_CHECK_NUM < len (upto 11)) by reflexivity.
  split; [exact Hc|]. split; [exact Hsel|]. split; [exact Hn|].
  exact (proj1 (proj1 (proj1 (destructive_commands_confirmation
                                (sample_world by_name_no_password ["no"]) Hc)
                         (upto 11) Hsel Hn)
                  None "no" [] eq_refl eq_refl eq_refl)
           says_no_no).
Defined.

(** C1: the run that contradicts the claim.  purge_wfs on eleven workflows,
    more than PW_CHECK_NUM, with no password and no answer typed, asks
    nothing, raises nothing and purges all eleven. *)
Lemma purge_wfs_asks_no_confirmation :
  PW_CHECK_NUM < len (workflows sample_store) /\
  fst (purge_wfs (sample_world purge_by_name [])) = Ok tt /\
  w_out (snd (purge_wfs (sample_world purge_by_name []))) = [] /\
  w_calls (snd (purge_wfs (sample_world purge_by_name [])))
  = map lp_purge_workflow (upto 11) /\
  workflows (w_store (snd (purge_wfs (sample_world purge_by_name [])))) = [].
Proof. repeat split; reflexivity. Qed.

(** C2: defuse of eleven workflows, answered with no, on the theorem. *)
Lemma defuse_refused_run :
  reversible cmd_defuse = true /\
  connected (sample_world by_name_no_password ["no"]) /\
  selection true by_name_no_password sample_store = Ok (IdList (upto 11)) /\
  fst (func cmd_defuse (sample_world by_name_no_password ["no"]))
  = Raise (ValueError "Operation aborted by user.") /\
  untouched (sample_world by_name_no_password ["no"])
    (snd (func cmd_defuse (sample_world by_name_no_password ["no"]))).
Proof.
  assert (Hc : connected (sample_world by_name_no_password ["no"]))
    by reflexivity.
  assert (Hsel : selection true
                   (w_args (sample_world by_name_no_password ["no"]))
                   (w_store (sample_world by_name_no_password ["no"]))
                 = Ok (IdList (upto 11))) by reflexivity.
  split; [reflexivity|]. split; [exact Hc|]. split; [exact Hsel|].
  refine (proj1 (proj2 (reversible_commands_gate cmd_defuse true lp_defuse_wf
                          (sample_world by_name_no_password ["no"])
                          (upto 11) eq_refl eq_refl Hc Hsel) _)
            None "no" [] eq_refl eq_refl eq_refl says_no_no).
  reflexivity.
Defined.

(** C2: the run that contradicts the claim.  defuse on eleven workflows
    with no password asks for a confirmation, and on the answer no raises
    ValueError without defusing anything. *)
Lemma defuse_asks_for_confirmation :
  fst (defuse (sample_world by_name_no_password ["no"]))
  = Raise (ValueError "Operation aborted by user.") /\
  w_out (snd (defuse (sample_world by_name_no_password ["no"])))
  = [Prompt "Are you sure? This will modify 11 entries. (Y/N)"] /\
  w_calls (snd (defuse (sample_world by_name_no_password ["no"]))) = [].
Proof. repeat split; reflexivity. Qed.

(** C3: archive -i 1 -n w, on the theorem. *)
Lemma id_and_name_rejected_run :
  ambiguous cmd_archive id_and_name /\
  fst (archive (sample_world id_and_name []))
  = Raise (ValueError "Cannot specify both fw_id and name/state/query)") /\
  untouched (sample_world id_and_name [])
    (snd (archive (sample_world id_and_name []))).
Proof.
  assert (Ha : ambiguous cmd_archive (w_args (sample_world id_and_name [])))
    by (split; [reflexivity | left; reflexivity]).
  split; [exact Ha|].
  destruct (ambiguous_selector_rejected cmd_archive
              (sample_world id_and_name []) Ha) as (_ & Hu & Hmsg).
  split; [exact (Hmsg eq_refl) | exact Hu].
Defined.





(** C6: reset, answered with an empty line, on the theorem. *)
Lemma reset_empty_answer_run :
  connected (sample_world by_name_no_password [""]) /\
  fst (reset (sample_world by_name_no_password [""])) = Raise IndexError /\
  untouched (sample_world by_name_no_password [""])
    (snd (reset (sample_world by_name_no_password [""]))).
Proof.
  assert (Hc : connected (sample_world by_name_no_password [""]))
    by reflexivity.
  split; [exact Hc|].
  exact (reset_empty_answer_raises_IndexError
           (sample_world by_name_no_password [""]) None [] 11
           Hc eq_refl eq_refl eq_refl eq_refl).
Defined.

(** C7: eleven ids and skip_pw, in a namespace without password, on the
    theorem. *)
Lemma pw_check_skipped_run :
  password no_options = Absent /\
  PW_CHECK_NUM < len (upto 11) /\
  pw_check (IdList (upto 11)) true (sample_world no_options [])
  = (Ok (IdList (upto 11)), sample_world no_options []).
Proof.
  split; [reflexivity|]. split; [reflexivity|].
  exact (proj1 (pw_check_returns_ids_unchanged (upto 11) true
                  (sample_world no_options []) (or_intror eq_refl))).
Defined.

(** C9: --query, --name and --state together, on the theorem. *)
Lemma three_filters_run :
  truthy_list (fw_id three_filters) = false /\
  literal_eval (the_str (query three_filters))
  = Ok (PDict [(KStr "name", PStr "old"); (KStr "spec.x", PInt 1)]) /\
  combined_query three_filters
    [(KStr "name", PStr "old"); (KStr "spec.x", PInt 1)]
  = [(KStr "name", PStr "w"); (KStr "spec.x", PInt 1);
     (KStr "state", PStr "READY")] /\
  parse_helper false false (sample_world three_filters [])
  = bind (read (fun s =>
            get_fw_ids s
              (PDict (combined_query three_filters
                        [(KStr "name", PStr "old"); (KStr "spec.x", PInt 1)]))
              Default Default Default))
      (fun ids => pw_check ids false) (sample_world three_filters []).
Proof.
  split; [reflexivity|]. split; [reflexivity|]. split; [reflexivity|].
  exact (proj1 (parse_helper_combines_filters false false
                  (sample_world three_filters [])
                  [(KStr "name", PStr "old"); (KStr "spec.x", PInt 1)]
                  eq_refl eq_refl)).
Defined.



(** * Further concrete runs *)


(** archive -n w on the eleven sample Workflows, answered with an empty line,
    raises IndexError. *)
Lemma empty_answer_run :
  fst (archive (sample_world by_name_no_password [""])) = Raise IndexError /\
  untouched (sample_world by_name_no_password [""])
    (snd (archive (sample_world by_name_no_password [""]))).
Proof.
  exact (confirmation_empty_answer_raises_IndexError cmd_archive true
           (sample_world by_name_no_password [""]) (upto 11) None []
           eq_refl eq_refl eq_refl eq_refl eq_refl eq_refl eq_refl).
Defined.

Lemma says_yes_y : says_yes "y".
Proof. exists "". now right. Qed.

(** defuse -n w, confirmed with y while the date changes, is refused. *)
Lemma midnight_run :
  fst (defuse (midnight_world by_name_no_password ["y"]))
  = Raise (ValueError password_required) /\
  untouched (midnight_world by_name_no_password ["y"])
    (snd (defuse (midnight_world by_name_no_password ["y"]))).
Proof.
  refine (confirmation_refused_when_date_changes cmd_defuse true
            (midnight_world by_name_no_password ["y"]) (upto 11) None "y" []
            eq_refl eq_refl eq_refl eq_refl eq_refl eq_refl eq_refl
            says_yes_y _).
  discriminate.
Defined.

(** refresh -n w on the eleven sample Workflows, answered with no, is
    aborted. *)
Lemma refresh_refused_run :
  fst (refresh (sample_world by_name_no_password ["no"]))
  = Raise (ValueError "Operation aborted by user.") /\
  untouched (sample_world by_name_no_password ["no"])
    (snd (refresh (sample_world by_name_no_password ["no"]))).
Proof.
  exact (proj1 (checked_commands_gated cmd_refresh true
                  (sample_world by_name_no_password ["no"]) (upto 11)
                  eq_refl eq_refl eq_refl eq_refl)
           None "no" [] eq_refl eq_refl eq_refl says_no_no).
Defined.

(** archive -i 1 99 2 on a LaunchPad that raises on the missing Workflow
    99: Workflow 1 is archived and stays so, Workflow 2 is not reached. *)
Lemma archive_stops_run :
  fst (@archive Strict (sample_world_of Strict sample_store three_ids []))
  = Raise (LaunchPadError "no such Workflow") /\
  w_calls (snd (@archive Strict
                  (sample_world_of Strict sample_store three_ids [])))
  = [lp_archive_wf 1; lp_archive_wf 99] /\
  map doc_state
    (workflows
       (w_store (snd (@archive Strict
                        (sample_world_of Strict sample_store three_ids [])))))
  = "ARCHIVED" :: repeat "READY" 10.
Proof.
  destruct (batch_stops_at_first_failure (E := Strict) cmd_archive true
              lp_archive_wf (sample_world_of Strict sample_store three_ids [])
              [1] [2] 99
              (ref_with_workflows sample_store
                 (ref_set_state "ARCHIVED" 1 (workflows sample_store)))
              (ref_with_workflows sample_store
                 (ref_set_state "ARCHIVED" 1 (workflows sample_store)))
              (LaunchPadError "no such Workflow")
              eq_refl eq_refl eq_refl)
    as (H1 & H2 & H3 & _); try reflexivity.
  - left. cbn. lia.
  - cbn [func] in H1, H2, H3.
    split; [exact H1|]. split; [exact H2|]. rewrite H3. reflexivity.
Defined.

(** archive on a LaunchPad whose server is out of reach. *)
Lemma unreachable_run :
  ~ connected (sample_world_of Unreachable sample_store by_name_no_password [])
  /\
  fst (@archive Unreachable
         (sample_world_of Unreachable sample_store by_name_no_password []))
  = Raise (ValueError (connect_error None)) /\
  w_calls (snd (@archive Unreachable
                  (sample_world_of Unreachable sample_store
                     by_name_no_password []))) = [].
Proof.
  assert (H : ~ connected (sample_world_of Unreachable sample_store
                             by_name_no_password []))
    by (intro H; discriminate H).
  split; [exact H|].
  destruct (no_command_runs_unconnected (E := Unreachable) cmd_archive
              (sample_world_of Unreachable sample_store by_name_no_password [])
              H) as (H1 & (H2 & _) & _).
  split; [exact H1 | exact H2].
Defined.

(** get_lp with -l lp.yaml and -s: args.loglvl stays as it is. *)
Lemma silenced_with_file_run :
  get_lp (sample_world (set_silencer with_file true) [])
  = (Ok tt, sample_world (set_silencer with_file true) []).
Proof.
  exact (proj1 (silencer_unused_with_a_file (sample_world with_file []) true
                  eq_refl)).
Defined.

(** get_fws --qid q1 -d count prints the ids 3 and 1, not the number 2. *)
Lemma count_by_reservation_run :
  w_out (snd (get_fws (sample_world count_by_reservation [])))
  = [Print_output json_dumps (PList [PInt 3; PInt 1])].
Proof.
  refine (proj1 (proj2 (count_by_reservation_prints_the_ids
                          (sample_world count_by_reservation []) "q1" [3; 1]
                          eq_refl eq_refl eq_refl eq_refl eq_refl eq_refl _
                          eq_refl eq_refl eq_refl))).
  discriminate.
Defined.

(** get_wfs -i 1 -t raises KeyError(0). *)
Lemma one_in_a_table_run :
  fst (get_wfs (sample_world one_in_a_table [])) = Raise (KeyError (KInt 0)).
Proof.
  rewrite (proj1 (proj2 (proj2 (table_needs_two_documents
                                  (sample_world one_in_a_table [])
                                  (snd (get_wfs_results
                                          (sample_world one_in_a_table [])))
                                  [PDict [(KStr "name", PStr "w--1");
                                          (KStr "state", PStr "READY");
                                          (KStr "links",
                                           PDict (wf_links sample_store))]]
                                  eq_refl eq_refl)))
             _ eq_refl eq_refl).
  reflexivity.
Defined.

(** The format less on the document of a sample FireWork. *)
Lemma less_hides_run :
  exists d',
    trim_fw_dict (Some "less") (ref_doc_dict (mkDoc 1 "w" "READY" 1 99))
    = Ok d' /\
    dict_get d' (KStr "spec") = None /\
    dict_get d' (KStr "launches") = None /\
    dict_get d' (KStr "state") = Some (PStr "READY").
Proof.
  assert (Hnd : NoDup (map fst (ref_doc_dict (mkDoc 1 "w" "READY" 1 99)))).
  { cbn. repeat constructor; cbn; intuition discriminate. }
  destruct (proj2 (proj2 (display_format_hides_keys (Some "less")
                            (ref_doc_dict (mkDoc 1 "w" "READY" 1 99)) Hnd)))
    as (d' & Hd & Hhid & Hkept); [discriminate|].
  exists d'. split; [exact Hd|].
  split; [apply Hhid; right; now left|].
  split; [apply Hhid; right; right; now left|].
  rewrite Hkept; [reflexivity|].
  cbn. intuition discriminate.
Defined.

(** The id 5 read back from the name w--5. *)
Lemma tagged_name_run :
  get_fwid (PStr ("w" ++ "--" ++ str_of_Z 5)) = Ok 5.
Proof.
  destruct (tagged_name_read_back (E := Reference)
              [(KStr "name", PStr "w"); (KStr "state", PStr "READY")] "w" 5
              eq_refl eq_refl eq_refl) as (d' & _ & _ & H).
  exact H.
Defined.

Lemma round_links_endless : endless round_links 1.
Proof.
  exists (fun x => x = 1 \/ x = 2). split; [now left|].
  intros x [-> | ->].
  - exists 2. split; [|now right]. exists [3; 2]. split; cbn; auto.
  - exists 1. split; [|now left]. exists [1]. split; cbn; auto.
Qed.

(** get_children on links that go round, at the recursion limit of the
    reference LaunchPad. *)
Lemma round_links_run :
  get_children (@recursion_limit Reference) round_links 1 3
  = Raise RecursionError.
Proof.
  exact (get_children_cyclic_links (@recursion_limit Reference) round_links
           1 3 round_links_endless).
Defined.

(** get_fws -i 1 on the sample database. *)
Lemma get_fws_read_only_run :
  untouched (sample_world one_firework [])
    (snd (get_fws (sample_world one_firework []))) /\
  unprompted (sample_world one_firework [])
    (snd (get_fws (sample_world one_firework []))).
Proof.
  exact (reporting_commands_read_only cmd_get_fws
           (sample_world one_firework []) eq_refl).
Defined.

(** purge_wfs without a selector. *)
Lemma purge_without_selector_run :
  fst (purge_wfs (sample_world no_options []))
  = Raise (ValueError "Please specify exactly one of (fw_id, name, state)") /\
  w_calls (snd (purge_wfs (sample_world no_options []))) = [].
Proof.
  destruct (purge_wfs_requires_selector (sample_world no_options [])
              eq_refl eq_refl eq_refl) as (_ & (H1 & _) & H2).
  split; [exact (H2 eq_refl) | exact H1].
Defined.

(** get_fws -i 1 --qid q1. *)
Lemma id_and_reservation_run :
  fst (get_fws (sample_world id_and_reservation []))
  = Raise (ValueError "Please specify exactly one of (fw_id, name, qid)").
Proof.
  refine (proj1 (get_fws_rejects_qid_with_id_or_name
                   (sample_world id_and_reservation []) eq_refl _ eq_refl
                   (or_introl eq_refl))).
  cbn. lia.
Defined.

(** init with five empty answers: what is shown on the terminal. *)
Lemma init_defaults_run :
  w_out (snd (init_yaml "my_launchpad.yaml"
                (sample_world no_options [""; ""; ""; ""; ""])))
  = [Print_text "Please supply the following configuration values";
     Print_text ("(press Enter if you want to accept the defaults)" ++ newline);
     Prompt "Enter host (default: localhost) : ";
     Prompt "Enter port (default: 27017) : ";
     Prompt "Enter name (default: fireworks) : ";
     Prompt "Enter username (default: None) : ";
     Prompt "Enter password (default: None) : ";
     Print_text "open my_launchpad.yaml";
     Print_yaml (PDict [(KStr "host", PStr "localhost");
                        (KStr "port", PInt 27017);
                        (KStr "name", PStr "fireworks");
                        (KStr "username", PNone);
                        (KStr "password", PNone)]);
     Print_text (newline ++ "Configuration written to my_launchpad.yaml!")].
Proof.
  rewrite (init_yaml_document "my_launchpad.yaml"
             (sample_world no_options [""; ""; ""; ""; ""])
             "" "" "" "" "" [] 27017 eq_refl (or_introl (conj eq_refl eq_refl))).
  reflexivity.
Defined.

(** init with the answer abc for the port. *)
Lemma init_bad_port_run :
  init_yaml "my_launchpad.yaml"
    (sample_world no_options [""; "abc"; ""; ""; ""])
  = (Raise (ValueError "invalid literal for int() with base 10"),
     asked (sample_world no_options [""; "abc"; ""; ""; ""]) []).
Proof.
  refine (init_yaml_rejects_bad_port "my_launchpad.yaml"
            (sample_world no_options [""; "abc"; ""; ""; ""])
            "" "abc" "" "" "" [] _ eq_refl _ eq_refl).
  discriminate.
Defined.

(** add_scripts a.sh b.sh: one link, from 0 to 1. *)
Lemma two_scripts_run :
  exists fws links,
    add_scripts ["a.sh"; "b.sh"] None None (sample_world no_options [])
    = lp_add_wf fws links None (sample_world no_options []) /\
    map task_script fws = ["a.sh"; "b.sh"] /\
    dict_get links (KInt 0) = Some 1 /\
    dict_get links (KInt 1) = None.
Proof.
  destruct (add_scripts_chains_the_scripts ["a.sh"; "b.sh"] None None
              (sample_world no_options []) eq_refl)
    as (fws & links & Hrun & Hscripts & _ & Hlinks).
  - discriminate.
  - intros l H. discriminate H.
  - exists fws, links. split; [exact Hrun|]. split; [exact Hscripts|].
    split; [exact (Hlinks 0) | exact (Hlinks 1)].
Defined.

(** add_scripts a.sh b.sh -n first. *)
Lemma one_name_two_scripts_run :
  add_scripts ["a.sh"; "b.sh"] (Some ["first"]) None
    (sample_world no_options [])
  = (Raise IndexError, sample_world no_options []).
Proof.
  refine (add_scripts_raises_IndexError ["a.sh"; "b.sh"] (Some ["first"]) None
            (sample_world no_options []) eq_refl (or_introl _)).
  exists ["first"]. split; [reflexivity|]. split; [discriminate|].
  cbn. lia.
Defined.

(** track_fws -i 1 2 3 -x err.txt on a LaunchPad where FireWork 2 has no
    tracker line. *)
Lemma track_three_run :
  w_out (snd (@track_fws Strict
                (sample_world_of Strict sample_store track_three [])))
  = [Print_text (join newline ["# FW id: 1, FW name: w"; "## Launch id: 10";
                               "out: done"]);
     Print_text (join newline [">------<"; "# FW id: 3, FW name: w";
                               "## Launch id: 30"; "out: done"])].
Proof.
  refine (proj2 (track_fws_report (E := Strict)
                   (sample_world_of Strict sample_store track_three [])
                   [1; 2; 3]
                   (fun f => if f =? 2 then []
                             else [(10 * f, [mkTracker "out.txt" "out: done";
                                             mkTracker "err.txt" "err: none"])])
                   (fun _ => "w") eq_refl eq_refl _ _)).
  - intros f [<- | [<- | [<- | []]]]; reflexivity.
  - intros f [<- | [<- | [<- | []]]] _; reflexivity.
Defined.

Lemma says_yes_Y : says_yes "Yes".
Proof. exists "es". now left. Qed.

(** reset, answered with Yes. *)
Lemma reset_confirmed_run :
  w_calls (snd (reset (sample_world by_name_no_password ["Yes"])))
  = [lp_reset (Some "2013-02-07")] /\
  w_out (snd (reset (sample_world by_name_no_password ["Yes"])))
  = [Prompt "Are you sure? This will RESET 11 workflows and all data. (Y/N)"].
Proof.
  destruct (reset_confirmed_passes_the_date
              (sample_world by_name_no_password ["Yes"]) None "Yes" [] 11
              eq_refl eq_refl eq_refl eq_refl eq_refl says_yes_Y)
    as (H1 & H2 & _).
  split; [exact H1 | exact H2].
Defined.

(** recover_offline without -i on the sample offline runs, the second of
    which cannot be recovered. *)
Lemma recover_strictly_run :
  fst (recover_offline (sample_world no_options []))
  = Raise (LaunchPadError "bad offline record") /\
  w_calls (snd (recover_offline (sample_world no_options [])))
  = [lp_recover_offline (PInt 1) false; lp_recover_offline (PInt 2) false] /\
  w_log (snd (recover_offline (sample_world no_options []))) = [].
Proof.
  destruct (recover_offline_stops_at_first_error (sample_world no_options [])
              [PDict [(KStr "launch_id", PInt 1)]]
              [PDict [(KStr "launch_id", PInt 3)]]
              (PDict [(KStr "launch_id", PInt 2)]) [PInt 1] (PInt 2)
              (snd (ref_exec (lp_recover_offline (PInt 1) false) sample_store))
              (snd (ref_exec (lp_recover_offline (PInt 1) false) sample_store))
              (LaunchPadError "bad offline record")
              eq_refl eq_refl)
    as (H1 & H2 & _ & H4); try reflexivity.
  - repeat constructor.
  - split; [exact H1|]. split; [exact H2 | exact H4].
Defined.

(** defuse -q with a query that is no Python literal. *)
Lemma malformed_query_run :
  fst (defuse (sample_world malformed_query []))
  = Raise (ValueError "malformed node or string") /\
  untouched (sample_world malformed_query [])
    (snd (defuse (sample_world malformed_query []))).
Proof.
  destruct (proj1 (malformed_query_aborts cmd_defuse true false
                     (sample_world malformed_query []) "READY"
                     eq_refl eq_refl eq_refl eq_refl
                     (fun H => match String.eqb_neq "READY" ""
                               with conj f _ => f eq_refl H end))
              (ValueError "malformed node or string") eq_refl)
    as (H1 & H2 & _).
  split; [exact H1 | exact H2].
Defined.
